(** * auto_latexmk: discovery, classification, execution and reporting

    A shallow embedding of [src/z_scripts/auto_latexmk.py] and the
    properties its specification states about it.

    Conventions of the model.
    - A Python [str] is a [string]: the sequence of the bytes of its UTF-8
      encoding; a lone surrogate that stands for an undecodable byte of a
      file name is that byte.
    - [str.strip] removes the white space of Unicode, as [str.isspace]
      defines it, on both sides.  [str.lower] depends on the Unicode
      character database and is left abstract ([str_lower]);
      [ascii_lower] maps the letters A to Z only and serves to speak of
      the case of ASCII letters.
    - A text file is read with universal newlines, so the text the program
      sees ends its lines with the line feed only.
    - A file cannot be opened, or is read in full, or is read up to some
      point and raises from there on: the reads are lazy, and a byte that
      does not decode is met only when the reading gets to it.
    - Exceptions are the subclasses of [Exception] the program can meet;
      [str(e)] is left abstract ([exc_str]).
    - Floats are binary64 numbers ([PrimFloat]); their decimal rendering
      ([repr]) is left abstract ([float_repr]).
    - [os.path.join] and [os.path.abspath] depend on the platform and on the
      current directory and are left abstract.
    - A log message or the argument of a call of [print] is the list of the
      pieces of its f-string, not the rendered text.
    - [print] raises when the standard output does not take the text
      ([stdout_error]); writing to an open file raises when the file does
      not take it ([rejected]).
    - The completion order of the futures and the fate of each worker are
      inputs of the scheduler.  What a worker logs stays with the worker. *)

From Stdlib Require Import String Ascii List ZArith Bool Lia Arith.
From Stdlib Require Import QArith Floats DecimalString Permutation.
Import ListNotations.
Set Warnings "-register-all".
Close Scope Q_scope.
Open Scope string_scope.
Open Scope list_scope.
Open Scope nat_scope.

(* ================================================================== *)
(** ** Python strings *)

Module PyStr.

Definition newline : ascii := "010"%char.
Definition backslash : ascii := "092"%char.
Definition dquote : ascii := "034"%char.
Definition escape : ascii := "027"%char.

Definition is_newline (c : ascii) : bool := Ascii.eqb c newline.

(** The white space of one byte: TAB, LF, VT, FF, CR, FS, GS, RS, US and
    the space. *)
Definition space1 (c : ascii) : bool :=
  let n := nat_of_ascii c in
  ((9 <=? n) && (n <=? 13)) || ((28 <=? n) && (n <=? 32)).

Definition byte_is (k : nat) (c : ascii) : bool := nat_of_ascii c =? k.

Definition byte_in (lo hi : nat) (c : ascii) : bool :=
  (lo <=? nat_of_ascii c) && (nat_of_ascii c <=? hi).

(** The white space of two bytes: U+0085 and U+00A0. *)
Definition space2 (c0 c1 : ascii) : bool :=
  byte_is 194 c0 && (byte_is 133 c1 || byte_is 160 c1).

(** The white space of three bytes: U+1680, U+2000 to U+200A, U+2028,
    U+2029, U+202F, U+205F and U+3000. *)
Definition space3 (c0 c1 c2 : ascii) : bool :=
  (byte_is 225 c0 && byte_is 154 c1 && byte_is 128 c2)
  || (byte_is 226 c0 && byte_is 128 c1
      && (byte_in 128 138 c2 || byte_is 168 c2 || byte_is 169 c2 || byte_is 175 c2))
  || (byte_is 226 c0 && byte_is 129 c1 && byte_is 159 c2)
  || (byte_is 227 c0 && byte_is 128 c1 && byte_is 128 c2).

(** The number of bytes of the white-space character the string starts
    with; 0 when it starts with none.  The characters are those
    [str.isspace] accepts. *)
Definition space_width (s : string) : nat :=
  match s with
  | String c0 s1 =>
      if space1 c0 then 1
      else
        match s1 with
        | String c1 s2 =>
            if space2 c0 c1 then 2
            else
              match s2 with
              | String c2 _ => if space3 c0 c1 c2 then 3 else 0
              | EmptyString => 0
              end
        | EmptyString => 0
        end
  | EmptyString => 0
  end.

(** [s[n:]] *)
Fixpoint drop (n : nat) (s : string) : string :=
  match n, s with
  | S n', String _ s' => drop n' s'
  | _, _ => s
  end.

(** The letters A to Z in lower case, every other byte as it is. *)
Definition ascii_lower_char (c : ascii) : ascii :=
  let n := nat_of_ascii c in
  if (65 <=? n) && (n <=? 90) then ascii_of_nat (n + 32) else c.

Fixpoint ascii_lower (s : string) : string :=
  match s with
  | EmptyString => EmptyString
  | String c s' => String (ascii_lower_char c) (ascii_lower s')
  end.

(** Leading white space goes, one character at a step; there are no more
    characters than bytes. *)
Fixpoint lstrip_from (steps : nat) (s : string) : string :=
  match steps with
  | 0 => s
  | S steps' =>
      match space_width s with
      | 0 => s
      | k => lstrip_from steps' (drop k s)
      end
  end.

Definition lstrip (s : string) : string := lstrip_from (String.length s) s.

(** Whether the string is white space throughout. *)
Definition all_space (s : string) : bool := String.eqb (lstrip s) EmptyString.

(** Trailing white space goes: the text is cut where the rest of it is
    white space throughout. *)
Fixpoint rstrip (s : string) : string :=
  match s with
  | EmptyString => EmptyString
  | String c s' => if all_space s then EmptyString else String c (rstrip s')
  end.

Definition strip (s : string) : string := rstrip (lstrip s).

Definition startswith (s p : string) : bool := String.prefix p s.

(** [needle in s] *)
Fixpoint contains (needle s : string) : bool :=
  String.prefix needle s ||
  match s with
  | EmptyString => false
  | String _ s' => contains needle s'
  end.

Fixpoint endswith (s p : string) : bool :=
  String.eqb s p ||
  match s with
  | EmptyString => false
  | String _ s' => endswith s' p
  end.

(** [s.replace(a, b)] for one-character [a] and [b]. *)
Fixpoint replace_char (a b : ascii) (s : string) : string :=
  match s with
  | EmptyString => EmptyString
  | String c s' => String (if Ascii.eqb c a then b else c) (replace_char a b s')
  end.

(** [f.readline()] on the text that is left: the line, its line feed
    included, and the rest; the empty string at the end of the file. *)
Fixpoint readline (s : string) : string * string :=
  match s with
  | EmptyString => (EmptyString, EmptyString)
  | String c s' =>
      if is_newline c then (String c EmptyString, s')
      else let (l, r) := readline s' in (String c l, r)
  end.

(** The lines a file object yields when it is iterated. *)
Fixpoint readlines (s : string) : list string :=
  match s with
  | EmptyString => []
  | String c s' =>
      if is_newline c then String c EmptyString :: readlines s'
      else match readlines s' with
           | [] => [String c EmptyString]
           | l :: ls => String c l :: ls
           end
  end.

Fixpoint join (sep : string) (l : list string) : string :=
  match l with
  | [] => EmptyString
  | [x] => x
  | x :: l' => x ++ sep ++ join sep l'
  end.

Fixpoint repeat_str (s : string) (n : nat) : string :=
  match n with
  | 0 => EmptyString
  | S n' => s ++ repeat_str s n'
  end.

Definition str_of_nat (n : nat) : string :=
  NilEmpty.string_of_uint (Nat.to_uint n).

(** [f"{s:>{width}}"] *)
Definition rjust (s : string) (width : nat) : string :=
  repeat_str " " (width - String.length s) ++ s.

End PyStr.
Import PyStr.

(* ================================================================== *)
(** ** Values, exceptions, dictionaries *)

Inductive PyKey : Type :=
| KStr (s : string)
| KInt (z : Z).

Inductive PyVal : Type :=
| VNone
| VBool (b : bool)
| VStr (s : string)
| VFloat (f : float)
| VList (l : list string).

(** The exceptions of class [Exception] that occur in the program. *)
Inductive Exc : Type :=
| KeyError (k : PyKey)
| TypeError
| ValueError
| TimeoutExpired
| UnicodeDecodeError (data : string)
| UnicodeEncodeError (text : string)
| OSError (what : string)
| BrokenProcessPool.

Inductive PyResult (A : Type) : Type :=
| Ok (a : A)
| Raise (e : Exc).
Arguments Ok {A} a.
Arguments Raise {A} e.

Definition key_eqb (a b : PyKey) : bool :=
  match a, b with
  | KStr s, KStr t => String.eqb s t
  | KInt x, KInt y => Z.eqb x y
  | _, _ => false
  end.

(** A [dict]: its items in insertion order, no key twice. *)
Definition PyDict : Type := list (PyKey * PyVal).

Fixpoint getitem (d : PyDict) (k : PyKey) : PyResult PyVal :=
  match d with
  | [] => Raise (KeyError k)
  | (k', v) :: d' => if key_eqb k' k then Ok v else getitem d' k
  end.

(** [d[k] = v]: a present key keeps its place, a new one goes last. *)
Fixpoint setitem (d : PyDict) (k : PyKey) (v : PyVal) : PyDict :=
  match d with
  | [] => [(k, v)]
  | (k', v') :: d' =>
      if key_eqb k' k then (k', v) :: d' else (k', v') :: setitem d' k v
  end.

(** [d.update(other)] *)
Definition update (d other : PyDict) : PyDict :=
  fold_left (fun acc kv => setitem acc (fst kv) (snd kv)) other d.

Definition copy (d : PyDict) : PyDict := d.

(** Truth value of an object, as [not] and [if] take it. *)
Definition truthy (v : PyVal) : bool :=
  match v with
  | VNone => false
  | VBool b => b
  | VStr s => negb (String.eqb s EmptyString)
  | VFloat f => negb (PrimFloat.eqb f 0%float)
  | VList l => match l with [] => false | _ => true end
  end.

(** The pieces of an f-string: literal text and the objects formatted into
    it.  Messages and printed lines are kept as such lists. *)
Inductive Fragment : Type :=
| FText (s : string)
| FVal (v : PyVal)
| FFix2 (v : PyVal)
| FExc (e : Exc).

Definition Message : Type := list Fragment.

Inductive Level : Type := DEBUG | INFO | WARNING | ERROR.

Definition LogRecord : Type := (Level * Message)%type.

(* ================================================================== *)
(** ** The world the discovery phase reads *)

(** What [open(path, "r", encoding="utf-8")] and the reads after it give:
    the text of the file; or an exception when the file is opened; or, for
    a file that does not decode in full, the text the reads deliver before
    they get to what does not decode, and the exception they raise there. *)
Inductive FileRead : Type :=
| Readable (text : string)
| Unreadable (e : Exc)
| Broken (good : string) (e : Exc).

(** A directory as [os.walk] lists it: its sub-directories and its other
    entries, each in the order of the listing. *)
Inductive DirTree : Type :=
| Dir (subdirs : list (string * DirTree)) (files : list string).

Record World : Type := mkWorld {
  listing : string -> option DirTree;
  file : string -> FileRead;
  logged : list LogRecord
}.

Definition logging_error (w : World) (m : Message) : World :=
  {| listing := listing w; file := file w; logged := logged w ++ [(ERROR, m)] |}.

(** The dict a task is, with its four keys. *)
Record Task : Type := mkTask {
  tex_file : string;
  subdir : string;
  engine : string;
  append_info : option string
}.

Definition opt_val (o : option string) : PyVal :=
  match o with
  | Some s => VStr s
  | None => VNone
  end.

Definition task_dict (t : Task) : PyDict :=
  [ (KStr "tex_file", VStr (tex_file t));
    (KStr "subdir", VStr (subdir t));
    (KStr "engine", VStr (engine t));
    (KStr "append_info", opt_val (append_info t)) ].

(* ================================================================== *)
(** ** Classifier *)

(** A line as [readline] returns it before the end of the file: some text
    without a line feed, and the line feed. *)
Fixpoint complete_line (l : string) : bool :=
  match l with
  | EmptyString => false
  | String c l' =>
      if is_newline c then String.eqb l' EmptyString else complete_line l'
  end.

(** The lines a file object gives before it raises, when [good] is the
    text that decodes: a line is returned once its line feed has been
    read. *)
Definition lines_before_error (good : string) : list string :=
  filter complete_line (readlines good).

Section Classifier.

(** [str.lower] *)
Variable str_lower : string -> string.

(** The loop over the first three lines of [is_main_tex_file]: [rest] is
    the text the file object has not read yet. *)
Fixpoint scan_directives (n : nat) (rest : string) (exclude_flag include_flag : bool)
  : bool * bool :=
  match n with
  | 0 => (exclude_flag, include_flag)
  | S n' =>
      let (line, rest') := readline rest in
      if String.eqb line EmptyString then (exclude_flag, include_flag)
      else
        let line_strip := str_lower (strip line) in
        let exclude_flag :=
          if startswith line_strip "% auto-latexmk" then
            if contains "exclude" line_strip || contains "skip" line_strip
            then true else exclude_flag
          else exclude_flag in
        let include_flag :=
          if startswith line_strip "% auto-latexmk" then
            if contains "include" line_strip then true else include_flag
          else include_flag in
        scan_directives n' rest' exclude_flag include_flag
  end.

(** A file that does not decode in full raises in the loop or, at the
    latest, when [f.read()] reads all of it. *)
Definition is_main_tex_file (w : World) (tex_file_path : string) (only_include_mode : bool)
  : bool * World :=
  match file w tex_file_path with
  | Readable text =>
      let (exclude_flag, include_flag) := scan_directives 3 text false false in
      let content := text in
      let has_docclass := contains "\documentclass" content in
      if negb has_docclass then (false, w)
      else if only_include_mode then (include_flag, w)
      else (negb exclude_flag, w)
  | Unreadable e | Broken _ e =>
      (false,
       logging_error w
         [FText "Error reading "; FVal (VStr tex_file_path); FText ": "; FExc e])
  end.

End Classifier.

(** The test of the first line in [get_tex_engine]. *)
Definition first_line_engine (first_line : string) : option (string * option string) :=
  if startswith first_line "% !TEX" then
    let first_line := strip first_line in
    if contains "xelatex" first_line then Some ("xelatex", Some first_line)
    else if contains "pdflatex" first_line then Some ("pdflatex", Some first_line)
    else if contains "lualatex" first_line then Some ("lualatex", Some first_line)
    else None
  else None.

(** The second loop of [get_tex_engine], over the lines of a file that is
    read to its end. *)
Fixpoint ctex_scan (lines : list string) : option string :=
  match lines with
  | [] => None
  | line :: lines' =>
      let line := strip line in
      if contains "\begin{document}" line then None
      else if contains "ctex" line then Some line
      else ctex_scan lines'
  end.

(** The same loop over the lines of a file whose reading raises [e] after
    them. *)
Fixpoint ctex_scan_before_error (e : Exc) (lines : list string)
  : PyResult (option string) :=
  match lines with
  | [] => Raise e
  | line :: lines' =>
      let line := strip line in
      if contains "\begin{document}" line then Ok None
      else if contains "ctex" line then Ok (Some line)
      else ctex_scan_before_error e lines'
  end.

Definition get_tex_engine (w : World) (tex_file_path default_engine : string)
  : (string * option string) * World :=
  let failed (e : Exc) :=
    ((default_engine, None),
     logging_error w
       [FText "Error reading "; FVal (VStr tex_file_path); FText ": "; FExc e]) in
  match file w tex_file_path with
  | Readable text =>
      let first_line := strip (fst (readline text)) in
      match first_line_engine first_line with
      | Some r => (r, w)
      | None =>
          match ctex_scan (readlines text) with
          | Some line => (("xelatex", Some line), w)
          | None => ((default_engine, None), w)
          end
      end
  | Unreadable e => failed e
  | Broken good e =>
      match lines_before_error good with
      | [] => failed e
      | line :: _ =>
          let first_line := strip line in
          match first_line_engine first_line with
          | Some r => (r, w)
          | None =>
              match ctex_scan_before_error e (lines_before_error good) with
              | Ok (Some line) => (("xelatex", Some line), w)
              | Ok None => ((default_engine, None), w)
              | Raise e' => failed e'
              end
          end
      end
  end.

(* ================================================================== *)
(** ** Task discovery *)

Section Discovery.

Variable str_lower : string -> string.
(** [os.path.join] and [os.path.abspath] *)
Variable path_join : string -> string -> string.
Variable abspath : string -> string.

Definition normalize (p : string) : string := replace_char backslash "/" p.

(** [os.walk(top, topdown=True)] when the caller keeps, of the listed
    sub-directories, those that [keep] accepts: the (dirpath, filenames)
    pairs in the order they are yielded. *)
Fixpoint os_walk (keep : string -> bool) (top : string) (t : DirTree)
  : list (string * list string) :=
  match t with
  | Dir subdirs files =>
      (top, files) ::
      (fix walk_subdirs (l : list (string * DirTree)) : list (string * list string) :=
         match l with
         | [] => []
         | (d, sub) :: l' =>
             (if keep d then os_walk keep (path_join top d) sub else [])
             ++ walk_subdirs l'
         end) subdirs
  end.

Definition SKIP_DIRS : list string := [".git"; ".aux"].

Definition not_in_skip_dirs (d : string) : bool :=
  negb (existsb (String.eqb d) SKIP_DIRS).

(** The body of the inner loop of [generate_compile_tasks]. *)
Definition visit_tex_file (default_engine : string) (only_include_mode : bool)
  (dirpath : string) (acc : list Task * World) (tex_file_item : string)
  : list Task * World :=
  let (tasks, w) := acc in
  let tex_file := normalize (abspath (path_join dirpath tex_file_item)) in
  let (is_main, w) := is_main_tex_file str_lower w tex_file only_include_mode in
  if is_main then
    let '((engine, append_info), w) := get_tex_engine w tex_file default_engine in
    let engine := if String.eqb engine "pdflatex" then "pdf" else engine in
    (tasks ++ [ {| tex_file := tex_file;
                   subdir := normalize dirpath;
                   engine := engine;
                   append_info := append_info |} ], w)
  else (tasks, w).

(** The body of the outer loop. *)
Definition visit_dir (default_engine : string) (only_include_mode : bool)
  (acc : list Task * World) (entry : string * list string) : list Task * World :=
  let (dirpath, files) := entry in
  let tex_file_list := filter (fun f => endswith f ".tex") files in
  fold_left (visit_tex_file default_engine only_include_mode dirpath) tex_file_list acc.

Definition generate_compile_tasks (w : World) (root_dir default_engine : string)
  (only_include_mode : bool) : list Task * World :=
  let entries :=
    match listing w root_dir with
    | Some t => os_walk not_in_skip_dirs root_dir t
    | None => []
    end in
  fold_left (visit_dir default_engine only_include_mode) entries ([], w).

End Discovery.

(* ================================================================== *)
(** ** Commands: a state, and a result or an exception *)

Definition Cmd (S A : Type) : Type := S -> PyResult A * S.

Definition ret {S A : Type} (a : A) : Cmd S A := fun s => (Ok a, s).

Definition lift {S A : Type} (r : PyResult A) : Cmd S A := fun s => (r, s).

Definition and_then {S A B : Type} (m : Cmd S A) (k : A -> Cmd S B) : Cmd S B :=
  fun s =>
    match m s with
    | (Ok a, s') => k a s'
    | (Raise e, s') => (Raise e, s')
    end.

Definition modify {S : Type} (f : S -> S) : Cmd S unit := fun s => (Ok tt, f s).

(** [try: body / except ...: handler]: [handler e] is [None] when no
    clause catches [e], which then goes on to the caller. *)
Definition try_except {S A : Type} (body : Cmd S A) (handler : Exc -> option (Cmd S A))
  : Cmd S A :=
  fun s =>
    match body s with
    | (Ok a, s') => (Ok a, s')
    | (Raise e, s') =>
        match handler e with
        | Some h => h s'
        | None => (Raise e, s')
        end
    end.

Notation "x <-- m ;;; k" := (and_then m (fun x => k))
  (at level 61, m at next level, right associativity).
Notation "m ;;; k" := (and_then m (fun _ => k))
  (at level 61, right associativity).

(* ================================================================== *)
(** ** Compilation executor *)

(** What the child process does when it is left alone. *)
Inductive ProcBehaviour : Type :=
| Exits (runtime : Q) (code : Z) (err : string)
| Hangs
| FailsToStart (e : Exc).

Record CompletedProcess : Type := mkCompleted {
  returncode : Z;
  stderr : string
}.

(** [subprocess.run(args, cwd=cwd, capture_output=True, timeout=timeout)] *)
Definition subprocess_run (os : list string -> string -> ProcBehaviour)
  (args : list string) (cwd : string) (timeout : Q) : PyResult CompletedProcess :=
  match os args cwd with
  | Exits runtime code err =>
      if Qle_bool runtime timeout then Ok {| returncode := code; stderr := err |}
      else Raise TimeoutExpired
  | Hangs => Raise TimeoutExpired
  | FailsToStart e => Raise e
  end.

Definition in_range (lo hi n : nat) : bool := (lo <=? n) && (n <=? hi).

(** The states of a UTF-8 decoder: at a character boundary, or inside a
    sequence with the range of the next byte and the bytes still due. *)
Inductive Utf8State : Type :=
| UStart
| UTail (lo hi : nat) (more : nat).

Definition utf8_step (st : Utf8State) (n : nat) : option Utf8State :=
  match st with
  | UStart =>
      if n <=? 127 then Some UStart
      else if in_range 194 223 n then Some (UTail 128 191 0)
      else if n =? 224 then Some (UTail 160 191 1)
      else if in_range 225 236 n then Some (UTail 128 191 1)
      else if n =? 237 then Some (UTail 128 159 1)
      else if in_range 238 239 n then Some (UTail 128 191 1)
      else if n =? 240 then Some (UTail 144 191 2)
      else if in_range 241 243 n then Some (UTail 128 191 2)
      else if n =? 244 then Some (UTail 128 143 2)
      else None
  | UTail lo hi more =>
      if in_range lo hi n then
        match more with
        | 0 => Some UStart
        | S m => Some (UTail 128 191 m)
        end
      else None
  end.

Fixpoint utf8_run (st : Utf8State) (b : string) : bool :=
  match b with
  | EmptyString => match st with UStart => true | _ => false end
  | String c b' =>
      match utf8_step st (nat_of_ascii c) with
      | Some st' => utf8_run st' b'
      | None => false
      end
  end.

(** [b.decode("utf-8")]: the text is the bytes themselves when they are
    well-formed UTF-8. *)
Definition decode_utf8 (b : string) : PyResult string :=
  if utf8_run UStart b then Ok b else Raise (UnicodeDecodeError b).

(** What one call of [run_single_compile_task] meets: the child process
    for a command and a directory, the reading of the clock before the
    child is started, and the reading the result is built from. *)
Record ExecEnv : Type := mkExecEnv {
  run_process : list string -> string -> ProcBehaviour;
  time_start : float;
  time_end : float
}.

Definition logging (lvl : Level) (m : Message) : Cmd (list LogRecord) unit :=
  modify (fun l => l ++ [(lvl, m)]).

Section Executor.

Variable path_join : string -> string -> string.
Variable abspath : string -> string.
(** [str(e)] *)
Variable exc_str : Exc -> string.

(** The argument vector [latex_full_command] of a task. *)
Definition latex_full_command (task : Task) : list string :=
  let tex_file := tex_file task in
  let subdir := subdir task in
  let engine := engine task in
  let out_dir := normalize (abspath subdir) in
  let aux_dir := normalize (abspath (path_join subdir ".aux")) in
  [ "latexmk";
    "-file-line-error";
    "-halt-on-error";
    "-interaction=nonstopmode";
    "-synctex=1";
    ("-" ++ engine)%string;
    ("-auxdir=" ++ aux_dir)%string;
    ("-outdir=" ++ out_dir)%string;
    tex_file ].

Definition run_single_compile_task (env : ExecEnv) (task : Task)
  : Cmd (list LogRecord) PyDict :=
  let tex_file := tex_file task in
  let subdir := subdir task in
  let engine := engine task in
  let latex_full_command := latex_full_command task in
  logging DEBUG [FText "Compiling "; FVal (VStr tex_file); FText " (";
                 FVal (VStr engine); FText ")"] ;;;
  logging DEBUG [FText "Full command: "; FVal (VStr (join " " latex_full_command))] ;;;
  let start_time := time_start env in
  let task_result := copy (task_dict task) in
  try_except
    (result <-- lift (subprocess_run (run_process env) latex_full_command subdir
                        (180 # 1)) ;;;
     if (returncode result =? 0)%Z then
       logging DEBUG [FText "Successfully compiled "; FVal (VStr tex_file)] ;;;
       ret (update task_result
              [ (KStr "success", VBool true);
                (KStr "elapsed_time", VFloat (PrimFloat.sub (time_end env) start_time));
                (KStr "full_command", VList latex_full_command) ])
     else
       logging ERROR [FText "Failed to compile "; FVal (VStr tex_file)] ;;;
       error_msg <-- lift (decode_utf8 (stderr result)) ;;;
       ret (update task_result
              [ (KStr "success", VBool false);
                (KStr "elapsed_time", VFloat (PrimFloat.sub (time_end env) start_time));
                (KStr "error_msg", VStr error_msg);
                (KStr "full_command", VList latex_full_command) ]))
    (fun e =>
       match e with
       | TimeoutExpired =>
           Some
             (logging ERROR [FText "Compilation of "; FVal (VStr tex_file);
                             FText " timed out."] ;;;
              ret (update task_result
                     [ (KStr "success", VBool false);
                       (KStr "elapsed_time",
                        VFloat (PrimFloat.sub (time_end env) start_time));
                       (KStr "error_msg", VStr "Compilation timed out.");
                       (KStr "full_command", VList latex_full_command) ]))
       | _ =>
           Some
             (logging ERROR [FText "Error during compilation of "; FVal (VStr tex_file);
                             FText ": "; FExc e] ;;;
              ret (update task_result
                     [ (KStr "success", VBool false);
                       (KStr "elapsed_time",
                        VFloat (PrimFloat.sub (time_end env) start_time));
                       (KStr "error_msg", VStr (exc_str e));
                       (KStr "full_command", VList latex_full_command) ]))
       end).

End Executor.

(* ================================================================== *)
(** ** Scheduler *)

Record SchedState : Type := mkSched {
  task_results : list PyDict;
  task_cnt : nat;
  console : list Message;
  sched_log : list LogRecord
}.

(** Whether the standard output takes a text, given what it has taken so
    far: the exception [print] raises when it does not. *)
Definition Stdout : Type := list Message -> Message -> option Exc.

(** [print(m)] *)
Definition print (stdout_error : Stdout) (m : Message) : Cmd SchedState unit :=
  fun s =>
    match stdout_error (console s) m with
    | Some e => (Raise e, s)
    | None =>
        (Ok tt, {| task_results := task_results s; task_cnt := task_cnt s;
                   console := console s ++ [m]; sched_log := sched_log s |})
    end.

Definition sched_logging_error (m : Message) : Cmd SchedState unit :=
  modify (fun s => {| task_results := task_results s; task_cnt := task_cnt s;
                      console := console s; sched_log := sched_log s ++ [(ERROR, m)] |}).

Definition append_result (r : PyDict) : Cmd SchedState unit :=
  modify (fun s => {| task_results := task_results s ++ [r]; task_cnt := task_cnt s;
                      console := console s; sched_log := sched_log s |}).

Definition incr_task_cnt : Cmd SchedState unit :=
  modify (fun s => {| task_results := task_results s; task_cnt := S (task_cnt s);
                      console := console s; sched_log := sched_log s |}).

(** [f"{v:.2f}"] *)
Definition format_fix2 (v : PyVal) : PyResult Fragment :=
  match v with
  | VFloat _ | VBool _ => Ok (FFix2 v)
  | VStr _ => Raise ValueError
  | VNone | VList _ => Raise TypeError
  end.

Definition red : string := String escape "[31m".
Definition green : string := String escape "[32m".
Definition magenta : string := String escape "[35m".
Definition reset : string := String escape "[0m".
(** The check mark, U+2713, in UTF-8. *)
Definition check_mark : string :=
  String "226"%char (String "156"%char (String "147"%char "")).

Section Progress.

Variable stdout_error : Stdout.

Definition show_current_compile_result (task_result : PyDict) (task_nums task_cnt : nat)
  (quiet_in_process : bool) : Cmd SchedState unit :=
  tex_file <-- lift (getitem task_result (KStr "tex_file")) ;;;
  engine <-- lift (getitem task_result (KStr "engine")) ;;;
  elapsed_time <-- lift (getitem task_result (KStr "elapsed_time")) ;;;
  let width := String.length (str_of_nat task_nums) in
  let counter :=
    (rjust (str_of_nat (task_cnt + 1)) width ++ "/" ++ str_of_nat task_nums)%string in
  success <-- lift (getitem task_result (KStr "success")) ;;;
  if negb (truthy success) then
    elapsed <-- lift (format_fix2 elapsed_time) ;;;
    print stdout_error
      [FText (red ++ " [x] (" ++ counter ++ ") "); FVal tex_file; FText " (";
       FVal engine; FText ") ("; elapsed; FText ("s)" ++ reset)] ;;;
    full_command <-- lift (getitem task_result (KStr "full_command")) ;;;
    print stdout_error
      [FText (magenta ++ "full_command:" ++ String newline ""); FVal full_command;
       FText reset] ;;;
    error_msg <-- lift (getitem task_result (KStr "error_msg")) ;;;
    print stdout_error
      [FText (magenta ++ "error_msg:" ++ String newline ""); FVal error_msg;
       FText reset]
  else if negb quiet_in_process then
    elapsed <-- lift (format_fix2 elapsed_time) ;;;
    print stdout_error
      [FText (green ++ " [" ++ check_mark ++ "] (" ++ counter ++ ") ");
       FVal tex_file; FText " (";
       FVal engine; FText ") ("; elapsed; FText ("s)" ++ reset)]
  else ret tt.

End Progress.

(** How the worker that got a task ends: it runs the task to its result,
    or the result cannot be had from it. *)
Inductive WorkerFate : Type :=
| Completes (env : ExecEnv)
| Crashes (e : Exc).

(** A submitted future, with the task [futures] maps it to. *)
Definition Future : Type := (Task * WorkerFate)%type.

Fixpoint for_each {S A : Type} (l : list A) (body : A -> Cmd S unit) : Cmd S unit :=
  match l with
  | [] => ret tt
  | a :: l' => body a ;;; for_each l' body
  end.

(** The element at position [i], if there is one. *)
Definition pick {A : Type} (l : list A) (i : nat) : list A :=
  match nth_error l i with
  | Some x => [x]
  | None => []
  end.

Section Scheduler.

Variable path_join : string -> string -> string.
Variable abspath : string -> string.
Variable exc_str : Exc -> string.
Variable stdout_error : Stdout.

(** [future.result()]: what the worker returned, or the exception set on
    the future. *)
Definition future_result (future : Future) : PyResult PyDict :=
  match snd future with
  | Completes env =>
      fst (run_single_compile_task path_join abspath exc_str env (fst future) [])
  | Crashes e => Raise e
  end.

(** The body of the loop over [as_completed(futures)]. *)
Definition collect (task_nums : nat) (quiet_in_process : bool) (future : Future)
  : Cmd SchedState unit :=
  try_except
    (task_result <-- lift (future_result future) ;;;
     append_result task_result ;;;
     cnt <-- (fun s => (Ok (task_cnt s), s)) ;;;
     show_current_compile_result stdout_error task_result task_nums cnt
       quiet_in_process)
    (fun e =>
       Some
         (first <-- lift (getitem (task_dict (fst future)) (KInt 0)) ;;;
          sched_logging_error [FText "Error running task: "; FVal first; FText " (";
                               FExc e; FText ")"])) ;;;
  incr_task_cnt.

(** [fates] gives, for each task in submission order, how its worker
    ends; [order] lists the positions of the futures in the order
    [as_completed] yields them. *)
Definition run_compile_tasks (tasks : list Task) (quiet_in_process : bool)
  (fates : list WorkerFate) (order : list nat) : Cmd SchedState (list PyDict) :=
  let task_nums := length tasks in
  modify (fun s => {| task_results := []; task_cnt := 0;
                      console := console s; sched_log := sched_log s |}) ;;;
  print stdout_error [FText "Processing "; FText (str_of_nat (length tasks));
                      FText " tasks in parallel..."] ;;;
  let futures := combine tasks fates in
  let completed := flat_map (pick futures) order in
  for_each completed (collect task_nums quiet_in_process) ;;;
  (fun s => (Ok (task_results s), s)).

End Scheduler.

(* ================================================================== *)
(** ** Reporter: the JSON log *)

Definition hex_digit (n : nat) : ascii :=
  if n <? 10 then ascii_of_nat (48 + n) else ascii_of_nat (87 + n).

(** [ESCAPE_DCT] of [json.encoder], for [ensure_ascii=False]. *)
Definition json_escape_char (c : ascii) : string :=
  let n := nat_of_ascii c in
  if Ascii.eqb c backslash then String backslash (String backslash "")
  else if Ascii.eqb c dquote then String backslash (String dquote "")
  else if n =? 8 then String backslash "b"
  else if n =? 12 then String backslash "f"
  else if n =? 10 then String backslash "n"
  else if n =? 13 then String backslash "r"
  else if n =? 9 then String backslash "t"
  else if n <? 32 then
    String backslash
      ("u00" ++ String (hex_digit (n / 16)) (String (hex_digit (n mod 16)) ""))
  else String c "".

Fixpoint json_escape (s : string) : string :=
  match s with
  | EmptyString => EmptyString
  | String c s' => (json_escape_char c ++ json_escape s')%string
  end.

Definition json_string (s : string) : string :=
  (String dquote (json_escape s) ++ String dquote "")%string.

Definition newline_indent (level : nat) : string :=
  String newline (repeat_str "    " level).

Section Reporter.

(** [float.__repr__] *)
Variable float_repr : float -> string.

Definition json_float (f : float) : string :=
  if PrimFloat.is_nan f then "NaN"
  else if PrimFloat.eqb f PrimFloat.infinity then "Infinity"
  else if PrimFloat.eqb f PrimFloat.neg_infinity then "-Infinity"
  else float_repr f.

(** The encoding of a value that stands at nesting depth [level], for
    [indent=4]. *)
Definition json_value (level : nat) (v : PyVal) : string :=
  match v with
  | VNone => "null"
  | VBool true => "true"
  | VBool false => "false"
  | VStr s => json_string s
  | VFloat f => json_float f
  | VList [] => "[]"
  | VList l =>
      ("[" ++ newline_indent (level + 1)
        ++ join ("," ++ newline_indent (level + 1)) (map json_string l)
        ++ newline_indent level ++ "]")%string
  end.

Definition json_key (k : PyKey) : string :=
  match k with
  | KStr s => json_string s
  | KInt z => json_string (NilEmpty.string_of_int (Z.to_int z))
  end.

(** [json.dump(d, f, ensure_ascii=False, indent=4)]: the text written. *)
Definition json_dump (d : PyDict) : string :=
  match d with
  | [] => "{}"
  | _ =>
      ("{" ++ newline_indent 1
        ++ join ("," ++ newline_indent 1)
             (map (fun kv => json_key (fst kv) ++ ": " ++ json_value 1 (snd kv)) d)
        ++ newline_indent 0 ++ "}")%string
  end.

(** The files the reporter can write, by the path given to [open]: their
    contents; the error opening one for writing raises, if any; and, for a
    text that the open file does not take, the error the writing raises
    and the part of the text that has reached the file by then. *)
Record Disk : Type := mkDisk {
  contents : string -> option string;
  refused : string -> option Exc;
  rejected : string -> string -> option (Exc * string)
}.

Record ReportState : Type := mkReport {
  disk : Disk;
  report_log : list LogRecord
}.

Definition set_contents (d : Disk) (path text : string) : Disk :=
  {| contents := fun p => if String.eqb p path then Some text else contents d p;
     refused := refused d;
     rejected := rejected d |}.

(** [open(path, "w", encoding="utf-8")] *)
Definition open_w (path : string) : Cmd ReportState unit :=
  fun s =>
    match refused (disk s) path with
    | Some e => (Raise e, s)
    | None =>
        (Ok tt, {| disk := set_contents (disk s) path ""; report_log := report_log s |})
    end.

(** Writing [text] to the file opened at [path], by [f.write] or by
    [json.dump]. *)
Definition write (path text : string) : Cmd ReportState unit :=
  fun s =>
    let old := match contents (disk s) path with Some t => t | None => EmptyString end in
    match rejected (disk s) path text with
    | Some (e, part) =>
        (Raise e,
         {| disk := set_contents (disk s) path (old ++ part); report_log := report_log s |})
    | None =>
        (Ok tt,
         {| disk := set_contents (disk s) path (old ++ text); report_log := report_log s |})
    end.

Definition report_logging (lvl : Level) (m : Message) : Cmd ReportState unit :=
  modify (fun s => {| disk := disk s; report_log := report_log s ++ [(lvl, m)] |}).

Definition log_file_name : string := "auto-latexmk.log".

Definition output_to_json_logfile (tasks_results : list PyDict) : Cmd ReportState unit :=
  try_except
    (open_w log_file_name ;;;
     for_each tasks_results
       (fun task_result =>
          write log_file_name (json_dump task_result) ;;;
          write log_file_name (String newline "")) ;;;
     report_logging DEBUG
       [FText "Compilation results successfully written to auto-latexmk.log"])
    (fun e => Some (report_logging ERROR [FText "Error writing to log file: "; FExc e])).

End Reporter.

(* ================================================================== *)
(** ** The specification's vocabulary *)

Module Spec.

(** A line is a directive of the tool naming one of [keywords]: stripped
    and in lower case it starts with the prefix and contains a keyword. *)
Definition directive (str_lower : string -> string) (keywords : list string)
  (line : string) : bool :=
  let l := str_lower (strip line) in
  startswith l "% auto-latexmk" && existsb (fun k => contains k l) keywords.

Definition first_three_lines (text : string) : list string :=
  firstn 3 (readlines text).

Definition has_document_root (text : string) : bool :=
  contains "\documentclass" text.

Definition supported_engines : list string := ["xelatex"; "pdflatex"; "lualatex"].

(** The engine a first line names by a shebang-like directive: the first
    supported engine, in the order above, that the line contains. *)
Definition shebang (first_line : string) : option string :=
  if startswith first_line "% !TEX"
  then find (fun e => contains e first_line) supported_engines
  else None.

(** Line [i] holds the token, and no line up to it holds the marker of the
    start of the body. *)
Definition ctex_at (lines : list string) (i : nat) (line : string) : Prop :=
  nth_error lines i = Some line /\
  contains "ctex" (strip line) = true /\
  forall j l, j <= i -> nth_error lines j = Some l ->
              contains "\begin{document}" (strip l) = false.

Definition ctex_before_document (lines : list string) : Prop :=
  exists i line, ctex_at lines i line.

(** The main-file decision as a function of what reading the file gives
    and of the mode. *)
Definition classify (str_lower : string -> string) (r : FileRead)
  (only_include_mode : bool) : bool :=
  match r with
  | Readable text =>
      has_document_root text &&
      (if only_include_mode
       then existsb (directive str_lower ["include"]) (first_three_lines text)
       else negb (existsb (directive str_lower ["exclude"; "skip"])
                    (first_three_lines text)))
  | Unreadable _ | Broken _ _ => false
  end.

(** The engine and the note the lines of a file give, the first of them
    stripped already. *)
Definition detect_in (first_line : string) (lines : list string) (default_engine : string)
  : string * option string :=
  match shebang first_line with
  | Some eng => (eng, Some first_line)
  | None =>
      match ctex_scan lines with
      | Some line => ("xelatex", Some line)
      | None => (default_engine, None)
      end
  end.

(** The engine and the note as a function of what reading the file gives
    and of the default engine. *)
Definition detect (r : FileRead) (default_engine : string) : string * option string :=
  match r with
  | Readable text =>
      detect_in (strip (fst (readline text))) (readlines text) default_engine
  | Unreadable _ => (default_engine, None)
  | Broken good _ =>
      match lines_before_error good with
      | [] => (default_engine, None)
      | line :: _ => detect_in (strip line) (lines_before_error good) default_engine
      end
  end.

(** The short alias of the engine in a task. *)
Definition alias (engine : string) : string :=
  if String.eqb engine "pdflatex" then "pdf" else engine.

(** What the executor's result records whatever the outcome. *)
Definition records (d : PyDict) (task : Task) (elapsed : float) (command : list string)
  : Prop :=
  getitem d (KStr "tex_file") = Ok (VStr (tex_file task)) /\
  getitem d (KStr "subdir") = Ok (VStr (subdir task)) /\
  getitem d (KStr "engine") = Ok (VStr (engine task)) /\
  getitem d (KStr "append_info") = Ok (opt_val (append_info task)) /\
  getitem d (KStr "elapsed_time") = Ok (VFloat elapsed) /\
  getitem d (KStr "full_command") = Ok (VList command).

Definition succeeded (d : PyDict) : Prop :=
  getitem d (KStr "success") = Ok (VBool true) /\
  getitem d (KStr "error_msg") = Raise (KeyError (KStr "error_msg")).

Definition failed_with (d : PyDict) (diagnostic : string) : Prop :=
  getitem d (KStr "success") = Ok (VBool false) /\
  getitem d (KStr "error_msg") = Ok (VStr diagnostic).

End Spec.

(* ================================================================== *)
(** ** Descriptions of the results

    What the functions above compute, written as functions of their
    inputs; the properties below relate the two. *)

Section Descriptions.

Variable str_lower : string -> string.
Variable path_join : string -> string -> string.
Variable abspath : string -> string.
Variable exc_str : Exc -> string.
Variable float_repr : float -> string.

(** What the child does that is started for a task: for its command, in
    its working directory. *)
Definition child (env : ExecEnv) (task : Task) : ProcBehaviour :=
  run_process env (latex_full_command path_join abspath task) (subdir task).

(** The diagnostic of the result, [None] for a success, as the branches of
    [run_single_compile_task] assign it. *)
Definition diagnostic (env : ExecEnv) (task : Task) : option string :=
  match child env task with
  | Exits runtime code err =>
      if Qle_bool runtime (180 # 1) then
        if (code =? 0)%Z then None
        else if utf8_run UStart err then Some err
        else Some (exc_str (UnicodeDecodeError err))
      else Some "Compilation timed out."
  | Hangs => Some "Compilation timed out."
  | FailsToStart TimeoutExpired => Some "Compilation timed out."
  | FailsToStart e => Some (exc_str e)
  end.

Definition elapsed (env : ExecEnv) : float :=
  PrimFloat.sub (time_end env) (time_start env).

(** The dict of the result: the task's items, then the items of the
    outcome. *)
Definition build_result (env : ExecEnv) (task : Task) : PyDict :=
  task_dict task ++
  match diagnostic env task with
  | None =>
      [ (KStr "success", VBool true);
        (KStr "elapsed_time", VFloat (elapsed env));
        (KStr "full_command", VList (latex_full_command path_join abspath task)) ]
  | Some msg =>
      [ (KStr "success", VBool false);
        (KStr "elapsed_time", VFloat (elapsed env));
        (KStr "error_msg", VStr msg);
        (KStr "full_command", VList (latex_full_command path_join abspath task)) ]
  end.

(** The result of a future whose worker completes in [snd future]. *)
Definition result_of (future : Task * ExecEnv) : PyDict :=
  build_result (snd future) (fst future).

Definition completing (future : Task * ExecEnv) : Future :=
  (fst future, Completes (snd future)).

(** The path of a file of a directory, as a task names it. *)
Definition source_path (dirpath item : string) : string :=
  normalize (abspath (path_join dirpath item)).

(** The task a file of a directory gives, if it gives one, as a function of
    what the files hold. *)
Definition task_for (files : string -> FileRead) (default_engine : string) (mode : bool)
  (dirpath item : string) : list Task :=
  let path := source_path dirpath item in
  if Spec.classify str_lower (files path) mode then
    [ {| tex_file := path;
         subdir := normalize dirpath;
         engine := Spec.alias (fst (Spec.detect (files path) default_engine));
         append_info := snd (Spec.detect (files path) default_engine) |} ]
  else [].

Definition tasks_in (files : string -> FileRead) (default_engine : string) (mode : bool)
  (entry : string * list string) : list Task :=
  flat_map (task_for files default_engine mode (fst entry))
    (filter (fun f => endswith f ".tex") (snd entry)).

(** What [os.walk] yields from the root, the skipped directories pruned. *)
Definition walk_entries (w : World) (root_dir : string) : list (string * list string) :=
  match listing w root_dir with
  | Some t => os_walk path_join not_in_skip_dirs root_dir t
  | None => []
  end.

(** The text of the log for a batch: each result as [json.dump] renders
    it, with a line feed after it, in the order of the batch. *)
Fixpoint log_text (results : list PyDict) : string :=
  match results with
  | [] => EmptyString
  | r :: rs => (json_dump float_repr r ++ String newline "" ++ log_text rs)%string
  end.

End Descriptions.

(* ================================================================== *)
(** ** Sample inputs *)

Module Sample.

Definition nl : string := String newline "".

Definition posix_join (a b : string) : string := (a ++ "/" ++ b)%string.
Definition same_path (p : string) : string := p.
Definition describe (e : Exc) : string :=
  match e with
  | KeyError _ => "key"
  | TypeError => "type"
  | ValueError => "value"
  | TimeoutExpired => "timed out"
  | UnicodeDecodeError _ => "codec can't decode"
  | UnicodeEncodeError _ => "codec can't encode"
  | OSError what => what
  | BrokenProcessPool => "broken pool"
  end.
Definition shown (f : float) : string := "1.5".

Definition both_directives : string :=
  ("% auto-latexmk include" ++ nl ++ "% auto-latexmk skip" ++ nl
     ++ "\documentclass{article}" ++ nl)%string.

Definition odd_shebang : string :=
  ("% !TEX root = main.tex" ++ nl ++ "\documentclass{ctexart}" ++ nl
     ++ "\begin{document}" ++ nl)%string.

Definition pdf_shebang : string :=
  ("% !TEX program = pdflatex" ++ nl ++ "\documentclass{ctexart}" ++ nl)%string.

Definition plain : string :=
  ("\documentclass{article}" ++ nl ++ "\begin{document}" ++ nl)%string.

Definition tree : DirTree :=
  Dir [ (".git", Dir [] ["x.tex"]); ("a", Dir [] ["main.tex"; "odd.tex"; "notes.txt"]) ]
      ["both.tex"; "plain.tex"].

Definition world : World :=
  {| listing := fun p => if String.eqb p "/r" then Some tree else None;
     file := fun p =>
       if String.eqb p "/r/both.tex" then Readable both_directives
       else if String.eqb p "/r/plain.tex" then Readable plain
       else if String.eqb p "/r/a/main.tex" then Readable pdf_shebang
       else if String.eqb p "/r/a/odd.tex" then Readable odd_shebang
       else Unreadable (OSError "No such file or directory");
     logged := [] |}.

Definition task_a : Task :=
  {| tex_file := "/r/a/main.tex"; subdir := "/r/a"; engine := "pdf";
     append_info := Some "% !TEX program = pdflatex" |}.

Definition task_b : Task :=
  {| tex_file := "/r/plain.tex"; subdir := "/r"; engine := "xelatex";
     append_info := None |}.

Definition env_ok : ExecEnv :=
  {| run_process := fun _ _ => Exits (3 # 1) 0 "";
     time_start := 1%float; time_end := 2.5%float |}.

(** The child ends with code 1 and writes the one byte 0xFF. *)
Definition env_bad_stderr : ExecEnv :=
  {| run_process := fun _ _ => Exits (3 # 1) 1 (String "255"%char "");
     time_start := 1%float; time_end := 2.5%float |}.

Definition idle : SchedState :=
  {| task_results := []; task_cnt := 0; console := []; sched_log := [] |}.

Definition empty_disk : Disk :=
  {| contents := fun _ => None; refused := fun _ => None; rejected := fun _ _ => None |}.

(** A standard output that takes every text. *)
Definition terminal : Stdout := fun _ _ => None.

Definition report_start : ReportState :=
  {| disk := empty_disk; report_log := [] |}.

End Sample.

(* ================================================================== *)
(** ** Reporter: the summary *)

Section Summary.

Variable stdout_error : Stdout.

(** The first loop of [show_compile_results]: the two counters. *)
Fixpoint count_results (tasks_results : list PyDict) (sucess_cnt failed_cnt : nat)
  : PyResult (nat * nat) :=
  match tasks_results with
  | [] => Ok (sucess_cnt, failed_cnt)
  | task_result :: rest =>
      match getitem task_result (KStr "success") with
      | Ok success =>
          if truthy success then count_results rest (S sucess_cnt) failed_cnt
          else count_results rest sucess_cnt (S failed_cnt)
      | Raise e => Raise e
      end
  end.

(** The body of the second loop. *)
Definition show_failed_task (task_result : PyDict) : Cmd SchedState unit :=
  success <-- lift (getitem task_result (KStr "success")) ;;;
  if negb (truthy success) then
    tex_file <-- lift (getitem task_result (KStr "tex_file")) ;;;
    engine <-- lift (getitem task_result (KStr "engine")) ;;;
    print stdout_error
      [FText (red ++ " [x] "); FVal tex_file; FText " ("; FVal engine;
       FText (")" ++ reset)] ;;;
    full_command <-- lift (getitem task_result (KStr "full_command")) ;;;
    print stdout_error
      [FText (magenta ++ "full_command:" ++ String newline ""); FVal full_command;
       FText reset] ;;;
    error_msg <-- lift (getitem task_result (KStr "error_msg")) ;;;
    print stdout_error
      [FText (magenta ++ "error_msg:" ++ String newline ""); FVal error_msg;
       FText reset]
  else ret tt.

Definition show_compile_results (tasks_results : list PyDict) : Cmd SchedState unit :=
  counts <-- lift (count_results tasks_results 0 0) ;;;
  let sucess_cnt := fst counts in
  let failed_cnt := snd counts in
  print stdout_error
    [FText "Succeeded: "; FText (str_of_nat sucess_cnt);
     FText "   Failed: "; FText (str_of_nat failed_cnt)] ;;;
  if failed_cnt =? 0 then ret tt
  else
    print stdout_error [FText "Failed tasks:"] ;;;
    for_each tasks_results show_failed_task.

End Summary.

(* ================================================================== *)
(** ** The command line and [main] *)

(** The namespace [parse_args] returns. *)
Module Cli.

Record Args : Type := mkArgs {
  root_dir : string;
  verbose : bool;
  quiet : bool;
  engine : string;
  pre_clean : bool;
  no_compile : bool;
  only_include : bool;
  dry_run : bool
}.

(** The choices of [--engine]. *)
Definition engine_choices : list string := ["xelatex"; "pdflatex"; "lualatex"].

End Cli.

(** The state of a run of the tool: the world discovery reads, the console
    and the locals of the scheduler, and the disk of the reporter.  The
    records of the one logger are kept with the part that made them. *)
Record MainState : Type := mkMain {
  world : World;
  sched : SchedState;
  report : ReportState
}.

Definition in_world {A : Type} (f : World -> A * World) : Cmd MainState A :=
  fun st =>
    let (a, w) := f (world st) in
    (Ok a, {| world := w; sched := sched st; report := report st |}).

Definition in_sched {A : Type} (c : Cmd SchedState A) : Cmd MainState A :=
  fun st =>
    let (r, s) := c (sched st) in
    (r, {| world := world st; sched := s; report := report st |}).

Definition in_report {A : Type} (c : Cmd ReportState A) : Cmd MainState A :=
  fun st =>
    let (r, s) := c (report st) in
    (r, {| world := world st; sched := sched st; report := s |}).

Definition logging_debug (w : World) (m : Message) : World :=
  {| listing := listing w; file := file w; logged := logged w ++ [(DEBUG, m)] |}.

(** [enumerate(l, 0)] *)
Definition enumerate {A : Type} (l : list A) : list (nat * A) :=
  combine (List.seq 0 (length l)) l.

Section Main.

Variable str_lower : string -> string.
Variable path_join : string -> string -> string.
Variable abspath : string -> string.
Variable exc_str : Exc -> string.
Variable float_repr : float -> string.
Variable stdout_error : Stdout.

(** What [clean_all_aux_subdirs_if_exist] leaves of the state: it walks
    the tree and removes directories through the operating system, and its
    effect there is not modelled. *)
Variable clean_all_aux_subdirs_if_exist : string -> MainState -> MainState.

(** How the pool treats a batch: the fate of the worker of each task, and
    the order in which the futures complete. *)
Variable pool : list Task -> list WorkerFate * list nat.

(** The body of the loop of the dry run. *)
Definition show_planned_task (task_nums : nat) (item : nat * Task) : Cmd MainState unit :=
  let task_cnt := fst item in
  let task := snd item in
  let width := String.length (str_of_nat task_nums) in
  let counter :=
    (rjust (str_of_nat (task_cnt + 1)) width ++ "/" ++ str_of_nat task_nums)%string in
  let tex := tex_file task in
  let engine := engine task in
  in_sched
    (print stdout_error
       [FText ("  (" ++ counter ++ ") "); FVal (VStr tex); FText "  (";
        FVal (VStr engine); FText ")"]).

Definition main (args : Cli.Args) : Cmd MainState unit :=
  in_world (fun w =>
    (tt, logging_debug w [FText "Root directory: "; FVal (VStr (Cli.root_dir args))])) ;;;
  in_world (fun w =>
    (tt, logging_debug w [FText "Default engine: "; FVal (VStr (Cli.engine args))])) ;;;
  in_world (fun w =>
    (tt, logging_debug w
           [FText "Only include mode: "; FVal (VBool (Cli.only_include args))])) ;;;
  if Cli.dry_run args then
    tasks <-- in_world (fun w =>
      generate_compile_tasks str_lower path_join abspath w (Cli.root_dir args)
        (Cli.engine args) (Cli.only_include args)) ;;;
    let task_nums := length tasks in
    in_sched
      (print stdout_error
         [FText "[Dry-run] "; FText (str_of_nat task_nums); FText " tasks detected:"]) ;;;
    for_each (enumerate tasks) (show_planned_task task_nums) ;;;
    in_sched
      (print stdout_error
         [FText "Dry-run finished. No compilation or pre-clean executed."])
  else
    (if Cli.pre_clean args then
       modify (clean_all_aux_subdirs_if_exist (Cli.root_dir args)) ;;;
       in_sched (print stdout_error [FText "Pre-clean completed."])
     else ret tt) ;;;
    if negb (Cli.no_compile args) then
      tasks <-- in_world (fun w =>
        generate_compile_tasks str_lower path_join abspath w (Cli.root_dir args)
          (Cli.engine args) (Cli.only_include args)) ;;;
      tasks_results <-- in_sched
        (run_compile_tasks path_join abspath exc_str stdout_error tasks (Cli.quiet args)
           (fst (pool tasks)) (snd (pool tasks))) ;;;
      in_sched (show_compile_results stdout_error tasks_results) ;;;
      if Cli.verbose args then
        in_report (output_to_json_logfile float_repr tasks_results)
      else ret tt
    else in_sched (print stdout_error [FText "Compilation skipped."]).

End Main.

(* ================================================================== *)
(** ** More descriptions and sample inputs *)

(** The tree without the directories the walk skips, at every depth. *)
Fixpoint prune (t : DirTree) : DirTree :=
  match t with
  | Dir subdirs files =>
      Dir ((fix prune_subdirs (l : list (string * DirTree)) : list (string * DirTree) :=
              match l with
              | [] => []
              | (d, sub) :: l' =>
                  if not_in_skip_dirs d then (d, prune sub) :: prune_subdirs l'
                  else prune_subdirs l'
              end) subdirs)
          files
  end.

(** Whether the executor's result [d] is a failure. *)
Definition is_failure (d : PyDict) : bool :=
  match getitem d (KStr "success") with
  | Ok v => negb (truthy v)
  | Raise _ => false
  end.

(** The number of calls of [print] the progress report makes for a
    result. *)
Definition progress_prints (quiet_in_process : bool) (d : PyDict) : nat :=
  if is_failure d then 3 else if quiet_in_process then 0 else 1.

(** The number of failures in a batch. *)
Definition failures (results : list PyDict) : nat :=
  length (filter is_failure results).

Section MoreDescriptions.

Variable path_join : string -> string -> string.
Variable abspath : string -> string.

(** The record discovery logs for a file of a directory: none when the
    file can be read. *)
Definition read_error (files : string -> FileRead) (dirpath item : string)
  : list LogRecord :=
  let path := source_path path_join abspath dirpath item in
  match files path with
  | Readable _ => []
  | Unreadable e | Broken _ e =>
      [(ERROR, [FText "Error reading "; FVal (VStr path); FText ": "; FExc e])]
  end.

Definition read_errors_in (files : string -> FileRead) (entry : string * list string)
  : list LogRecord :=
  flat_map (read_error files (fst entry))
    (filter (fun f => endswith f ".tex") (snd entry)).

End MoreDescriptions.

(** The state after the three debug records [main] starts with. *)
Definition announced (args : Cli.Args) (st : MainState) : MainState :=
  {| world :=
       logging_debug
         (logging_debug
            (logging_debug (world st)
               [FText "Root directory: "; FVal (VStr (Cli.root_dir args))])
            [FText "Default engine: "; FVal (VStr (Cli.engine args))])
         [FText "Only include mode: "; FVal (VBool (Cli.only_include args))];
     sched := sched st;
     report := report st |}.

(** The state in which a run that is not a dry run starts to compile:
    after the debug records and, when asked for, the pre-clean and its
    line on the console. *)
Definition prepared (clean : string -> MainState -> MainState) (args : Cli.Args)
  (st : MainState) : MainState :=
  if Cli.pre_clean args then
    let st1 := clean (Cli.root_dir args) (announced args st) in
    {| world := world st1;
       sched := {| task_results := task_results (sched st1);
                   task_cnt := task_cnt (sched st1);
                   console := console (sched st1) ++ [[FText "Pre-clean completed."]];
                   sched_log := sched_log (sched st1) |};
       report := report st1 |}
  else announced args st.

(** The standard output takes every text. *)
Definition accepts_all (stdout_error : Stdout) : Prop :=
  forall printed m, stdout_error printed m = None.

(** The standard output takes the two lines a run prints before the
    first future is looked at. *)
Definition accepts_announcements (stdout_error : Stdout) : Prop :=
  (forall printed, stdout_error printed [FText "Pre-clean completed."] = None) /\
  (forall printed n,
      stdout_error printed
        [FText "Processing "; FText (str_of_nat n); FText " tasks in parallel..."]
      = None).

(** The open file at [path] takes every text. *)
Definition takes_all (d : Disk) (path : string) : Prop :=
  forall text, rejected d path text = None.

(** A command of [main] that leaves the disk of the reporter and its log
    as they are, however it ends. *)
Definition keeps_report {A : Type} (c : Cmd MainState A) : Prop :=
  forall st, report (snd (c st)) = report st.

Module MoreSamples.

(** The sample tree with other contents in the directory the walk skips. *)
Definition tree' : DirTree :=
  Dir [ (".git", Dir [("hooks", Dir [] ["y.tex"])] ["main.tex"]);
        ("a", Dir [] ["main.tex"; "odd.tex"; "notes.txt"]) ]
      ["both.tex"; "plain.tex"].

Definition world' : World :=
  {| listing := fun p => if String.eqb p "/r" then Some tree' else None;
     file := file Sample.world;
     logged := [] |}.

Definition start : MainState :=
  {| world := Sample.world; sched := Sample.idle; report := Sample.report_start |}.

Definition no_clean (root_dir : string) (st : MainState) : MainState := st.

(** Every worker completes, in the same surroundings; the futures
    complete in the order of submission. *)
Definition calm_pool (tasks : list Task) : list WorkerFate * list nat :=
  (map (fun _ => Completes Sample.env_ok) tasks, List.seq 0 (length tasks)).

(** The pool is broken: no worker gives its result. *)
Definition broken_pool (tasks : list Task) : list WorkerFate * list nat :=
  (map (fun _ => Crashes BrokenProcessPool) tasks, List.seq 0 (length tasks)).

Definition args_verbose : Cli.Args :=
  {| Cli.root_dir := "/r"; Cli.verbose := true; Cli.quiet := false;
     Cli.engine := "xelatex"; Cli.pre_clean := false; Cli.no_compile := false;
     Cli.only_include := false; Cli.dry_run := false |}.

Definition args_dry : Cli.Args :=
  {| Cli.root_dir := "/r"; Cli.verbose := true; Cli.quiet := false;
     Cli.engine := "xelatex"; Cli.pre_clean := true; Cli.no_compile := false;
     Cli.only_include := false; Cli.dry_run := true |}.

Definition args_plain : Cli.Args :=
  {| Cli.root_dir := "/r"; Cli.verbose := false; Cli.quiet := true;
     Cli.engine := "pdflatex"; Cli.pre_clean := false; Cli.no_compile := false;
     Cli.only_include := false; Cli.dry_run := false |}.

(** A world in which every path reads as [text]. *)
Definition reading (text : string) : World :=
  {| listing := fun _ => None; file := fun _ => Readable text; logged := [] |}.

Definition late_exclude : string :=
  ("% auto-latexmk exclude" ++ Sample.nl ++ "\begin{document}" ++ Sample.nl)%string.

Definition shouting : string :=
  ("  % AUTO-LaTeXmk Skip" ++ Sample.nl ++ "\documentclass{article}"
     ++ Sample.nl)%string.

Definition whispering : string :=
  ("  % auto-latexmk skip" ++ Sample.nl ++ "\documentclass{article}"
     ++ Sample.nl)%string.

(** The ideographic space, U+3000, in UTF-8. *)
Definition wide_space : string :=
  String "227"%char (String "128"%char (String "128"%char "")).

(** A first line that names two engines, with an ideographic space
    behind it. *)
Definition two_engines : string :=
  ("% !TEX program = lualatex, not pdflatex" ++ wide_space ++ Sample.nl)%string.

(** Two directives with ideographic spaces around them, and the marker. *)
Definition wide_both : string :=
  (wide_space ++ "% auto-latexmk include" ++ Sample.nl
     ++ "% auto-latexmk skip" ++ wide_space ++ Sample.nl
     ++ "\documentclass{article}" ++ Sample.nl)%string.

(** An unsupported first-line directive, and the token on a line with
    ideographic spaces around it. *)
Definition wide_ctex : string :=
  ("% !TEX root = main.tex" ++ Sample.nl
     ++ wide_space ++ "\usepackage{ctex}" ++ wide_space ++ Sample.nl
     ++ "\begin{document}" ++ Sample.nl)%string.

(** A first-line directive between ideographic spaces, and the token. *)
Definition wide_shebang : string :=
  (wide_space ++ "% !TEX program = pdflatex" ++ wide_space ++ Sample.nl
     ++ "\documentclass{ctexart}" ++ Sample.nl)%string.

(** A file whose first 8192 bytes decode, a first-line directive and
    comment lines, and that holds a byte that does not decode behind
    them. *)
Definition late_junk : FileRead :=
  Broken ("% !TEX program = lualatex" ++ Sample.nl
            ++ repeat_str ("%" ++ Sample.nl) 4083)%string
    (UnicodeDecodeError (String "255"%char "")).

Definition reading_late_junk : World :=
  {| listing := fun _ => None; file := fun _ => late_junk; logged := [] |}.

(** A directory with a file that cannot be opened. *)
Definition locked_world : World :=
  {| listing := fun p =>
       if String.eqb p "/r" then Some (Dir [] ["locked.tex"; "plain.tex"]) else None;
     file := fun p =>
       if String.eqb p "/r/plain.tex" then Readable Sample.plain
       else Unreadable (OSError "Permission denied");
     logged := [] |}.

Definition mentions_check_mark (f : Fragment) : bool :=
  match f with
  | FText t => contains check_mark t
  | _ => false
  end.

(** A standard output whose encoding has no check mark. *)
Definition legacy_stdout : Stdout :=
  fun _ m =>
    if existsb mentions_check_mark m then Some (UnicodeEncodeError check_mark) else None.

(** A disk that is full: a file can be opened on it and takes no text. *)
Definition full_disk : Disk :=
  {| contents := fun _ => None;
     refused := fun _ => None;
     rejected := fun _ _ => Some (OSError "No space left on device", EmptyString) |}.

Definition report_on_full_disk : ReportState :=
  {| disk := full_disk; report_log := [] |}.

End MoreSamples.

(* ================================================================== *)
(** * Properties *)

(** ** Strings and lines *)

Lemma readline_empty_line (s r : string) :
  readline s = (EmptyString, r) -> s = EmptyString /\ r = EmptyString.
Proof.
  destruct s as [|c s']; simpl.
  - intros H; inversion H; auto.
  - destruct (is_newline c).
    + discriminate.
    + destruct (readline s'); discriminate.
Qed.

(** Iterating a file is reading it line by line until the empty line. *)
Lemma readlines_readline (s : string) :
  readlines s =
  let (l, r) := readline s in
  if String.eqb l EmptyString then [] else l :: readlines r.
Proof.
  induction s as [|c s' IH]; simpl.
  - reflexivity.
  - destruct (is_newline c); simpl.
    + reflexivity.
    + rewrite IH. destruct (readline s') as [l r] eqn:E.
      simpl. destruct l as [|c' l'].
      * apply readline_empty_line in E. destruct E as [_ ->]. reflexivity.
      * reflexivity.
Qed.

(** *** Stripping twice *)

Lemma length_drop (k : nat) :
  forall s, String.length (drop k s) = String.length s - k.
Proof.
  induction k as [|k IH]; intros [|c s]; cbn [drop String.length]; auto.
Qed.

Lemma space_width_le (s : string) : space_width s <= String.length s.
Proof.
  destruct s as [|c0 [|c1 [|c2 s3]]]; cbn [space_width String.length].
  - lia.
  - destruct (space1 c0); lia.
  - destruct (space1 c0); [lia|]. destruct (space2 c0 c1); lia.
  - destruct (space1 c0); [lia|]. destruct (space2 c0 c1); [lia|].
    destruct (space3 c0 c1 c2); lia.
Qed.

(** More steps than the text has bytes change nothing. *)
Lemma lstrip_from_enough (n : nat) :
  forall m s, String.length s <= n -> String.length s <= m ->
              lstrip_from n s = lstrip_from m s.
Proof.
  induction n as [|n IH]; intros [|m] s Hn Hm; cbn [lstrip_from]; try reflexivity.
  - destruct s; [reflexivity | cbn in Hn; lia].
  - destruct s; [reflexivity | cbn in Hm; lia].
  - destruct (space_width s) as [|k] eqn:W; [reflexivity|].
    apply IH; rewrite length_drop; lia.
Qed.

Lemma lstrip_step (s : string) :
  lstrip s = match space_width s with 0 => s | k => lstrip (drop k s) end.
Proof.
  unfold lstrip. destruct s as [|c s]; [reflexivity|].
  cbn [String.length lstrip_from].
  destruct (space_width (String c s)) as [|k] eqn:W; [reflexivity|].
  apply lstrip_from_enough; [|lia].
  rewrite length_drop. cbn [String.length]. lia.
Qed.

Lemma lstrip_fixed (s : string) : space_width s = 0 -> lstrip s = s.
Proof. intros W. rewrite lstrip_step, W. reflexivity. Qed.

(** What is left starts with no white space. *)
Lemma space_width_lstrip_from (steps : nat) :
  forall s, String.length s <= steps -> space_width (lstrip_from steps s) = 0.
Proof.
  induction steps as [|steps IH]; intros s L; cbn [lstrip_from].
  - destruct s; [reflexivity | cbn in L; lia].
  - destruct (space_width s) as [|k] eqn:W; [exact W|].
    apply IH. rewrite length_drop. lia.
Qed.

Lemma space_width_lstrip (s : string) : space_width (lstrip s) = 0.
Proof. apply space_width_lstrip_from. lia. Qed.

(** A white-space character at the start stays one when text follows. *)
Lemma space_width_app (a b : string) (k : nat) :
  space_width a = S k -> space_width (a ++ b) = S k.
Proof.
  destruct a as [|c0 [|c1 [|c2 a3]]]; cbn [space_width append].
  - discriminate.
  - destruct (space1 c0); [auto | discriminate].
  - destruct (space1 c0); [auto|]. destruct (space2 c0 c1); [auto | discriminate].
  - auto.
Qed.

Lemma drop_app (k : nat) :
  forall a b, k <= String.length a -> drop k (a ++ b) = (drop k a ++ b)%string.
Proof.
  induction k as [|k IH]; intros a b L.
  - reflexivity.
  - destruct a as [|c a]; cbn [String.length] in L; [lia|].
    cbn [drop append]. apply IH. lia.
Qed.

Lemma lstrip_empty_app (n : nat) :
  forall a b, String.length a <= n -> lstrip a = EmptyString -> lstrip (a ++ b) = lstrip b.
Proof.
  induction n as [|n IH]; intros a b L E.
  - destruct a; [reflexivity | cbn in L; lia].
  - rewrite lstrip_step in E. destruct (space_width a) as [|k] eqn:W.
    + subst a. reflexivity.
    + pose proof (space_width_le a) as Le.
      rewrite (lstrip_step (a ++ b)), (space_width_app a b k W).
      rewrite drop_app by lia. apply IH; [|exact E].
      rewrite length_drop. lia.
Qed.

(** What [rstrip] cuts off is white space throughout. *)
Lemma rstrip_split (s : string) :
  exists tail, s = (rstrip s ++ tail)%string /\ lstrip tail = EmptyString.
Proof.
  induction s as [|c s (tail & E & T)].
  - exists EmptyString. auto.
  - cbn [rstrip]. unfold all_space.
    destruct (String.eqb_spec (lstrip (String c s)) EmptyString) as [A|A].
    + exists (String c s). auto.
    + exists tail. cbn [append]. rewrite <- E. auto.
Qed.

Lemma rstrip_idempotent (s : string) : rstrip (rstrip s) = rstrip s.
Proof.
  induction s as [|c s IH]; [reflexivity|].
  cbn [rstrip]. destruct (all_space (String c s)) eqn:A; [reflexivity|].
  cbn [rstrip]. rewrite IH.
  destruct (all_space (String c (rstrip s))) eqn:A'; [|reflexivity].
  exfalso. unfold all_space in A, A'.
  apply String.eqb_eq in A'. apply String.eqb_neq in A. apply A.
  destruct (rstrip_split s) as (tail & E & T).
  rewrite E at 1.
  change (String c (rstrip s ++ tail)) with (String c (rstrip s) ++ tail)%string.
  rewrite (lstrip_empty_app _ _ _ (Nat.le_refl _) A'). exact T.
Qed.

Lemma space_width_rstrip (s : string) : space_width s = 0 -> space_width (rstrip s) = 0.
Proof.
  intros W. destruct (rstrip_split s) as (tail & E & _).
  destruct (space_width (rstrip s)) as [|k] eqn:R; [reflexivity|].
  rewrite E, (space_width_app _ tail k R) in W. discriminate.
Qed.

Lemma strip_idempotent (s : string) : strip (strip s) = strip s.
Proof.
  unfold strip.
  rewrite (lstrip_fixed (rstrip (lstrip s))).
  - apply rstrip_idempotent.
  - apply space_width_rstrip, space_width_lstrip.
Qed.

(** *** Stripping and the case of ASCII letters *)

Lemma space1_lower (c : ascii) : space1 (ascii_lower_char c) = space1 c.
Proof.
  destruct c as [[] [] [] [] [] [] [] []]; reflexivity.
Qed.

Lemma ascii_lower_char_idempotent (c : ascii) : ascii_lower_char (ascii_lower_char c) = ascii_lower_char c.
Proof.
  destruct c as [[] [] [] [] [] [] [] []]; reflexivity.
Qed.

Lemma byte_is_lower (k : nat) (c : ascii) :
  128 <= k -> byte_is k (ascii_lower_char c) = byte_is k c.
Proof.
  intros K. unfold byte_is, ascii_lower_char.
  destruct ((65 <=? nat_of_ascii c) && (nat_of_ascii c <=? 90)) eqn:E; [|reflexivity].
  apply andb_true_iff in E. destruct E as (E1 & E2).
  apply Nat.leb_le in E1, E2. rewrite nat_ascii_embedding by lia.
  transitivity false; [|symmetry]; apply Nat.eqb_neq; lia.
Qed.

Lemma byte_in_lower (lo hi : nat) (c : ascii) :
  128 <= lo -> byte_in lo hi (ascii_lower_char c) = byte_in lo hi c.
Proof.
  intros K. unfold byte_in, ascii_lower_char.
  destruct ((65 <=? nat_of_ascii c) && (nat_of_ascii c <=? 90)) eqn:E; [|reflexivity].
  apply andb_true_iff in E. destruct E as (E1 & E2).
  apply Nat.leb_le in E1, E2. rewrite nat_ascii_embedding by lia.
  rewrite (proj2 (Nat.leb_gt lo (nat_of_ascii c + 32))) by lia.
  rewrite (proj2 (Nat.leb_gt lo (nat_of_ascii c))) by lia.
  reflexivity.
Qed.

Lemma space2_lower (c0 c1 : ascii) :
  space2 (ascii_lower_char c0) (ascii_lower_char c1) = space2 c0 c1.
Proof. unfold space2. rewrite !byte_is_lower by lia. reflexivity. Qed.

Lemma space3_lower (c0 c1 c2 : ascii) :
  space3 (ascii_lower_char c0) (ascii_lower_char c1) (ascii_lower_char c2) = space3 c0 c1 c2.
Proof.
  unfold space3. rewrite !byte_is_lower, byte_in_lower by lia. reflexivity.
Qed.

Lemma space_width_lower (s : string) : space_width (ascii_lower s) = space_width s.
Proof.
  destruct s as [|c0 [|c1 [|c2 s3]]]; cbn [ascii_lower space_width];
    rewrite ?space1_lower, ?space2_lower, ?space3_lower; reflexivity.
Qed.

Lemma ascii_lower_idempotent (s : string) : ascii_lower (ascii_lower s) = ascii_lower s.
Proof.
  induction s as [|c s IH]; cbn [ascii_lower]; [reflexivity|].
  rewrite ascii_lower_char_idempotent, IH. reflexivity.
Qed.

Lemma length_lower (s : string) : String.length (ascii_lower s) = String.length s.
Proof. induction s as [|c s IH]; cbn [ascii_lower String.length]; auto. Qed.

Lemma lower_drop (k : nat) : forall s, ascii_lower (drop k s) = drop k (ascii_lower s).
Proof.
  induction k as [|k IH]; intros [|c s]; cbn [drop ascii_lower]; auto.
Qed.

Lemma lower_lstrip_from (steps : nat) :
  forall s, ascii_lower (lstrip_from steps s) = lstrip_from steps (ascii_lower s).
Proof.
  induction steps as [|steps IH]; intros s; cbn [lstrip_from]; [reflexivity|].
  rewrite space_width_lower. destruct (space_width s); [reflexivity|].
  rewrite IH, lower_drop. reflexivity.
Qed.

Lemma lower_lstrip (s : string) : ascii_lower (lstrip s) = lstrip (ascii_lower s).
Proof. unfold lstrip. rewrite length_lower. apply lower_lstrip_from. Qed.

Lemma all_space_lower (s : string) : all_space (ascii_lower s) = all_space s.
Proof.
  unfold all_space. rewrite <- lower_lstrip.
  destruct (lstrip s); reflexivity.
Qed.

Lemma lower_rstrip (s : string) : ascii_lower (rstrip s) = rstrip (ascii_lower s).
Proof.
  induction s as [|c s IH]; [reflexivity|].
  cbn [rstrip ascii_lower].
  change (String (ascii_lower_char c) (ascii_lower s)) with (ascii_lower (String c s)).
  rewrite all_space_lower.
  destruct (all_space (String c s)); cbn [ascii_lower]; [reflexivity|].
  rewrite IH. reflexivity.
Qed.

Lemma lower_strip (s : string) : ascii_lower (strip s) = strip (ascii_lower s).
Proof.
  unfold strip. rewrite lower_rstrip, lower_lstrip. reflexivity.
Qed.

(** ** Classifier: the main-file decision *)

Section ClassifierProperties.

Variable str_lower : string -> string.

(** The loop over the first three lines computes the two flags from the
    directives among these lines, each flag from its own keywords. *)
Lemma scan_directives_flags (n : nat) :
  forall (text : string) (e i : bool),
    scan_directives str_lower n text e i =
    (e || existsb (Spec.directive str_lower ["exclude"; "skip"])
            (firstn n (readlines text)),
     i || existsb (Spec.directive str_lower ["include"]) (firstn n (readlines text))).
Proof.
  induction n as [|n IH]; intros text e i.
  - simpl. rewrite !orb_false_r. reflexivity.
  - cbn [scan_directives]. rewrite (readlines_readline text).
    destruct (readline text) as [l r].
    destruct (String.eqb l EmptyString).
    + simpl. rewrite !orb_false_r. reflexivity.
    + rewrite IH. cbn [firstn existsb].
      unfold Spec.directive. cbn [existsb].
      destruct (startswith (str_lower (strip l)) "% auto-latexmk");
        destruct (contains "exclude" (str_lower (strip l)));
        destruct (contains "skip" (str_lower (strip l)));
        destruct (contains "include" (str_lower (strip l)));
        destruct e; destruct i; reflexivity.
Qed.

Lemma is_main_tex_file_readable (w : World) (path text : string) (mode : bool) :
  file w path = Readable text ->
  is_main_tex_file str_lower w path mode =
  (Spec.has_document_root text &&
     (if mode
      then existsb (Spec.directive str_lower ["include"]) (Spec.first_three_lines text)
      else negb (existsb (Spec.directive str_lower ["exclude"; "skip"])
                   (Spec.first_three_lines text))),
   w).
Proof.
  intros H. unfold is_main_tex_file. rewrite H.
  rewrite scan_directives_flags. cbn [orb].
  unfold Spec.has_document_root, Spec.first_three_lines.
  destruct (contains "\documentclass" text); destruct mode; reflexivity.
Qed.

Lemma existsb_directive (kws : list string) (lines : list string) :
  existsb (Spec.directive str_lower kws) lines = true <->
  exists line, In line lines /\ Spec.directive str_lower kws line = true.
Proof. apply existsb_exists. Qed.

(** Classification reads the world and writes only to the log. *)
Lemma is_main_tex_file_classify (w : World) (path : string) (mode : bool) :
  fst (is_main_tex_file str_lower w path mode)
  = Spec.classify str_lower (file w path) mode /\
  listing (snd (is_main_tex_file str_lower w path mode)) = listing w /\
  file (snd (is_main_tex_file str_lower w path mode)) = file w.
Proof.
  destruct (file w path) as [text|e|good e] eqn:F.
  - rewrite (is_main_tex_file_readable _ _ _ _ F). auto.
  - unfold is_main_tex_file. rewrite F. auto.
  - unfold is_main_tex_file. rewrite F. auto.
Qed.

(** C4.  A file without the document-root marker is never a main file.  With
    the marker, the default mode takes the file exactly when none of its
    first three lines is a directive naming exclude or skip, and the
    include-only mode takes it exactly when one of its first three lines is
    a directive naming include.  A directive is a line that, stripped of
    the white space around it and in lower case, starts with the prefix of
    the tool and contains the keyword. *)
Theorem is_main_tex_file_decision (w : World) (path text : string) :
  file w path = Readable text ->
  (Spec.has_document_root text = false ->
   forall mode, fst (is_main_tex_file str_lower w path mode) = false) /\
  (Spec.has_document_root text = true ->
   (fst (is_main_tex_file str_lower w path false) = true <->
    ~ exists line, In line (Spec.first_three_lines text) /\
                   Spec.directive str_lower ["exclude"; "skip"] line = true) /\
   (fst (is_main_tex_file str_lower w path true) = true <->
    exists line, In line (Spec.first_three_lines text) /\
                 Spec.directive str_lower ["include"] line = true)).
Proof.
  intros H. split.
  - intros D mode. rewrite (is_main_tex_file_readable _ _ _ _ H). simpl.
    rewrite D. reflexivity.
  - intros D. rewrite !(is_main_tex_file_readable _ _ _ _ H). simpl.
    rewrite D. cbn [andb]. split.
    + rewrite negb_true_iff, <- not_true_iff_false.
      apply not_iff_compat, existsb_directive.
    + apply existsb_directive.
Qed.

(** C9.  With the marker present, the default mode leaves the file out
    exactly when an exclude or skip directive stands among the first three
    lines, whatever include directives stand there, and the include-only
    mode takes the file exactly when an include directive stands there,
    whatever exclude or skip directives do: each mode reads its own flag.
    So with both kinds of directive the file is left out in the default
    mode and taken in the include-only mode. *)
Theorem include_and_exclude_independent (w : World) (path text : string) :
  file w path = Readable text ->
  Spec.has_document_root text = true ->
  (fst (is_main_tex_file str_lower w path false) = false <->
   exists line, In line (Spec.first_three_lines text) /\
                Spec.directive str_lower ["exclude"; "skip"] line = true) /\
  (fst (is_main_tex_file str_lower w path true) = true <->
   exists line, In line (Spec.first_three_lines text) /\
                Spec.directive str_lower ["include"] line = true) /\
  ((exists line, In line (Spec.first_three_lines text) /\
                 Spec.directive str_lower ["include"] line = true) ->
   (exists line, In line (Spec.first_three_lines text) /\
                 Spec.directive str_lower ["exclude"; "skip"] line = true) ->
   fst (is_main_tex_file str_lower w path false) = false /\
   fst (is_main_tex_file str_lower w path true) = true).
Proof.
  intros H D.
  rewrite !(is_main_tex_file_readable _ _ _ _ H). cbn [fst].
  rewrite D. cbn [andb]. rewrite negb_false_iff.
  split; [apply existsb_directive|]. split; [apply existsb_directive|].
  intros I E. apply existsb_directive in I. apply existsb_directive in E.
  rewrite I, E. split; reflexivity.
Qed.

End ClassifierProperties.

Lemma is_main_tex_file_decision_witness :
  file (MoreSamples.reading MoreSamples.wide_both) "a.tex"
  = Readable MoreSamples.wide_both /\
  fst (is_main_tex_file ascii_lower (MoreSamples.reading MoreSamples.wide_both) "a.tex" true)
  = true.
Proof.
  split; [reflexivity|].
  apply (is_main_tex_file_decision ascii_lower (MoreSamples.reading MoreSamples.wide_both)
           "a.tex" MoreSamples.wide_both eq_refl).
  - reflexivity.
  - exists (MoreSamples.wide_space ++ "% auto-latexmk include" ++ Sample.nl)%string.
    split; [left; reflexivity | reflexivity].
Defined.

Lemma include_and_exclude_independent_witness :
  fst (is_main_tex_file ascii_lower (MoreSamples.reading MoreSamples.wide_both) "a.tex" false)
  = false /\
  fst (is_main_tex_file ascii_lower (MoreSamples.reading MoreSamples.wide_both) "a.tex" true)
  = true.
Proof.
  apply (include_and_exclude_independent ascii_lower
           (MoreSamples.reading MoreSamples.wide_both) "a.tex" MoreSamples.wide_both
           eq_refl eq_refl).
  - exists (MoreSamples.wide_space ++ "% auto-latexmk include" ++ Sample.nl)%string.
    split; [left; reflexivity | reflexivity].
  - exists ("% auto-latexmk skip" ++ MoreSamples.wide_space ++ Sample.nl)%string.
    split; [right; left; reflexivity | reflexivity].
Defined.

(** ** Classifier: engine detection *)

Lemma first_line_engine_shebang (first_line : string) :
  strip first_line = first_line ->
  first_line_engine first_line
  = option_map (fun eng => (eng, Some first_line)) (Spec.shebang first_line).
Proof.
  intros S. unfold first_line_engine, Spec.shebang, Spec.supported_engines.
  rewrite S. cbn [find].
  destruct (startswith first_line "% !TEX"); [|reflexivity].
  destruct (contains "xelatex" first_line); [reflexivity|].
  destruct (contains "pdflatex" first_line); [reflexivity|].
  destruct (contains "lualatex" first_line); reflexivity.
Qed.

Lemma get_tex_engine_readable (w : World) (path default_engine text : string) :
  file w path = Readable text ->
  get_tex_engine w path default_engine =
  (match Spec.shebang (strip (fst (readline text))) with
   | Some eng => (eng, Some (strip (fst (readline text))))
   | None =>
       match ctex_scan (readlines text) with
       | Some line => ("xelatex", Some line)
       | None => (default_engine, None)
       end
   end, w).
Proof.
  intros H. unfold get_tex_engine. rewrite H.
  rewrite first_line_engine_shebang by apply strip_idempotent.
  destruct (Spec.shebang (strip (fst (readline text)))); cbn [option_map];
    [|destruct (ctex_scan (readlines text))]; reflexivity.
Qed.

(** The loop over the lines that are read before an error gives what the
    loop over these lines alone gives, and raises where that loop comes to
    the end of the lines. *)
Lemma ctex_scan_before_error_result (e : Exc) (lines : list string) :
  match ctex_scan_before_error e lines with
  | Ok r => ctex_scan lines = r
  | Raise e' => ctex_scan lines = None /\ e' = e
  end.
Proof.
  induction lines as [|line lines IH]; cbn [ctex_scan_before_error ctex_scan]; auto.
  destruct (contains "\begin{document}" (strip line)); [reflexivity|].
  destruct (contains "ctex" (strip line)); [reflexivity | exact IH].
Qed.

Lemma get_tex_engine_broken (w : World) (path default_engine good : string) (e : Exc) :
  file w path = Broken good e ->
  fst (get_tex_engine w path default_engine) = Spec.detect (Broken good e) default_engine /\
  listing (snd (get_tex_engine w path default_engine)) = listing w /\
  file (snd (get_tex_engine w path default_engine)) = file w.
Proof.
  intros H. unfold get_tex_engine. rewrite H. cbn [Spec.detect].
  destruct (lines_before_error good) as [|line rest]; [auto|].
  unfold Spec.detect_in.
  rewrite first_line_engine_shebang by apply strip_idempotent.
  destruct (Spec.shebang (strip line)); cbn [option_map]; [auto|].
  pose proof (ctex_scan_before_error_result e (line :: rest)) as R.
  destruct (ctex_scan_before_error e (line :: rest)) as [[found|]|e'].
  - rewrite R. auto.
  - rewrite R. auto.
  - destruct R as (-> & _). auto.
Qed.

Lemma get_tex_engine_detect (w : World) (path default_engine : string) :
  fst (get_tex_engine w path default_engine) = Spec.detect (file w path) default_engine /\
  listing (snd (get_tex_engine w path default_engine)) = listing w /\
  file (snd (get_tex_engine w path default_engine)) = file w.
Proof.
  destruct (file w path) as [text|e|good e] eqn:F.
  - rewrite (get_tex_engine_readable _ _ _ _ F). auto.
  - unfold get_tex_engine. rewrite F. auto.
  - apply (get_tex_engine_broken _ _ _ _ _ F).
Qed.

Lemma ctex_at_tail (raw : string) (rest : list string) (i : nat) (line : string) :
  Spec.ctex_at (raw :: rest) (S i) line <->
  contains "\begin{document}" (strip raw) = false /\ Spec.ctex_at rest i line.
Proof.
  unfold Spec.ctex_at. cbn [nth_error]. split.
  - intros (N & C & B). split; [apply (B 0 raw); [lia | reflexivity]|].
    repeat split; auto. intros j l Hj Hl. apply (B (S j) l); [lia | exact Hl].
  - intros (B0 & N & C & B). repeat split; auto.
    intros [|j] l Hj Hl.
    + simpl in Hl. inversion Hl. subst l. exact B0.
    + apply (B j l); [lia | exact Hl].
Qed.

(** The scan stops with a line exactly when the token stands on a line
    before the body starts, and then with the first such line, stripped. *)
Lemma ctex_scan_found (lines : list string) (line : string) :
  ctex_scan lines = Some line ->
  exists i raw, Spec.ctex_at lines i raw /\ line = strip raw.
Proof.
  induction lines as [|raw rest IH]; [discriminate|].
  cbn [ctex_scan].
  destruct (contains "\begin{document}" (strip raw)) eqn:B; [discriminate|].
  destruct (contains "ctex" (strip raw)) eqn:C.
  - intros E. inversion E. exists 0, raw. split; [|reflexivity].
    repeat split; auto. intros j l Hj Hl.
    assert (j = 0) by lia. subst j. simpl in Hl. inversion Hl. subst l. exact B.
  - intros E. destruct (IH E) as (i & raw' & A & L).
    exists (S i), raw'. split; [|exact L]. apply ctex_at_tail. auto.
Qed.

Lemma ctex_scan_not_found (lines : list string) :
  ctex_scan lines = None -> ~ Spec.ctex_before_document lines.
Proof.
  induction lines as [|raw rest IH]; intros E (i & line & A).
  - destruct A as (N & _). destruct i; discriminate.
  - cbn [ctex_scan] in E.
    destruct (contains "\begin{document}" (strip raw)) eqn:B.
    + destruct A as (_ & _ & A). rewrite (A 0 raw) in B; [discriminate | lia | reflexivity].
    + destruct (contains "ctex" (strip raw)) eqn:C; [discriminate|].
      destruct i as [|i].
      * destruct A as (N & C' & _). simpl in N. inversion N. subst line.
        rewrite C in C'. discriminate.
      * apply ctex_at_tail in A. apply (IH E). exists i, line. apply A.
Qed.

Lemma shebang_some (first_line eng : string) :
  Spec.shebang first_line = Some eng ->
  startswith first_line "% !TEX" = true /\
  In eng Spec.supported_engines /\ contains eng first_line = true.
Proof.
  unfold Spec.shebang. destruct (startswith first_line "% !TEX"); [|discriminate].
  intros F. apply find_some in F. tauto.
Qed.

(** Without a supported first-line directive, detection is the scan for
    the token. *)
Lemma get_tex_engine_falls_through (w : World) (path default_engine text : string) :
  file w path = Readable text ->
  Spec.shebang (strip (fst (readline text))) = None ->
  (Spec.ctex_before_document (readlines text) ->
   exists i raw, Spec.ctex_at (readlines text) i raw /\
     fst (get_tex_engine w path default_engine) = ("xelatex", Some (strip raw))) /\
  (~ Spec.ctex_before_document (readlines text) ->
   fst (get_tex_engine w path default_engine) = (default_engine, None)).
Proof.
  intros H S. rewrite (get_tex_engine_readable _ _ _ _ H), S. cbn [fst].
  destruct (ctex_scan (readlines text)) as [line|] eqn:E.
  - destruct (ctex_scan_found _ _ E) as (i & raw & A & L). split.
    + intros _. exists i, raw. subst line. auto.
    + intros N. exfalso. apply N. exists i, raw. exact A.
  - split.
    + intros P. exfalso. exact (ctex_scan_not_found _ E P).
    + reflexivity.
Qed.

(** C5.  The priority of engine detection: a first line that, stripped of
    the white space around it, is a directive naming a supported engine
    settles the engine, whatever follows and whatever the default; without
    one, the token on a line before the body starts gives xelatex, whatever
    the default; without both, the default comes back as it is and with no
    note. *)
Theorem get_tex_engine_priority (w : World) (path default_engine text : string) :
  file w path = Readable text ->
  let first_line := strip (fst (readline text)) in
  let lines := readlines text in
  (forall eng, Spec.shebang first_line = Some eng ->
     In eng Spec.supported_engines /\ contains eng first_line = true /\
     fst (get_tex_engine w path default_engine) = (eng, Some first_line)) /\
  (Spec.shebang first_line = None ->
   Spec.ctex_before_document lines ->
   exists i raw, Spec.ctex_at lines i raw /\
     fst (get_tex_engine w path default_engine) = ("xelatex", Some (strip raw))) /\
  (Spec.shebang first_line = None ->
   ~ Spec.ctex_before_document lines ->
   fst (get_tex_engine w path default_engine) = (default_engine, None)).
Proof.
  intros H first_line lines. split; [|split].
  - intros eng S. destruct (shebang_some _ _ S) as (_ & I & C).
    repeat split; auto.
    rewrite (get_tex_engine_readable _ _ _ _ H). fold first_line. rewrite S. reflexivity.
  - intros S. apply (get_tex_engine_falls_through w path default_engine text H S).
  - intros S. apply (get_tex_engine_falls_through w path default_engine text H S).
Qed.

Lemma get_tex_engine_priority_witness :
  fst (get_tex_engine (MoreSamples.reading MoreSamples.wide_shebang) "a.tex" "lualatex") =
  ("pdflatex", Some "% !TEX program = pdflatex").
Proof.
  apply (get_tex_engine_priority (MoreSamples.reading MoreSamples.wide_shebang) "a.tex"
           "lualatex" MoreSamples.wide_shebang eq_refl).
  reflexivity.
Defined.

(** C10.  A first line that, stripped of the white space around it,
    starts with the shebang prefix and names none of the three engines does
    not end the detection: the scan for the token decides, giving xelatex
    with the matching line, stripped of the white space around it, as note,
    or else the default with no note. *)
Theorem unsupported_shebang_falls_through
  (w : World) (path default_engine text : string) :
  file w path = Readable text ->
  let first_line := strip (fst (readline text)) in
  startswith first_line "% !TEX" = true ->
  contains "xelatex" first_line = false ->
  contains "pdflatex" first_line = false ->
  contains "lualatex" first_line = false ->
  (Spec.ctex_before_document (readlines text) ->
   exists i raw, Spec.ctex_at (readlines text) i raw /\
     fst (get_tex_engine w path default_engine) = ("xelatex", Some (strip raw))) /\
  (~ Spec.ctex_before_document (readlines text) ->
   fst (get_tex_engine w path default_engine) = (default_engine, None)).
Proof.
  intros H first_line S X P L.
  apply (get_tex_engine_falls_through w path default_engine text H).
  fold first_line.
  unfold Spec.shebang, Spec.supported_engines. cbn [find].
  rewrite S, X, P, L. reflexivity.
Qed.

Lemma unsupported_shebang_falls_through_witness :
  exists i raw, Spec.ctex_at (readlines MoreSamples.wide_ctex) i raw /\
    fst (get_tex_engine (MoreSamples.reading MoreSamples.wide_ctex) "a.tex" "pdflatex")
    = ("xelatex", Some (strip raw)).
Proof.
  apply (unsupported_shebang_falls_through (MoreSamples.reading MoreSamples.wide_ctex)
           "a.tex" "pdflatex" MoreSamples.wide_ctex eq_refl eq_refl eq_refl eq_refl
           eq_refl).
  exists 1, (MoreSamples.wide_space ++ "\usepackage{ctex}" ++ MoreSamples.wide_space
               ++ Sample.nl)%string.
  repeat split.
  intros j l Hj Hl.
  destruct j as [|[|j]]; [| |lia]; simpl in Hl; inversion Hl; reflexivity.
Defined.

(** ** Compilation executor *)

Section ExecutorProperties.

Variable path_join : string -> string -> string.
Variable abspath : string -> string.
Variable exc_str : Exc -> string.

(** Every path through [run_single_compile_task] ends in a returned dict. *)
Lemma run_single_compile_task_returns
  (env : ExecEnv) (task : Task) (log : list LogRecord) :
  exists log',
    run_single_compile_task path_join abspath exc_str env task log
    = (Ok (build_result path_join abspath exc_str env task), log').
Proof.
  unfold run_single_compile_task, build_result, diagnostic, child, elapsed,
    try_except, and_then, logging, modify, lift, ret, subprocess_run,
    decode_utf8, copy.
  destruct (run_process env (latex_full_command path_join abspath task) (subdir task))
    as [runtime code err| |e].
  - destruct (Qle_bool runtime (180 # 1)).
    + cbn [returncode stderr]. destruct (code =? 0)%Z.
      * eexists. reflexivity.
      * destruct (utf8_run UStart err); eexists; reflexivity.
    + eexists. reflexivity.
  - eexists. reflexivity.
  - destruct e; eexists; reflexivity.
Qed.

Lemma build_result_records (env : ExecEnv) (task : Task) :
  Spec.records (build_result path_join abspath exc_str env task) task
    (elapsed env) (latex_full_command path_join abspath task).
Proof.
  unfold build_result, Spec.records.
  destruct (diagnostic path_join abspath exc_str env task); repeat split; reflexivity.
Qed.

Lemma build_result_outcome (env : ExecEnv) (task : Task) :
  match diagnostic path_join abspath exc_str env task with
  | None => Spec.succeeded (build_result path_join abspath exc_str env task)
  | Some msg => Spec.failed_with (build_result path_join abspath exc_str env task) msg
  end.
Proof.
  unfold build_result, Spec.succeeded, Spec.failed_with.
  destruct (diagnostic path_join abspath exc_str env task); split; reflexivity.
Qed.

(** C2, as the code has it.  Every call returns a result and raises
    nothing; the result records the elapsed time and the command whatever
    the outcome; exit code zero is a success; a non-zero exit code is a
    failure whose diagnostic is the captured stderr when that is
    well-formed UTF-8, and the description of the decoding error when it is
    not; a child that outlives 180 seconds is a failure with the fixed
    diagnostic; any other failure of the invocation is a failure with its
    description as diagnostic. *)
Theorem run_single_compile_task_outcomes
  (env : ExecEnv) (task : Task) (log : list LogRecord) :
  exists d log',
    run_single_compile_task path_join abspath exc_str env task log = (Ok d, log') /\
    Spec.records d task (PrimFloat.sub (time_end env) (time_start env))
      (latex_full_command path_join abspath task) /\
    (forall runtime err,
        child path_join abspath env task = Exits runtime 0 err ->
        (runtime <= 180 # 1)%Q -> Spec.succeeded d) /\
    (forall runtime code err,
        child path_join abspath env task = Exits runtime code err ->
        (runtime <= 180 # 1)%Q -> code <> 0%Z ->
        (decode_utf8 err = Ok err -> Spec.failed_with d err) /\
        (decode_utf8 err = Raise (UnicodeDecodeError err) ->
         Spec.failed_with d (exc_str (UnicodeDecodeError err)))) /\
    (forall runtime code err,
        child path_join abspath env task = Exits runtime code err ->
        (180 # 1 < runtime)%Q -> Spec.failed_with d "Compilation timed out.") /\
    (child path_join abspath env task = Hangs ->
     Spec.failed_with d "Compilation timed out.") /\
    (forall e,
        child path_join abspath env task = FailsToStart e ->
        e <> TimeoutExpired -> Spec.failed_with d (exc_str e)).
Proof.
  destruct (run_single_compile_task_returns env task log) as (log' & R).
  exists (build_result path_join abspath exc_str env task), log'. split; [exact R|].
  split; [apply build_result_records|].
  pose proof (build_result_outcome env task) as O. unfold diagnostic in O.
  split; [|split; [|split; [|split]]].
  - intros runtime err B T. rewrite B in O.
    apply Qle_bool_iff in T. rewrite T in O. exact O.
  - intros runtime code err B T N. rewrite B in O.
    apply Qle_bool_iff in T. rewrite T in O.
    apply Z.eqb_neq in N. rewrite N in O.
    unfold decode_utf8.
    destruct (utf8_run UStart err); split; intros D; try discriminate; exact O.
  - intros runtime code err B T. rewrite B in O.
    destruct (Qle_bool runtime (180 # 1)) eqn:Q; [|exact O].
    apply Qle_bool_iff in Q. exfalso. apply (Qlt_not_le _ _ T Q).
  - intros B. rewrite B in O. exact O.
  - intros e B N. rewrite B in O. destruct e; try exact O. contradiction.
Qed.

End ExecutorProperties.

(** C2 as it was stated fails here: at a non-zero exit code whose stderr is
    the single byte 0xFF the diagnostic is the description of the decoding
    error; the captured stderr is no text, and the diagnostic is not it. *)
Lemma nonzero_exit_undecodable_stderr :
  exists d log,
    run_single_compile_task Sample.posix_join Sample.same_path Sample.describe
      Sample.env_bad_stderr Sample.task_a [] = (Ok d, log) /\
    child Sample.posix_join Sample.same_path Sample.env_bad_stderr Sample.task_a
    = Exits (3 # 1) 1 (String "255"%char "") /\
    decode_utf8 (String "255"%char "")
    = Raise (UnicodeDecodeError (String "255"%char "")) /\
    Spec.failed_with d (Sample.describe (UnicodeDecodeError (String "255"%char ""))) /\
    ~ Spec.failed_with d (String "255"%char "").
Proof.
  destruct (run_single_compile_task_returns Sample.posix_join Sample.same_path
              Sample.describe Sample.env_bad_stderr Sample.task_a []) as (log & R).
  exists (build_result Sample.posix_join Sample.same_path Sample.describe
            Sample.env_bad_stderr Sample.task_a), log.
  split; [exact R|].
  split; [reflexivity|]. split; [reflexivity|]. split; [split; reflexivity|].
  intros (_ & E). vm_compute in E. discriminate.
Qed.

(** ** Scheduler *)

Ltac accept_prints A := repeat (rewrite A; cbn).

Section SchedulerProperties.

Variable path_join : string -> string -> string.
Variable abspath : string -> string.
Variable exc_str : Exc -> string.
Variable stdout_error : Stdout.

(** The result of the executor has every key the progress report reads:
    when the standard output takes what is printed, the report goes
    through, with three calls of [print] for a failure, one for a success,
    and none for a success when quiet. *)
Lemma show_current_compile_result_prints
  (env : ExecEnv) (task : Task) (task_nums cnt : nat) (quiet : bool) (s : SchedState) :
  accepts_all stdout_error ->
  exists s' printed,
    show_current_compile_result stdout_error
      (build_result path_join abspath exc_str env task) task_nums cnt quiet s
    = (Ok tt, s') /\
    console s' = console s ++ printed /\
    length printed
    = progress_prints quiet (build_result path_join abspath exc_str env task) /\
    task_results s' = task_results s /\ task_cnt s' = task_cnt s /\
    sched_log s' = sched_log s.
Proof.
  intros A.
  unfold progress_prints, is_failure, build_result, show_current_compile_result,
    and_then, lift, print, ret.
  destruct (diagnostic path_join abspath exc_str env task); destruct quiet;
    cbn; accept_prints A; eexists; eexists; (split; [reflexivity|]);
    cbn [console task_results task_cnt sched_log]; rewrite <- ?app_assoc;
    cbn [app]; (split; [try reflexivity|]); try (repeat split; reflexivity).
  - instantiate (1 := []). rewrite app_nil_r. reflexivity.
  - repeat split.
Qed.

(** The report raises nothing of its own on a result of the executor: an
    exception it ends with is one that [print] raised. *)
Lemma show_current_compile_result_raises
  (env : ExecEnv) (task : Task) (task_nums cnt : nat) (quiet : bool) (s s' : SchedState)
  (e : Exc) :
  show_current_compile_result stdout_error
    (build_result path_join abspath exc_str env task) task_nums cnt quiet s
  = (Raise e, s') ->
  exists printed m, stdout_error printed m = Some e.
Proof.
  unfold build_result, show_current_compile_result, and_then, lift, print, ret.
  destruct (diagnostic path_join abspath exc_str env task); destruct quiet; cbn;
    repeat match goal with
           | |- context [stdout_error ?c ?m] =>
               let E := fresh "E" in destruct (stdout_error c m) eqn:E; cbn
           end;
    intros H; inversion H; subst; eauto.
Qed.

Lemma future_result_completes (task : Task) (env : ExecEnv) :
  future_result path_join abspath exc_str (task, Completes env)
  = Ok (build_result path_join abspath exc_str env task).
Proof.
  unfold future_result. cbn [fst snd].
  destruct (run_single_compile_task_returns path_join abspath exc_str env task [])
    as (log' & R).
  rewrite R. reflexivity.
Qed.

(** However the body of the loop goes for a future, the loop goes on or
    ends with [KeyError(0)]: the handler looks up the key 0 in the task's
    dict, which raises in its turn. *)
Lemma collect_outcome (task_nums : nat) (quiet : bool) (future : Future) (s : SchedState) :
  exists s',
    collect path_join abspath exc_str stdout_error task_nums quiet future s = (Ok tt, s') \/
    collect path_join abspath exc_str stdout_error task_nums quiet future s
    = (Raise (KeyError (KInt 0)), s').
Proof.
  unfold collect.
  match goal with
  | |- context [try_except ?body ?handler] =>
      set (guarded := try_except body handler);
      assert (T : (exists u s1, guarded s = (Ok u, s1)) \/
                  (exists s1, guarded s = (Raise (KeyError (KInt 0)), s1)))
  end.
  { unfold guarded, try_except.
    match goal with
    | |- context [match ?b with _ => _ end] => destruct b as [[a|e0] s0]
    end.
    - left. eauto.
    - right. eexists. reflexivity. }
  unfold and_then.
  destruct T as [(u & s1 & T)|(s1 & T)]; rewrite T.
  - eexists. left. reflexivity.
  - exists s1. right. reflexivity.
Qed.

(** A future whose worker completed adds its result and goes on, when the
    standard output takes what is printed. *)
Lemma collect_completes
  (task_nums : nat) (quiet : bool) (task : Task) (env : ExecEnv) (s : SchedState) :
  accepts_all stdout_error ->
  exists s',
    collect path_join abspath exc_str stdout_error task_nums quiet (task, Completes env) s
    = (Ok tt, s') /\
    task_results s' = task_results s ++ [build_result path_join abspath exc_str env task] /\
    task_cnt s' = S (task_cnt s) /\
    length (console s')
    = length (console s)
      + progress_prints quiet (build_result path_join abspath exc_str env task) /\
    sched_log s' = sched_log s.
Proof.
  intros A.
  unfold collect, try_except, and_then at 1 2 3 4, lift, append_result, incr_task_cnt,
    modify.
  rewrite future_result_completes.
  match goal with
  | |- context [show_current_compile_result _ ?r ?n ?c ?q ?st] =>
      destruct (show_current_compile_result_prints env task n c q st A)
        as (s1 & printed & E & C & P & R & N & L)
  end.
  rewrite E. eexists. split; [reflexivity|].
  cbn [task_results task_cnt console sched_log] in *.
  rewrite R, N, C, L, length_app, P. auto.
Qed.

(** A future whose result cannot be retrieved. *)
Lemma collect_crashes
  (task_nums : nat) (quiet : bool) (task : Task) (e : Exc) (s : SchedState) :
  collect path_join abspath exc_str stdout_error task_nums quiet (task, Crashes e) s
  = (Raise (KeyError (KInt 0)), s).
Proof. reflexivity. Qed.

Lemma for_each_collect_completes (task_nums : nat) (quiet : bool) :
  accepts_all stdout_error ->
  forall (futures : list (Task * ExecEnv)) (s : SchedState),
  exists s',
    for_each (map completing futures)
      (collect path_join abspath exc_str stdout_error task_nums quiet) s
    = (Ok tt, s') /\
    task_results s'
    = task_results s ++ map (result_of path_join abspath exc_str) futures /\
    task_cnt s' = task_cnt s + length futures /\
    length (console s')
    = length (console s)
      + list_sum (map (progress_prints quiet)
                    (map (result_of path_join abspath exc_str) futures)) /\
    sched_log s' = sched_log s.
Proof.
  intros A. induction futures as [|[task env] futures IH]; intros s.
  - exists s. split; [reflexivity|]. cbn. rewrite app_nil_r, !Nat.add_0_r. auto.
  - cbn [map for_each]. unfold completing at 1. cbn [fst snd]. unfold and_then at 1.
    destruct (collect_completes task_nums quiet task env s A)
      as (s1 & E & R & N & C & L).
    rewrite E. destruct (IH s1) as (s2 & E2 & R2 & N2 & C2 & L2).
    exists s2. split; [exact E2|].
    rewrite R2, R, <- app_assoc, N2, N, C2, C, L2, L.
    change (result_of path_join abspath exc_str (task, env))
      with (build_result path_join abspath exc_str env task).
    unfold list_sum. cbn [fold_right length app]. split; [reflexivity|].
    split; [lia|]. split; [lia | reflexivity].
Qed.

(** One future whose result cannot be retrieved is enough: the loop ends
    with [KeyError(0)], at that future or before it. *)
Lemma for_each_collect_crashes (task_nums : nat) (quiet : bool) :
  forall (completed : list Future) (s : SchedState),
    (exists task e, In (task, Crashes e) completed) ->
    exists s',
      for_each completed (collect path_join abspath exc_str stdout_error task_nums quiet) s
      = (Raise (KeyError (KInt 0)), s').
Proof.
  induction completed as [|[task fate] completed IH]; intros s (t & e & I).
  - contradiction.
  - cbn [for_each]. unfold and_then at 1.
    destruct (collect_outcome task_nums quiet (task, fate) s) as (s1 & [E|E]); rewrite E.
    + destruct I as [I|I].
      * inversion I. subst. rewrite collect_crashes in E. discriminate.
      * apply IH. exists t, e. exact I.
    + exists s1. reflexivity.
Qed.

Lemma combine_completes (tasks : list Task) (envs : list ExecEnv) :
  combine tasks (map Completes envs) = map completing (combine tasks envs).
Proof.
  revert envs. induction tasks as [|t tasks IH]; intros [|e envs]; simpl; auto.
  rewrite IH. reflexivity.
Qed.

Lemma pick_all {A : Type} (l : list A) :
  flat_map (pick l) (seq 0 (length l)) = l.
Proof.
  induction l as [|a l IH]; [reflexivity|].
  cbn [length seq flat_map]. rewrite <- seq_shift.
  rewrite flat_map_concat_map, map_map, <- flat_map_concat_map.
  unfold pick at 1. cbn [nth_error app]. f_equal. exact IH.
Qed.

Lemma pick_map {A B : Type} (f : A -> B) (l : list A) (order : list nat) :
  flat_map (pick (map f l)) order = map f (flat_map (pick l) order).
Proof.
  induction order as [|i order IH]; [reflexivity|].
  cbn [flat_map]. rewrite map_app, IH. f_equal.
  unfold pick. rewrite nth_error_map. destruct (nth_error l i); reflexivity.
Qed.

(** When the standard output takes what is printed and every future gives
    its result, the scheduler returns the results of the executor in the
    order of completion. *)
Lemma run_compile_tasks_completes
  (tasks : list Task) (quiet : bool) (envs : list ExecEnv) (order : list nat)
  (s : SchedState) :
  accepts_all stdout_error ->
  exists s',
    run_compile_tasks path_join abspath exc_str stdout_error tasks quiet
      (map Completes envs) order s
    = (Ok (map (result_of path_join abspath exc_str)
             (flat_map (pick (combine tasks envs)) order)), s') /\
    task_cnt s' = length (flat_map (pick (combine tasks envs)) order) /\
    length (console s')
    = length (console s) + 1
      + list_sum (map (progress_prints quiet)
                    (map (result_of path_join abspath exc_str)
                       (flat_map (pick (combine tasks envs)) order))) /\
    sched_log s' = sched_log s.
Proof.
  intros A. unfold run_compile_tasks. rewrite combine_completes, pick_map.
  unfold and_then at 1 2 3, print, modify. cbn [console]. rewrite A.
  match goal with
  | |- context [for_each (map completing ?fs) ?body ?st] =>
      destruct (for_each_collect_completes (length tasks) quiet A fs st)
        as (s' & E & R & N & C & L)
  end.
  unfold Future in E. cbn [task_results task_cnt console sched_log app] in R, N, C, L.
  exists s'. rewrite E, R. split; [reflexivity|].
  rewrite N, C, L, length_app. cbn [length]. repeat split; lia.
Qed.

(** The same batch in another order of completion gives the same results
    up to their order, one for each task. *)
Lemma results_of_every_task (tasks : list Task) (envs : list ExecEnv) (order : list nat) :
  length envs = length tasks ->
  Permutation order (seq 0 (length tasks)) ->
  Permutation (flat_map (pick (combine tasks envs)) order) (combine tasks envs) /\
  length (flat_map (pick (combine tasks envs)) order) = length tasks.
Proof.
  intros L P.
  assert (Q : Permutation (flat_map (pick (combine tasks envs)) order)
                (combine tasks envs)).
  { rewrite <- (pick_all (combine tasks envs)) at 2.
    apply Permutation_flat_map.
    rewrite length_combine, L, Nat.min_id. exact P. }
  split; [exact Q|].
  rewrite (Permutation_length Q), length_combine, L, Nat.min_id. reflexivity.
Qed.

End SchedulerProperties.

(** C3, on the code.  Two tasks are submitted and the worker of each
    returns the result of a successful build, so no result fails to be
    retrieved; the run is not quiet and the standard output has no check
    mark in its encoding.  Printing the progress line of the first result
    raises inside the try block; the handler raises [KeyError(0)], the call
    ends with that exception and returns no results: the first result was
    collected and is lost, the second is never looked at. *)
Theorem progress_print_error_aborts_batch :
  future_result Sample.posix_join Sample.same_path Sample.describe
    (Sample.task_a, Completes Sample.env_ok)
  = Ok (build_result Sample.posix_join Sample.same_path Sample.describe
          Sample.env_ok Sample.task_a) /\
  future_result Sample.posix_join Sample.same_path Sample.describe
    (Sample.task_b, Completes Sample.env_ok)
  = Ok (build_result Sample.posix_join Sample.same_path Sample.describe
          Sample.env_ok Sample.task_b) /\
  exists s',
    run_compile_tasks Sample.posix_join Sample.same_path Sample.describe
      MoreSamples.legacy_stdout [Sample.task_a; Sample.task_b] false
      [Completes Sample.env_ok; Completes Sample.env_ok] [0; 1] Sample.idle
    = (Raise (KeyError (KInt 0)), s') /\
    task_results s'
    = [build_result Sample.posix_join Sample.same_path Sample.describe
         Sample.env_ok Sample.task_a] /\
    console s' = [[FText "Processing "; FText "2"; FText " tasks in parallel..."]] /\
    sched_log s' = [].
Proof.
  split; [vm_compute; reflexivity|]. split; [vm_compute; reflexivity|].
  eexists. split; [vm_compute; reflexivity|]. repeat split.
Qed.

(** C1, on the code.  Two tasks are submitted; the result of the first
    cannot be retrieved, the second completes.  The handler raises
    [KeyError(0)], the call ends with that exception, nothing is logged and
    the result of the second task is not collected. *)
Theorem retrieval_error_aborts_batch :
  exists s',
    run_compile_tasks Sample.posix_join Sample.same_path Sample.describe Sample.terminal
      [Sample.task_a; Sample.task_b] false
      [Crashes BrokenProcessPool; Completes Sample.env_ok] [0; 1] Sample.idle
    = (Raise (KeyError (KInt 0)), s') /\
    task_results s' = [] /\ sched_log s' = [].
Proof.
  eexists. split; [vm_compute; reflexivity|]. split; reflexivity.
Qed.

(** ** Task discovery *)

Section DiscoveryProperties.

Variable str_lower : string -> string.
Variable path_join : string -> string -> string.
Variable abspath : string -> string.

Lemma visit_tex_file_task (default_engine : string) (mode : bool) (dirpath : string)
  (tasks : list Task) (w : World) (item : string) :
  exists w',
    visit_tex_file str_lower path_join abspath default_engine mode dirpath (tasks, w) item
    = (tasks ++ task_for str_lower path_join abspath (file w) default_engine mode
                  dirpath item, w') /\
    listing w' = listing w /\ file w' = file w.
Proof.
  unfold visit_tex_file, task_for, source_path.
  set (path := normalize (abspath (path_join dirpath item))).
  destruct (is_main_tex_file_classify str_lower w path mode) as (C & L & F).
  destruct (is_main_tex_file str_lower w path mode) as [b w1]. cbn [fst snd] in C, L, F.
  rewrite <- C. destruct b.
  - destruct (get_tex_engine_detect w1 path default_engine) as (D & L2 & F2).
    destruct (get_tex_engine w1 path default_engine) as [[eng note] w2].
    cbn [fst snd] in D, L2, F2. rewrite F in D. rewrite <- D. cbn [fst snd].
    exists w2. repeat split; congruence.
  - exists w1. rewrite app_nil_r. auto.
Qed.

Lemma fold_visit_tex_file (default_engine : string) (mode : bool) (dirpath : string) :
  forall (items : list string) (tasks : list Task) (w : World),
  exists w',
    fold_left (visit_tex_file str_lower path_join abspath default_engine mode dirpath)
      items (tasks, w)
    = (tasks ++ flat_map (task_for str_lower path_join abspath (file w) default_engine
                            mode dirpath) items, w') /\
    listing w' = listing w /\ file w' = file w.
Proof.
  induction items as [|item items IH]; intros tasks w.
  - exists w. simpl. rewrite app_nil_r. auto.
  - cbn [fold_left flat_map].
    destruct (visit_tex_file_task default_engine mode dirpath tasks w item)
      as (w1 & E & L & F).
    rewrite E.
    destruct (IH (tasks ++ task_for str_lower path_join abspath (file w) default_engine
                             mode dirpath item) w1)
      as (w2 & E2 & L2 & F2).
    exists w2. rewrite E2, F, <- app_assoc. repeat split; congruence.
Qed.

Lemma fold_visit_dir (default_engine : string) (mode : bool) :
  forall (entries : list (string * list string)) (tasks : list Task) (w : World),
  exists w',
    fold_left (visit_dir str_lower path_join abspath default_engine mode) entries
      (tasks, w)
    = (tasks ++ flat_map (tasks_in str_lower path_join abspath (file w) default_engine
                            mode) entries, w') /\
    listing w' = listing w /\ file w' = file w.
Proof.
  induction entries as [|[dirpath files] entries IH]; intros tasks w.
  - exists w. simpl. rewrite app_nil_r. auto.
  - cbn [fold_left flat_map]. unfold visit_dir at 2.
    destruct (fold_visit_tex_file default_engine mode dirpath
                (filter (fun f => endswith f ".tex") files) tasks w)
      as (w1 & E & L & F).
    rewrite E.
    destruct (IH (tasks ++ flat_map
                             (task_for str_lower path_join abspath (file w)
               default_engine mode dirpath)
                             (filter (fun f => endswith f ".tex") files)) w1)
      as (w2 & E2 & L2 & F2).
    exists w2. rewrite E2, F, <- app_assoc. repeat split; congruence.
Qed.

(** The tasks of a run are a function of the listing, of what the files
    hold and of the two parameters; the run leaves the listing and the
    files as they were. *)
Lemma generate_compile_tasks_tasks (w : World) (root_dir default_engine : string)
  (mode : bool) :
  exists w',
    generate_compile_tasks str_lower path_join abspath w root_dir default_engine mode
    = (flat_map (tasks_in str_lower path_join abspath (file w) default_engine mode)
         (walk_entries path_join w root_dir), w') /\
    listing w' = listing w /\ file w' = file w.
Proof.
  unfold generate_compile_tasks.
  destruct (fold_visit_dir default_engine mode (walk_entries path_join w root_dir) [] w)
    as (w' & E & L & F).
  exists w'. unfold walk_entries in E. rewrite E. auto.
Qed.

(** What a run writes: the records of the files it cannot read. *)
Lemma visit_tex_file_log (default_engine : string) (mode : bool) (dirpath : string)
  (tasks : list Task) (w : World) (item : string) :
  logged (snd (visit_tex_file str_lower path_join abspath default_engine mode dirpath
                 (tasks, w) item))
  = logged w ++ read_error path_join abspath (file w) dirpath item /\
  file (snd (visit_tex_file str_lower path_join abspath default_engine mode dirpath
               (tasks, w) item))
  = file w.
Proof.
  unfold visit_tex_file, read_error, source_path.
  set (path := normalize (abspath (path_join dirpath item))).
  destruct (file w path) as [text|e|good e] eqn:F.
  - rewrite (is_main_tex_file_readable _ _ _ _ _ F).
    match goal with |- context [if ?b then _ else _] => destruct b end.
    + rewrite (get_tex_engine_readable _ _ _ _ F).
      destruct (Spec.shebang (strip (fst (readline text))));
        [|destruct (ctex_scan (readlines text))];
        cbn [snd]; rewrite app_nil_r; auto.
    + cbn [snd]. rewrite app_nil_r. auto.
  - unfold is_main_tex_file. rewrite F. cbn [snd logged file logging_error]. auto.
  - unfold is_main_tex_file. rewrite F. cbn [snd logged file logging_error]. auto.
Qed.

Lemma fold_visit_tex_file_log (default_engine : string) (mode : bool) (dirpath : string) :
  forall (items : list string) (tasks : list Task) (w : World),
    logged (snd (fold_left
                   (visit_tex_file str_lower path_join abspath default_engine mode dirpath)
                   items (tasks, w)))
    = logged w ++ flat_map (read_error path_join abspath (file w) dirpath) items /\
    file (snd (fold_left
                 (visit_tex_file str_lower path_join abspath default_engine mode dirpath)
                 items (tasks, w)))
    = file w.
Proof.
  induction items as [|item items IH]; intros tasks w.
  - cbn. rewrite app_nil_r. auto.
  - cbn [fold_left flat_map].
    destruct (visit_tex_file_log default_engine mode dirpath tasks w item) as (L & F).
    destruct (visit_tex_file str_lower path_join abspath default_engine mode dirpath
                (tasks, w) item)
      as [tasks1 w1].
    cbn [snd] in L, F. destruct (IH tasks1 w1) as (L1 & F1).
    rewrite L1, F1, L, F, app_assoc. auto.
Qed.

Lemma fold_visit_dir_log (default_engine : string) (mode : bool) :
  forall (entries : list (string * list string)) (tasks : list Task) (w : World),
    logged (snd (fold_left (visit_dir str_lower path_join abspath default_engine mode)
                   entries (tasks, w)))
    = logged w ++ flat_map (read_errors_in path_join abspath (file w)) entries.
Proof.
  induction entries as [|[dirpath files] entries IH]; intros tasks w.
  - cbn. rewrite app_nil_r. reflexivity.
  - cbn [fold_left flat_map]. unfold visit_dir at 2.
    destruct (fold_visit_tex_file_log default_engine mode dirpath
                (filter (fun f => endswith f ".tex") files) tasks w) as (L & F).
    destruct (fold_left
                (visit_tex_file str_lower path_join abspath default_engine mode dirpath)
                (filter (fun f => endswith f ".tex") files) (tasks, w)) as [tasks1 w1].
    cbn [snd] in L, F. rewrite IH, L, F, app_assoc. reflexivity.
Qed.

(** C8, as the code has it.  A second run over the world the first run
    leaves gives the same tasks in the same order.  The first run leaves
    the listing and the files as they were; what it writes is the log, to
    which it adds one error record for each file of the walk that ends in
    .tex and cannot be read.  The main-file decision and the detected
    engine of a file are the same for any two paths, in any two worlds,
    under which reading gives the same. *)
Theorem generate_compile_tasks_repeatable
  (w : World) (root_dir default_engine : string) (mode : bool) :
  fst (generate_compile_tasks str_lower path_join abspath
         (snd (generate_compile_tasks str_lower path_join abspath w root_dir
                 default_engine mode))
         root_dir default_engine mode)
  = fst (generate_compile_tasks str_lower path_join abspath w root_dir default_engine
           mode) /\
  listing (snd (generate_compile_tasks str_lower path_join abspath w root_dir
                  default_engine mode))
  = listing w /\
  file (snd (generate_compile_tasks str_lower path_join abspath w root_dir
               default_engine mode))
  = file w /\
  logged (snd (generate_compile_tasks str_lower path_join abspath w root_dir
                 default_engine mode))
  = logged w
      ++ flat_map (read_errors_in path_join abspath (file w))
           (walk_entries path_join w root_dir) /\
  (forall w1 w2 path1 path2,
      file w1 path1 = file w2 path2 ->
      fst (is_main_tex_file str_lower w1 path1 mode)
      = fst (is_main_tex_file str_lower w2 path2 mode) /\
      fst (get_tex_engine w1 path1 default_engine)
      = fst (get_tex_engine w2 path2 default_engine)).
Proof.
  split; [|split; [|split; [|split]]].
  - destruct (generate_compile_tasks_tasks w root_dir default_engine mode)
      as (w1 & E1 & L1 & F1).
    rewrite E1. cbn [fst snd].
    destruct (generate_compile_tasks_tasks w1 root_dir default_engine mode)
      as (w2 & E2 & L2 & F2).
    rewrite E2. cbn [fst]. unfold walk_entries. rewrite L1, F1. reflexivity.
  - destruct (generate_compile_tasks_tasks w root_dir default_engine mode)
      as (w1 & E1 & L1 & F1).
    rewrite E1. exact L1.
  - destruct (generate_compile_tasks_tasks w root_dir default_engine mode)
      as (w1 & E1 & L1 & F1).
    rewrite E1. exact F1.
  - unfold generate_compile_tasks. apply fold_visit_dir_log.
  - intros wa wb patha pathb Same. split.
    + destruct (is_main_tex_file_classify str_lower wa patha mode) as (-> & _).
      destruct (is_main_tex_file_classify str_lower wb pathb mode) as (-> & _).
      rewrite Same. reflexivity.
    + destruct (get_tex_engine_detect wa patha default_engine) as (-> & _).
      destruct (get_tex_engine_detect wb pathb default_engine) as (-> & _).
      rewrite Same. reflexivity.
Qed.

(** Every task of a run comes from a file that passed the main-file test,
    and carries the alias of the engine detected for that file. *)
Lemma generate_compile_tasks_task (w : World) (root_dir default_engine : string)
  (mode : bool) (t : Task) :
  In t (fst (generate_compile_tasks str_lower path_join abspath w root_dir default_engine
               mode)) ->
  Spec.classify str_lower (file w (tex_file t)) mode = true /\
  engine t = Spec.alias (fst (Spec.detect (file w (tex_file t)) default_engine)).
Proof.
  destruct (generate_compile_tasks_tasks w root_dir default_engine mode) as (w' & E & _).
  rewrite E. cbn [fst]. intros I.
  apply in_flat_map in I. destruct I as ([dirpath files] & _ & I).
  unfold tasks_in in I. cbn [fst snd] in I.
  apply in_flat_map in I. destruct I as (item & _ & I).
  unfold task_for in I.
  destruct (Spec.classify str_lower (file w (source_path path_join abspath dirpath item))
              mode) eqn:C;
    [|contradiction].
  destruct I as [<-|[]]. cbn [tex_file engine]. auto.
Qed.

(** Every file with the source extension that the walk meets and that
    passes the main-file test has its task. *)
Lemma generate_compile_tasks_complete (w : World) (root_dir default_engine : string)
  (mode : bool) (dirpath item : string) (files : list string) :
  In (dirpath, files) (walk_entries path_join w root_dir) ->
  In item files ->
  endswith item ".tex" = true ->
  fst (is_main_tex_file str_lower w (source_path path_join abspath dirpath item) mode)
  = true ->
  In {| tex_file := source_path path_join abspath dirpath item;
        subdir := normalize dirpath;
        engine :=
          Spec.alias
            (fst (fst (get_tex_engine w (source_path path_join abspath dirpath item)
                         default_engine)));
        append_info :=
          snd (fst (get_tex_engine w (source_path path_join abspath dirpath item)
                      default_engine)) |}
     (fst (generate_compile_tasks str_lower path_join abspath w root_dir default_engine
             mode)).
Proof.
  intros IE II X M.
  destruct (generate_compile_tasks_tasks w root_dir default_engine mode) as (w' & E & _).
  rewrite E. cbn [fst].
  apply in_flat_map. exists (dirpath, files). split; [exact IE|].
  unfold tasks_in. cbn [fst snd]. apply in_flat_map. exists item. split.
  - apply filter_In. auto.
  - unfold task_for.
    destruct (is_main_tex_file_classify str_lower w
                (source_path path_join abspath dirpath item) mode) as (C & _).
    destruct (get_tex_engine_detect w (source_path path_join abspath dirpath item)
                default_engine) as (D & _).
    rewrite <- C, M, <- D. left. reflexivity.
Qed.

Lemma alias_not_pdflatex (engine : string) : Spec.alias engine <> "pdflatex".
Proof.
  unfold Spec.alias. destruct (String.eqb engine "pdflatex") eqn:E.
  - discriminate.
  - apply String.eqb_neq. exact E.
Qed.

Lemma alias_pdflatex_flag (t : Task) :
  engine t = "pdf" -> nth_error (latex_full_command path_join abspath t) 5 = Some "-pdf".
Proof.
  intros E. unfold latex_full_command. cbn [nth_error]. rewrite E. reflexivity.
Qed.

(** C7.  Every file that the walk meets, whose name ends in .tex and that
    passes the main-file test, has a task; and every task of a run belongs
    to a file that passed the test.  When the engine detected for the file
    is pdflatex, by a first-line directive or as the default of the caller,
    the engine of the task is the alias pdf, and the engine flag of the
    command line of the task is -pdf.  No task has the engine pdflatex. *)
Theorem pdflatex_has_alias_pdf
  (w : World) (root_dir default_engine : string) (mode : bool) :
  (forall dirpath files item,
      In (dirpath, files) (walk_entries path_join w root_dir) ->
      In item files ->
      endswith item ".tex" = true ->
      fst (is_main_tex_file str_lower w (source_path path_join abspath dirpath item) mode)
      = true ->
      exists t,
        In t (fst (generate_compile_tasks str_lower path_join abspath w root_dir
               default_engine mode)) /\
        tex_file t = source_path path_join abspath dirpath item /\
        subdir t = normalize dirpath /\
        engine t <> "pdflatex" /\
        (fst (fst (get_tex_engine w (source_path path_join abspath dirpath item)
                     default_engine)) = "pdflatex" ->
         engine t = "pdf" /\
         nth_error (latex_full_command path_join abspath t) 5 = Some "-pdf")) /\
  (forall t,
      In t (fst (generate_compile_tasks str_lower path_join abspath w root_dir
                   default_engine mode)) ->
      fst (is_main_tex_file str_lower w (tex_file t) mode) = true /\
      engine t <> "pdflatex" /\
      (fst (fst (get_tex_engine w (tex_file t) default_engine)) = "pdflatex" ->
       engine t = "pdf" /\
       nth_error (latex_full_command path_join abspath t) 5 = Some "-pdf") /\
      (forall text,
          file w (tex_file t) = Readable text ->
          Spec.shebang (strip (fst (readline text))) = Some "pdflatex" ->
          engine t = "pdf") /\
      (forall text,
          file w (tex_file t) = Readable text ->
          Spec.shebang (strip (fst (readline text))) = None ->
          ~ Spec.ctex_before_document (readlines text) ->
          default_engine = "pdflatex" ->
          engine t = "pdf")).
Proof.
  split.
  - intros dirpath files item IE II X M.
    eexists. split; [apply (generate_compile_tasks_complete w root_dir default_engine
                              mode dirpath item files IE II X M)|].
    split; [reflexivity|]. split; [reflexivity|].
    split; [apply alias_not_pdflatex|].
    intros G.
    assert (E : Spec.alias
                  (fst (fst (get_tex_engine w
                               (source_path path_join abspath dirpath item)
                               default_engine))) = "pdf").
    { rewrite G. reflexivity. }
    split; [exact E|]. apply alias_pdflatex_flag. exact E.
  - intros t I. destruct (generate_compile_tasks_task _ _ _ _ _ I) as (C & A).
    destruct (is_main_tex_file_classify str_lower w (tex_file t) mode) as (CM & _).
    destruct (get_tex_engine_detect w (tex_file t) default_engine) as (D & _).
    rewrite <- D in A.
    split; [congruence|]. split; [rewrite A; apply alias_not_pdflatex|].
    assert (P : fst (fst (get_tex_engine w (tex_file t) default_engine)) = "pdflatex" ->
                engine t = "pdf").
    { intros G. rewrite A, G. reflexivity. }
    split; [|split].
    + intros G. split; [exact (P G)|]. apply alias_pdflatex_flag. exact (P G).
    + intros text F S. apply P.
      rewrite (get_tex_engine_readable _ _ _ _ F), S. reflexivity.
    + intros text F S N ->. apply P.
      destruct (get_tex_engine_falls_through w (tex_file t) "pdflatex" text F S)
        as (_ & G).
      rewrite (G N). reflexivity.
Qed.

End DiscoveryProperties.

Lemma pdflatex_has_alias_pdf_witness :
  exists t,
    In t (fst (generate_compile_tasks ascii_lower Sample.posix_join Sample.same_path
                 Sample.world "/r" "xelatex" false)) /\
    tex_file t = "/r/a/main.tex" /\
    engine t = "pdf" /\
    nth_error (latex_full_command Sample.posix_join Sample.same_path t) 5 = Some "-pdf".
Proof.
  destruct (proj1 (pdflatex_has_alias_pdf ascii_lower Sample.posix_join Sample.same_path
                     Sample.world "/r" "xelatex" false)
              "/r/a" ["main.tex"; "odd.tex"; "notes.txt"] "main.tex")
    as (t & I & T & _ & _ & P).
  - right. left. reflexivity.
  - left. reflexivity.
  - reflexivity.
  - reflexivity.
  - exists t. split; [exact I|]. split; [exact T|]. apply P. reflexivity.
Defined.

(** C8 as it was stated fails here: classification writes.  In a
    directory with a file that cannot be opened, a run over an empty log
    leaves a log with the record of the error. *)
Lemma discovery_writes_the_log :
  logged MoreSamples.locked_world = [] /\
  logged (snd (generate_compile_tasks ascii_lower Sample.posix_join Sample.same_path
                 MoreSamples.locked_world "/r" "xelatex" false))
  = [(ERROR, [FText "Error reading "; FVal (VStr "/r/locked.tex"); FText ": ";
              FExc (OSError "Permission denied")])] /\
  logged (snd (is_main_tex_file ascii_lower MoreSamples.locked_world "/r/locked.tex" false))
  <> logged MoreSamples.locked_world.
Proof.
  split; [reflexivity|]. split; [reflexivity|]. discriminate.
Qed.

(** ** Reporter: the JSON log *)

Lemma append_assoc (a b c : string) : ((a ++ b) ++ c = a ++ (b ++ c))%string.
Proof.
  induction a as [|x a IH]; simpl; [reflexivity | rewrite IH; reflexivity].
Qed.

Lemma append_empty_r (a : string) : (a ++ "" = a)%string.
Proof.
  induction a as [|x a IH]; simpl; [reflexivity | rewrite IH; reflexivity].
Qed.

Section ReporterProperties.

Variable float_repr : float -> string.

(** The writes of the loop leave the log of the reporter as it is,
    however they end. *)
Lemma for_each_write_log (path : string) :
  forall (results : list PyDict) (s : ReportState),
    report_log
      (snd (for_each results
              (fun task_result =>
                 write path (json_dump float_repr task_result) ;;;
                 write path (String newline "")) s))
    = report_log s.
Proof.
  induction results as [|r rs IH]; intros s; [reflexivity|].
  cbn [for_each]. unfold and_then at 1 2. unfold write at 1.
  destruct (rejected (disk s) path (json_dump float_repr r)) as [[e part]|];
    [reflexivity|].
  unfold write at 1. cbn [disk set_contents rejected].
  destruct (rejected (disk s) path (String newline "")) as [[e part]|]; [reflexivity|].
  rewrite IH. reflexivity.
Qed.

Lemma for_each_write (path : string) :
  forall (results : list PyDict) (s : ReportState) (written : string),
    takes_all (disk s) path ->
    contents (disk s) path = Some written ->
    exists s',
      for_each results
        (fun task_result =>
           write path (json_dump float_repr task_result) ;;;
           write path (String newline "")) s = (Ok tt, s') /\
      contents (disk s') path = Some (written ++ log_text float_repr results)%string /\
      (forall p, p <> path -> contents (disk s') p = contents (disk s) p) /\
      report_log s' = report_log s.
Proof.
  induction results as [|r rs IH]; intros s written T W.
  - exists s. simpl. rewrite append_empty_r. auto.
  - unfold takes_all in T.
    cbn [for_each log_text]. unfold and_then at 1 2, write at 1 2.
    rewrite T, W. cbn [disk contents set_contents rejected].
    rewrite T, String.eqb_refl.
    match goal with
    | |- context [for_each rs ?body ?st] =>
        destruct (IH st ((written ++ json_dump float_repr r) ++ String newline "")%string)
          as (s' & E & C & O & L)
    end.
    + exact T.
    + cbn [disk contents set_contents]. rewrite String.eqb_refl. reflexivity.
    + exists s'. split; [exact E|]. split; [|split].
      * rewrite C, !append_assoc. reflexivity.
      * intros p N. rewrite (O p N). cbn [disk contents set_contents].
        apply String.eqb_neq in N. rewrite !N. reflexivity.
      * exact L.
Qed.


(** When the log cannot be opened the error is logged, nothing is written
    and nothing is raised. *)
Lemma output_to_json_logfile_refused (results : list PyDict) (s : ReportState) (e : Exc) :
  refused (disk s) log_file_name = Some e ->
  output_to_json_logfile float_repr results s =
  (Ok tt, {| disk := disk s;
             report_log :=
               report_log s
                 ++ [(ERROR, [FText "Error writing to log file: "; FExc e])] |}).
Proof.
  intros R. unfold output_to_json_logfile, try_except, and_then at 1 2, open_w.
  rewrite R. reflexivity.
Qed.

(** When the log can be opened and takes what is written, it holds the
    results afterwards and the success is logged. *)
Lemma output_to_json_logfile_written (results : list PyDict) (s : ReportState) :
  refused (disk s) "auto-latexmk.log" = None ->
  takes_all (disk s) "auto-latexmk.log" ->
  exists s',
    output_to_json_logfile float_repr results s = (Ok tt, s') /\
    contents (disk s') "auto-latexmk.log" = Some (log_text float_repr results) /\
    (forall p, p <> "auto-latexmk.log" -> contents (disk s') p = contents (disk s) p) /\
    report_log s'
    = report_log s
        ++ [(DEBUG,
             [FText "Compilation results successfully written to auto-latexmk.log"])].
Proof.
  intros R T.
  unfold output_to_json_logfile, try_except, and_then at 1 2, open_w, log_file_name.
  rewrite R.
  match goal with
  | |- context [for_each results ?body ?st] =>
      destruct (for_each_write "auto-latexmk.log" results st EmptyString)
        as (s1 & E & C & O & L)
  end.
  { exact T. }
  { cbn [disk contents set_contents]. rewrite String.eqb_refl. reflexivity. }
  eexists. split; [rewrite E; reflexivity|].
  cbn [disk report_log report_logging modify]. split; [exact C|]. split.
  - intros p N. rewrite (O p N). cbn [disk contents set_contents].
    apply String.eqb_neq in N. rewrite N. reflexivity.
  - rewrite L. reflexivity.
Qed.

(** Writing the log raises nothing, and logs one record: the success, or
    the error that kept the log from being opened or written. *)
Lemma output_to_json_logfile_outcome (results : list PyDict) (s : ReportState) :
  exists s',
    output_to_json_logfile float_repr results s = (Ok tt, s') /\
    (report_log s'
     = report_log s
         ++ [(DEBUG,
              [FText "Compilation results successfully written to auto-latexmk.log"])]
     \/ exists e,
         report_log s'
         = report_log s ++ [(ERROR, [FText "Error writing to log file: "; FExc e])]).
Proof.
  destruct (refused (disk s) log_file_name) as [e|] eqn:R.
  - rewrite (output_to_json_logfile_refused results s e R).
    eexists. split; [reflexivity|]. right. exists e. reflexivity.
  - unfold output_to_json_logfile, try_except, and_then at 1 2, open_w.
    rewrite R.
    match goal with
    | |- context [for_each results ?body ?st] =>
        pose proof (for_each_write_log log_file_name results st) as L;
        destruct (for_each results body st) as [[u|e] s1]
    end; cbn [snd report_log] in L.
    + eexists. split; [reflexivity|]. left. cbn. rewrite L. reflexivity.
    + eexists. split; [reflexivity|]. right. exists e. cbn. rewrite L. reflexivity.
Qed.


End ReporterProperties.



(* ================================================================== *)
(** * Further properties *)

(** ** Classifier *)

Lemma readline_complete_line (l rest : string) :
  complete_line l = true -> readline (l ++ rest) = (l, rest).
Proof.
  induction l as [|c l IH]; [discriminate|].
  cbn [complete_line append readline]. destruct (is_newline c).
  - intros E. apply String.eqb_eq in E. subst l. reflexivity.
  - intros E. rewrite (IH E). reflexivity.
Qed.

Lemma readlines_complete_line (l rest : string) :
  complete_line l = true -> readlines (l ++ rest) = l :: readlines rest.
Proof.
  intros C. rewrite readlines_readline, (readline_complete_line l rest C).
  destruct l; [discriminate | reflexivity].
Qed.

Lemma first_three_complete_lines (l1 l2 l3 rest : string) :
  complete_line l1 = true -> complete_line l2 = true -> complete_line l3 = true ->
  Spec.first_three_lines (l1 ++ l2 ++ l3 ++ rest) = [l1; l2; l3].
Proof.
  intros C1 C2 C3. unfold Spec.first_three_lines.
  rewrite (readlines_complete_line l1 _ C1), (readlines_complete_line l2 _ C2),
    (readlines_complete_line l3 _ C3).
  reflexivity.
Qed.

Section MoreClassifierProperties.

Variable str_lower : string -> string.

(** X1.  Only the first three lines are searched for directives: two files
    that start with the same three lines and agree on holding the
    document-root marker get the same decision, in either mode, whatever
    follows the three lines. *)
Theorem directives_beyond_third_line_ignored
  (w w' : World) (path path' l1 l2 l3 rest rest' : string) (mode : bool) :
  complete_line l1 = true -> complete_line l2 = true -> complete_line l3 = true ->
  file w path = Readable (l1 ++ l2 ++ l3 ++ rest) ->
  file w' path' = Readable (l1 ++ l2 ++ l3 ++ rest') ->
  Spec.has_document_root (l1 ++ l2 ++ l3 ++ rest)
  = Spec.has_document_root (l1 ++ l2 ++ l3 ++ rest') ->
  fst (is_main_tex_file str_lower w path mode)
  = fst (is_main_tex_file str_lower w' path' mode).
Proof.
  intros C1 C2 C3 F F' D.
  rewrite (is_main_tex_file_readable _ _ _ _ _ F),
    (is_main_tex_file_readable _ _ _ _ _ F').
  cbn [fst]. rewrite D, !(first_three_complete_lines _ _ _ _ C1 C2 C3). reflexivity.
Qed.

(** Python's [lower] does not see the case of the ASCII letters of its
    argument. *)
Hypothesis str_lower_ascii : forall s, str_lower (ascii_lower s) = str_lower s.

Lemma directive_lower (keywords : list string) (line : string) :
  Spec.directive str_lower keywords (ascii_lower line) = Spec.directive str_lower keywords line.
Proof.
  unfold Spec.directive. rewrite <- lower_strip, str_lower_ascii. reflexivity.
Qed.

Lemma existsb_directive_lower (keywords : list string) (lines : list string) :
  existsb (Spec.directive str_lower keywords) (map ascii_lower lines)
  = existsb (Spec.directive str_lower keywords) lines.
Proof.
  induction lines as [|l lines IH]; [reflexivity|].
  cbn [map existsb]. rewrite directive_lower, IH. reflexivity.
Qed.

(** X20.  Directives are matched without regard to the case of ASCII
    letters: two files whose first three lines are the same up to case,
    and that agree on holding the document-root marker, get the same
    decision in either mode. *)
Theorem directives_ignore_case
  (w w' : World) (path path' text text' : string) (mode : bool) :
  file w path = Readable text ->
  file w' path' = Readable text' ->
  map ascii_lower (Spec.first_three_lines text) = map ascii_lower (Spec.first_three_lines text') ->
  Spec.has_document_root text = Spec.has_document_root text' ->
  fst (is_main_tex_file str_lower w path mode)
  = fst (is_main_tex_file str_lower w' path' mode).
Proof.
  intros F F' Same D.
  rewrite (is_main_tex_file_readable _ _ _ _ _ F),
    (is_main_tex_file_readable _ _ _ _ _ F').
  cbn [fst]. rewrite D.
  rewrite <- (existsb_directive_lower ["include"] (Spec.first_three_lines text)),
    <- (existsb_directive_lower ["exclude"; "skip"] (Spec.first_three_lines text)),
    Same, !existsb_directive_lower.
  reflexivity.
Qed.

End MoreClassifierProperties.

Lemma directives_beyond_third_line_ignored_witness :
  fst (is_main_tex_file ascii_lower
         (MoreSamples.reading
            (("% a comment" ++ Sample.nl) ++ Sample.nl
               ++ ("\documentclass{article}" ++ Sample.nl) ++ MoreSamples.late_exclude))
         "a.tex" false)
  = fst (is_main_tex_file ascii_lower
           (MoreSamples.reading
              (("% a comment" ++ Sample.nl) ++ Sample.nl
                 ++ ("\documentclass{article}" ++ Sample.nl) ++ ""))
           "b.tex" false).
Proof.
  apply (directives_beyond_third_line_ignored ascii_lower
           (MoreSamples.reading
              (("% a comment" ++ Sample.nl) ++ Sample.nl
                 ++ ("\documentclass{article}" ++ Sample.nl) ++ MoreSamples.late_exclude))
           (MoreSamples.reading
              (("% a comment" ++ Sample.nl) ++ Sample.nl
                 ++ ("\documentclass{article}" ++ Sample.nl) ++ ""))
           "a.tex" "b.tex"
           ("% a comment" ++ Sample.nl) Sample.nl ("\documentclass{article}" ++ Sample.nl)
           MoreSamples.late_exclude "" false eq_refl eq_refl eq_refl eq_refl eq_refl
           eq_refl).
Defined.

Lemma directives_ignore_case_witness :
  fst (is_main_tex_file ascii_lower (MoreSamples.reading MoreSamples.shouting) "a.tex" false)
  = fst (is_main_tex_file ascii_lower (MoreSamples.reading MoreSamples.whispering) "b.tex"
           false).
Proof.
  apply (directives_ignore_case ascii_lower ascii_lower_idempotent
           (MoreSamples.reading MoreSamples.shouting)
           (MoreSamples.reading MoreSamples.whispering) "a.tex" "b.tex"
           MoreSamples.shouting MoreSamples.whispering false
           eq_refl eq_refl eq_refl eq_refl).
Defined.

Lemma readline_line_in_readlines (text : string) :
  fst (readline text) <> EmptyString -> In (fst (readline text)) (readlines text).
Proof.
  intros N. rewrite readlines_readline. destruct (readline text) as [l r].
  cbn [fst] in *. destruct l; [contradiction | left; reflexivity].
Qed.

Lemma ctex_scan_line (lines : list string) (line : string) :
  ctex_scan lines = Some line ->
  exists raw, In raw lines /\ line = strip raw /\ contains "ctex" line = true.
Proof.
  intros E. destruct (ctex_scan_found _ _ E) as (i & raw & (N & C & _) & L).
  exists raw. subst line. repeat split; auto.
  apply nth_error_In in N. exact N.
Qed.

(** What the lines of a file give explains itself: a note is one of the
    lines, stripped, and either starts with the shebang prefix and names
    the engine, or holds the token while the engine is xelatex. *)
Lemma detect_in_explains (first_raw : string) (lines : list string)
  (default_engine : string) :
  In first_raw lines ->
  match Spec.detect_in (strip first_raw) lines default_engine with
  | (eng, None) => eng = default_engine
  | (eng, Some note) =>
      exists raw,
        In raw lines /\ note = strip raw /\ strip note = note /\
        ((startswith note "% !TEX" = true /\ In eng Spec.supported_engines /\
          contains eng note = true) \/
         (eng = "xelatex" /\ contains "ctex" note = true))
  end.
Proof.
  intros I. unfold Spec.detect_in.
  destruct (Spec.shebang (strip first_raw)) as [eng|] eqn:S.
  - destruct (shebang_some _ _ S) as (P & IE & C).
    exists first_raw. split; [exact I|]. split; [reflexivity|].
    split; [apply strip_idempotent|]. left. auto.
  - destruct (ctex_scan lines) as [line|] eqn:E; [|reflexivity].
    destruct (ctex_scan_line _ _ E) as (raw & IR & L & C).
    exists raw. split; [exact IR|]. split; [exact L|].
    split; [subst line; apply strip_idempotent|]. right. auto.
Qed.

(** X2.  The note that comes with a detected engine is a line that was
    read from the file, stripped of the white space around it, and shows
    why the engine was chosen: it starts with the shebang prefix and names
    the engine, or the engine is xelatex and the line holds the token.  The
    file was read in full, or up to a point behind that line.  Without a
    note the engine is the default. *)
Theorem get_tex_engine_note_explains (w : World) (path default_engine : string) :
  match fst (get_tex_engine w path default_engine) with
  | (eng, None) => eng = default_engine
  | (eng, Some note) =>
      exists text raw,
        (file w path = Readable text \/ exists e, file w path = Broken text e) /\
        In raw (readlines text) /\
        note = strip raw /\ strip note = note /\
        ((startswith note "% !TEX" = true /\ In eng Spec.supported_engines /\
          contains eng note = true) \/
         (eng = "xelatex" /\ contains "ctex" note = true))
  end.
Proof.
  destruct (get_tex_engine_detect w path default_engine) as (-> & _).
  destruct (file w path) as [text|e|good e] eqn:F; cbn [Spec.detect].
  - destruct (String.eqb_spec (fst (readline text)) EmptyString) as [Z|N].
    + rewrite Z. unfold Spec.detect_in. cbn [strip lstrip rstrip].
      change (Spec.shebang (strip "")) with (@None string).
      rewrite readlines_readline. destruct (readline text) as [l r].
      cbn [fst] in Z. subst l. reflexivity.
    + pose proof (detect_in_explains (fst (readline text)) (readlines text)
                    default_engine (readline_line_in_readlines text N)) as X.
      destruct (Spec.detect_in (strip (fst (readline text))) (readlines text)
                  default_engine) as [eng [note|]]; [|exact X].
      destruct X as (raw & X). exists text, raw. split; [left; reflexivity | exact X].
  - reflexivity.
  - destruct (lines_before_error good) as [|line rest] eqn:L; [reflexivity|].
    assert (Sub : forall raw, In raw (line :: rest) -> In raw (readlines good)).
    { intros raw I. rewrite <- L in I. unfold lines_before_error in I.
      apply filter_In in I. apply I. }
    pose proof (detect_in_explains line (line :: rest) default_engine
                  (or_introl eq_refl)) as X.
    destruct (Spec.detect_in (strip line) (line :: rest) default_engine)
      as [eng [note|]]; [|exact X].
    destruct X as (raw & I & X). exists good, raw.
    split; [right; exists e; reflexivity|]. split; [apply Sub; exact I | exact X].
Qed.

Lemma get_tex_engine_note_explains_witness :
  get_tex_engine MoreSamples.reading_late_junk "a.tex" "xelatex"
  = (("lualatex", Some "% !TEX program = lualatex"), MoreSamples.reading_late_junk) /\
  exists text raw,
    (file MoreSamples.reading_late_junk "a.tex" = Readable text \/
     exists e, file MoreSamples.reading_late_junk "a.tex" = Broken text e) /\
    In raw (readlines text) /\
    "% !TEX program = lualatex" = strip raw.
Proof.
  assert (E : get_tex_engine MoreSamples.reading_late_junk "a.tex" "xelatex"
              = (("lualatex", Some "% !TEX program = lualatex"),
                 MoreSamples.reading_late_junk)).
  { vm_compute. reflexivity. }
  split; [exact E|].
  pose proof (get_tex_engine_note_explains MoreSamples.reading_late_junk "a.tex"
                "xelatex") as X.
  rewrite E in X. cbn [fst] in X. destruct X as (text & raw & F & I & N & _).
  exists text, raw. auto.
Defined.

(** X3.  When the first line is a shebang directive that names several
    engines, xelatex wins over pdflatex and pdflatex over lualatex, whatever
    else the file holds and whatever the default is; the note is the first
    line, stripped of the white space around it. *)
Theorem shebang_engine_precedence (w : World) (path default_engine text : string) :
  file w path = Readable text ->
  startswith (strip (fst (readline text))) "% !TEX" = true ->
  let first_line := strip (fst (readline text)) in
  (contains "xelatex" first_line = true ->
   fst (get_tex_engine w path default_engine) = ("xelatex", Some first_line)) /\
  (contains "xelatex" first_line = false -> contains "pdflatex" first_line = true ->
   fst (get_tex_engine w path default_engine) = ("pdflatex", Some first_line)) /\
  (contains "xelatex" first_line = false -> contains "pdflatex" first_line = false ->
   contains "lualatex" first_line = true ->
   fst (get_tex_engine w path default_engine) = ("lualatex", Some first_line)).
Proof.
  intros F P first_line. subst first_line. rewrite (get_tex_engine_readable _ _ _ _ F).
  unfold Spec.shebang, Spec.supported_engines. rewrite P. cbn [find fst].
  split; [|split].
  - intros X. rewrite X. reflexivity.
  - intros X Q. rewrite X, Q. reflexivity.
  - intros X Q L. rewrite X, Q, L. reflexivity.
Qed.

Lemma shebang_engine_precedence_witness :
  fst (get_tex_engine (MoreSamples.reading MoreSamples.two_engines) "a.tex" "xelatex")
  = ("pdflatex", Some "% !TEX program = lualatex, not pdflatex").
Proof.
  apply (shebang_engine_precedence (MoreSamples.reading MoreSamples.two_engines)
           "a.tex" "xelatex" MoreSamples.two_engines eq_refl eq_refl);
    reflexivity.
Defined.

(** ** Task discovery *)

Lemma DirTree_nested_ind (P : DirTree -> Prop) :
  (forall subdirs files,
      Forall (fun entry => P (snd entry)) subdirs -> P (Dir subdirs files)) ->
  forall t, P t.
Proof.
  intros H. fix IH 1. intros [subdirs files]. apply H.
  revert subdirs. fix IHl 1. intros [|[d sub] l].
  - constructor.
  - constructor; [apply IH | apply IHl].
Qed.

Section MoreDiscoveryProperties.

Variable str_lower : string -> string.
Variable path_join : string -> string -> string.
Variable abspath : string -> string.

(** X4.  The tasks of a run are the files that the walk meets, whose names
    end in .tex and that pass the main-file test, each with its normalized
    path, the normalized path of its directory, the alias of the engine
    detected for it and the note of the detection. *)
Theorem tasks_are_the_main_tex_files
  (w : World) (root_dir default_engine : string) (mode : bool) (t : Task) :
  In t (fst (generate_compile_tasks str_lower path_join abspath w root_dir
               default_engine mode)) <->
  exists dirpath files item,
    In (dirpath, files) (walk_entries path_join w root_dir) /\
    In item files /\
    endswith item ".tex" = true /\
    fst (is_main_tex_file str_lower w (source_path path_join abspath dirpath item) mode)
    = true /\
    t = {| tex_file := source_path path_join abspath dirpath item;
           subdir := normalize dirpath;
           engine :=
             Spec.alias
               (fst (fst (get_tex_engine w (source_path path_join abspath dirpath item)
                            default_engine)));
           append_info :=
             snd (fst (get_tex_engine w (source_path path_join abspath dirpath item)
                         default_engine)) |}.
Proof.
  split.
  - destruct (generate_compile_tasks_tasks str_lower path_join abspath w root_dir
               default_engine mode)
      as (w' & E & _).
    rewrite E. cbn [fst]. intros I.
    apply in_flat_map in I. destruct I as ([dirpath files] & IE & I).
    unfold tasks_in in I. cbn [fst snd] in I.
    apply in_flat_map in I. destruct I as (item & IF & I).
    apply filter_In in IF. destruct IF as (II & X).
    unfold task_for in I.
    destruct (is_main_tex_file_classify str_lower w
                (source_path path_join abspath dirpath item) mode)
      as (C & _).
    destruct (get_tex_engine_detect w (source_path path_join abspath dirpath item)
                default_engine) as (D & _).
    rewrite <- C, <- D in I.
    destruct (fst (is_main_tex_file str_lower w
                     (source_path path_join abspath dirpath item) mode))
      eqn:M; [|contradiction].
    destruct I as [<-|[]]. exists dirpath, files, item. auto.
  - intros (dirpath & files & item & IE & II & X & M & ->).
    apply (generate_compile_tasks_complete str_lower path_join abspath w root_dir
             default_engine mode dirpath item files IE II X M).
Qed.

(** X5.  A file that cannot be read, or that holds no document-root
    marker, never becomes a task: the source of every task was read in full
    and holds the marker. *)
Theorem every_task_was_read
  (w : World) (root_dir default_engine : string) (mode : bool) (t : Task) :
  In t (fst (generate_compile_tasks str_lower path_join abspath w root_dir
               default_engine mode)) ->
  exists text,
    file w (tex_file t) = Readable text /\ contains "\documentclass" text = true.
Proof.
  intros I.
  destruct (generate_compile_tasks_task str_lower path_join abspath _ _ _ _ _ I) as (C & _).
  destruct (file w (tex_file t)) as [text|e|good e]; [|discriminate|discriminate].
  exists text. split; [reflexivity|].
  cbn [Spec.classify] in C. apply andb_true_iff in C. apply C.
Qed.

Lemma detect_in_closed (first_line : string) (lines : list string)
  (default_engine : string) :
  In (fst (Spec.detect_in first_line lines default_engine)) Spec.supported_engines \/
  fst (Spec.detect_in first_line lines default_engine) = default_engine.
Proof.
  unfold Spec.detect_in.
  destruct (Spec.shebang first_line) as [eng|] eqn:S.
  - left. apply (shebang_some _ _ S).
  - destruct (ctex_scan lines); [left; left; reflexivity | right; reflexivity].
Qed.

Lemma detect_engine_closed (r : FileRead) (default_engine : string) :
  In (fst (Spec.detect r default_engine)) Spec.supported_engines \/
  fst (Spec.detect r default_engine) = default_engine.
Proof.
  destruct r as [text|e|good e]; cbn [Spec.detect].
  - apply detect_in_closed.
  - right. reflexivity.
  - destruct (lines_before_error good); [right; reflexivity | apply detect_in_closed].
Qed.

(** X6.  When the default engine is one of the choices of the command
    line, the engine of every task is xelatex, pdf or lualatex, and the
    engine flag of its command line is one of -xelatex, -pdf and
    -lualatex. *)
Theorem task_engine_closed
  (w : World) (root_dir default_engine : string) (mode : bool) (t : Task) :
  In default_engine Cli.engine_choices ->
  In t (fst (generate_compile_tasks str_lower path_join abspath w root_dir
               default_engine mode)) ->
  In (engine t) ["xelatex"; "pdf"; "lualatex"] /\
  In (nth 5 (latex_full_command path_join abspath t) EmptyString)
     ["-xelatex"; "-pdf"; "-lualatex"].
Proof.
  intros Dflt I.
  destruct (generate_compile_tasks_task str_lower path_join abspath _ _ _ _ _ I) as (_ & A).
  assert (E : In (engine t) ["xelatex"; "pdf"; "lualatex"]).
  { rewrite A.
    destruct (detect_engine_closed (file w (tex_file t)) default_engine) as [S|S].
    - destruct S as [<-|[<-|[<-|[]]]]; cbn; auto.
    - rewrite S. destruct Dflt as [<-|[<-|[<-|[]]]]; cbn; auto. }
  split; [exact E|].
  unfold latex_full_command. cbn [nth].
  destruct E as [<-|[<-|[<-|[]]]]; cbn; auto.
Qed.

Lemma os_walk_prune (t : DirTree) :
  forall top,
    os_walk path_join not_in_skip_dirs top (prune t)
    = os_walk path_join not_in_skip_dirs top t.
Proof.
  induction t as [subdirs files IH] using DirTree_nested_ind. intros top.
  cbn [prune os_walk]. f_equal.
  induction subdirs as [|[d sub] l IHl]; [reflexivity|].
  inversion IH as [|entry l' Hsub Hl]; subst. cbn [snd] in Hsub.
  cbn -[not_in_skip_dirs]. destruct (not_in_skip_dirs d) eqn:K.
  - cbn -[not_in_skip_dirs]. rewrite K, Hsub. f_equal. apply IHl. exact Hl.
  - apply IHl. exact Hl.
Qed.

Lemma tasks_in_ext (files files' : string -> FileRead) (default_engine : string)
  (mode : bool) (entries : list (string * list string)) :
  (forall p, files p = files' p) ->
  flat_map (tasks_in str_lower path_join abspath files default_engine mode) entries
  = flat_map (tasks_in str_lower path_join abspath files' default_engine mode) entries.
Proof.
  intros Same. apply flat_map_ext. intros [dirpath items]. unfold tasks_in.
  apply flat_map_ext. intros item. unfold task_for. rewrite Same. reflexivity.
Qed.

(** X7.  What stands under a directory named .git or .aux, at any depth,
    has no influence on the tasks: two worlds with the same files, whose
    trees are the same once these directories are cut out, give the same
    tasks. *)
Theorem skipped_directories_do_not_matter
  (w w' : World) (root_dir default_engine : string) (mode : bool) :
  (forall p, file w p = file w' p) ->
  option_map prune (listing w root_dir) = option_map prune (listing w' root_dir) ->
  fst (generate_compile_tasks str_lower path_join abspath w root_dir default_engine
         mode)
  = fst (generate_compile_tasks str_lower path_join abspath w' root_dir default_engine
           mode).
Proof.
  intros Same Pruned.
  destruct (generate_compile_tasks_tasks str_lower path_join abspath w root_dir
              default_engine mode)
    as (w1 & -> & _).
  destruct (generate_compile_tasks_tasks str_lower path_join abspath w' root_dir
              default_engine mode)
    as (w2 & -> & _).
  cbn [fst]. rewrite (tasks_in_ext _ _ _ _ _ Same). f_equal.
  unfold walk_entries.
  destruct (listing w root_dir) as [t|]; destruct (listing w' root_dir) as [t'|];
    try discriminate; [|reflexivity].
  cbn [option_map] in Pruned. inversion Pruned as [P].
  rewrite <- (os_walk_prune t), <- (os_walk_prune t'), P. reflexivity.
Qed.

(** X8.  A run adds to the log one error record for each file of the walk
    whose name ends in .tex and that cannot be read, in the order of the
    walk, and nothing else; it removes nothing from the log. *)
Theorem discovery_logs_unreadable_files
  (w : World) (root_dir default_engine : string) (mode : bool) :
  logged (snd (generate_compile_tasks str_lower path_join abspath w root_dir
               default_engine mode))
  = logged w
      ++ flat_map (read_errors_in path_join abspath (file w))
           (walk_entries path_join w root_dir).
Proof.
  unfold generate_compile_tasks. apply fold_visit_dir_log.
Qed.

End MoreDiscoveryProperties.

Lemma skipped_directories_do_not_matter_witness :
  fst (generate_compile_tasks ascii_lower Sample.posix_join Sample.same_path Sample.world "/r"
         "xelatex" false)
  = fst (generate_compile_tasks ascii_lower Sample.posix_join Sample.same_path
           MoreSamples.world' "/r" "xelatex" false).
Proof.
  apply (skipped_directories_do_not_matter ascii_lower Sample.posix_join Sample.same_path
           Sample.world MoreSamples.world' "/r" "xelatex" false).
  - intros p. reflexivity.
  - reflexivity.
Defined.

Lemma every_task_was_read_witness :
  exists text,
    file Sample.world (tex_file Sample.task_a) = Readable text /\
    contains "\documentclass" text = true.
Proof.
  apply (every_task_was_read ascii_lower Sample.posix_join Sample.same_path Sample.world "/r"
           "xelatex" false Sample.task_a).
  vm_compute. right. left. reflexivity.
Defined.

Lemma task_engine_closed_witness :
  In (engine Sample.task_a) ["xelatex"; "pdf"; "lualatex"] /\
  In (nth 5 (latex_full_command Sample.posix_join Sample.same_path Sample.task_a)
        EmptyString)
     ["-xelatex"; "-pdf"; "-lualatex"].
Proof.
  apply (task_engine_closed ascii_lower Sample.posix_join Sample.same_path Sample.world "/r"
           "xelatex" false Sample.task_a).
  - left. reflexivity.
  - vm_compute. right. left. reflexivity.
Defined.

(** ** Executor, scheduler and summary *)

Lemma getitem_raise (d : PyDict) (k : PyKey) (e : Exc) :
  getitem d k = Raise e -> e = KeyError k.
Proof.
  induction d as [|[k' v] d IH]; cbn [getitem].
  - intros E. inversion E. reflexivity.
  - destruct (key_eqb k' k); [discriminate | exact IH].
Qed.

Section MoreExecutionProperties.

Variable path_join : string -> string -> string.
Variable abspath : string -> string.
Variable exc_str : Exc -> string.
Variable stdout_error : Stdout.

(** X9.  The result of the executor is the dict of the task, with its four
    items as they are and in their order, followed by the items success,
    elapsed_time and full_command, which hold the outcome, the difference
    of the two readings of the clock and the command of the task; the item
    error_msg stands between them exactly when the result is a failure,
    and is then a string. *)
Theorem build_result_invariant (env : ExecEnv) (task : Task) (log : list LogRecord) :
  exists d log',
    run_single_compile_task path_join abspath exc_str env task log = (Ok d, log') /\
    (d = task_dict task ++
         [ (KStr "success", VBool true);
           (KStr "elapsed_time", VFloat (PrimFloat.sub (time_end env) (time_start env)));
           (KStr "full_command", VList (latex_full_command path_join abspath task)) ] \/
     exists msg,
       d = task_dict task ++
           [ (KStr "success", VBool false);
             (KStr "elapsed_time",
              VFloat (PrimFloat.sub (time_end env) (time_start env)));
             (KStr "error_msg", VStr msg);
             (KStr "full_command", VList (latex_full_command path_join abspath task)) ]).
Proof.
  destruct (run_single_compile_task_returns path_join abspath exc_str env task log)
    as (log' & R).
  exists (build_result path_join abspath exc_str env task), log'.
  split; [exact R|]. unfold build_result, elapsed.
  destruct (diagnostic path_join abspath exc_str env task) as [msg|].
  - right. exists msg. reflexivity.
  - left. reflexivity.
Qed.

Lemma executor_result (env : ExecEnv) (task : Task) :
  fst (run_single_compile_task path_join abspath exc_str env task [])
  = Ok (build_result path_join abspath exc_str env task).
Proof.
  destruct (run_single_compile_task_returns path_join abspath exc_str env task [])
    as (log' & R).
  rewrite R. reflexivity.
Qed.

(** X10.  For a result of the executor the progress report raises nothing
    of its own: an exception it ends with is one that [print] raised.  When
    the standard output takes what is printed, the report makes three calls
    of [print] for a failure, quiet or not, one for a success, and none for
    a success when quiet, and leaves the collected results, the counter and
    the log as they are. *)
Theorem progress_report_prints
  (env : ExecEnv) (task : Task) (task_nums cnt : nat) (quiet : bool) (s : SchedState) :
  exists d,
    fst (run_single_compile_task path_join abspath exc_str env task []) = Ok d /\
    (accepts_all stdout_error ->
     exists s' printed,
       show_current_compile_result stdout_error d task_nums cnt quiet s = (Ok tt, s') /\
       console s' = console s ++ printed /\
       length printed = (if is_failure d then 3 else if quiet then 0 else 1) /\
       task_results s' = task_results s /\ task_cnt s' = task_cnt s /\
       sched_log s' = sched_log s) /\
    (forall e s',
        show_current_compile_result stdout_error d task_nums cnt quiet s = (Raise e, s') ->
        exists printed m, stdout_error printed m = Some e).
Proof.
  exists (build_result path_join abspath exc_str env task).
  split; [apply executor_result|]. split.
  - intros A.
    apply (show_current_compile_result_prints path_join abspath exc_str stdout_error
             env task task_nums cnt quiet s A).
  - intros e s'.
    apply (show_current_compile_result_raises path_join abspath exc_str stdout_error
             env task task_nums cnt quiet s s' e).
Qed.

(** X11.  When one of the keys tex_file, engine, elapsed_time and success
    is missing from the dict, the progress report raises [KeyError] for one
    of them and has printed nothing. *)
Theorem progress_report_missing_key
  (d : PyDict) (task_nums cnt : nat) (quiet : bool) (s : SchedState) (k : string) :
  In k ["tex_file"; "engine"; "elapsed_time"; "success"] ->
  getitem d (KStr k) = Raise (KeyError (KStr k)) ->
  exists k',
    In k' ["tex_file"; "engine"; "elapsed_time"; "success"] /\
    show_current_compile_result stdout_error d task_nums cnt quiet s
    = (Raise (KeyError (KStr k')), s).
Proof.
  intros I M. unfold show_current_compile_result, and_then, lift.
  destruct (getitem d (KStr "tex_file")) as [v1|e1] eqn:E1.
  2:{ apply getitem_raise in E1. subst e1. exists "tex_file".
      split; [cbn; auto 10 | reflexivity]. }
  destruct (getitem d (KStr "engine")) as [v2|e2] eqn:E2.
  2:{ apply getitem_raise in E2. subst e2. exists "engine".
      split; [cbn; auto 10 | reflexivity]. }
  destruct (getitem d (KStr "elapsed_time")) as [v3|e3] eqn:E3.
  2:{ apply getitem_raise in E3. subst e3. exists "elapsed_time".
      split; [cbn; auto 10 | reflexivity]. }
  destruct (getitem d (KStr "success")) as [v4|e4] eqn:E4.
  2:{ apply getitem_raise in E4. subst e4. exists "success".
      split; [cbn; auto 10 | reflexivity]. }
  exfalso. destruct I as [<-|[<-|[<-|[<-|[]]]]]; congruence.
Qed.

(** X12.  When the standard output takes what is printed and every future
    gives its result, the scheduler returns the results of the executor in
    the order in which the futures completed; the counter ends at their
    number; [print] is called once to announce the batch and then, for
    each result, three times for a failure, once for a success, and not at
    all for a success when quiet. *)
Theorem run_compile_tasks_in_completion_order
  (tasks : list Task) (quiet : bool) (envs : list ExecEnv) (order : list nat)
  (s : SchedState) :
  accepts_all stdout_error ->
  exists results s',
    run_compile_tasks path_join abspath exc_str stdout_error tasks quiet
      (map Completes envs) order s
    = (Ok results, s') /\
    map Ok results
    = map (fun future =>
             fst (run_single_compile_task path_join abspath exc_str
                    (snd future) (fst future) []))
        (flat_map (pick (combine tasks envs)) order) /\
    task_cnt s' = length results /\
    length (console s')
    = length (console s) + 1 + list_sum (map (progress_prints quiet) results).
Proof.
  intros A.
  destruct (run_compile_tasks_completes path_join abspath exc_str stdout_error
              tasks quiet envs order s A) as (s' & E & N & C & _).
  eexists. exists s'. split; [exact E|]. split; [|split; [|exact C]].
  - rewrite !map_map. apply map_ext. intros [task env]. cbn [fst snd].
    unfold result_of. cbn [fst snd]. symmetry. apply executor_result.
  - rewrite N, length_map. reflexivity.
Qed.

(** X21.  When the standard output takes what is printed, every future
    gives its result and each future completes once, the scheduler
    returns one result for each submitted task, whatever the outcome of
    each task was: as many results as tasks, and the results of the
    executor on the tasks up to the order of completion. *)
Theorem run_compile_tasks_one_result_per_task
  (tasks : list Task) (quiet : bool) (envs : list ExecEnv) (order : list nat)
  (s : SchedState) :
  accepts_all stdout_error ->
  length envs = length tasks ->
  Permutation order (seq 0 (length tasks)) ->
  exists results s',
    run_compile_tasks path_join abspath exc_str stdout_error tasks quiet
      (map Completes envs) order s
    = (Ok results, s') /\
    length results = length tasks /\
    Permutation (map Ok results)
      (map (fun future =>
              fst (run_single_compile_task path_join abspath exc_str
                     (snd future) (fst future) []))
         (combine tasks envs)).
Proof.
  intros A L P.
  destruct (run_compile_tasks_completes path_join abspath exc_str stdout_error
              tasks quiet envs order s A) as (s' & E & _).
  destruct (results_of_every_task tasks envs order L P) as (Q & QL).
  eexists. exists s'. split; [exact E|]. split.
  - rewrite length_map. exact QL.
  - rewrite map_map.
    rewrite (map_ext (fun future => Ok (result_of path_join abspath exc_str future))
               (fun future =>
                  fst (run_single_compile_task path_join abspath exc_str
                         (snd future) (fst future) []))).
    + apply Permutation_map. exact Q.
    + intros [task env]. cbn [fst snd]. symmetry. apply executor_result.
Qed.

End MoreExecutionProperties.

Lemma run_compile_tasks_one_result_per_task_witness :
  exists results s',
    run_compile_tasks Sample.posix_join Sample.same_path Sample.describe Sample.terminal
      [Sample.task_a; Sample.task_b] false
      (map Completes [Sample.env_ok; Sample.env_bad_stderr]) [1; 0] Sample.idle
    = (Ok results, s') /\
    length results = 2.
Proof.
  destruct (run_compile_tasks_one_result_per_task Sample.posix_join Sample.same_path
              Sample.describe Sample.terminal [Sample.task_a; Sample.task_b] false
              [Sample.env_ok; Sample.env_bad_stderr] [1; 0] Sample.idle
              (fun _ _ => eq_refl) eq_refl (perm_swap 0 1 []))
    as (results & s' & E & L & _).
  exists results, s'. split; [exact E | exact L].
Defined.

Lemma progress_report_prints_witness :
  exists s' printed,
    show_current_compile_result Sample.terminal
      (build_result Sample.posix_join Sample.same_path Sample.describe
         Sample.env_bad_stderr Sample.task_a) 2 0 true Sample.idle = (Ok tt, s') /\
    console s' = printed /\ length printed = 3.
Proof.
  destruct (progress_report_prints Sample.posix_join Sample.same_path Sample.describe
              Sample.terminal Sample.env_bad_stderr Sample.task_a 2 0 true Sample.idle)
    as (d & R & P & _).
  vm_compute in R. inversion R as [D]. clear R.
  destruct (P (fun _ _ => eq_refl)) as (s' & printed & E & C & L & _).
  rewrite <- D in E, L. exists s', printed.
  split; [exact E|]. split; [exact C | exact L].
Defined.

Lemma progress_report_missing_key_witness :
  exists k',
    In k' ["tex_file"; "engine"; "elapsed_time"; "success"] /\
    show_current_compile_result Sample.terminal (task_dict Sample.task_a) 1 0 false
      Sample.idle
    = (Raise (KeyError (KStr k')), Sample.idle).
Proof.
  apply (progress_report_missing_key Sample.terminal (task_dict Sample.task_a) 1 0 false
           Sample.idle "success").
  - cbn. auto.
  - reflexivity.
Defined.

Lemma run_compile_tasks_in_completion_order_witness :
  exists results s',
    run_compile_tasks Sample.posix_join Sample.same_path Sample.describe Sample.terminal
      [Sample.task_a; Sample.task_b] false
      (map Completes [Sample.env_ok; Sample.env_bad_stderr]) [1; 0] Sample.idle
    = (Ok results, s') /\
    task_cnt s' = length results /\
    length (console s') = 1 + list_sum (map (progress_prints false) results).
Proof.
  destruct (run_compile_tasks_in_completion_order Sample.posix_join Sample.same_path
              Sample.describe Sample.terminal [Sample.task_a; Sample.task_b] false
              [Sample.env_ok; Sample.env_bad_stderr] [1; 0] Sample.idle
              (fun _ _ => eq_refl))
    as (results & s' & E & _ & N & C).
  exists results, s'. split; [exact E|]. split; [exact N | exact C].
Defined.

Section SummaryProperties.

Variable path_join : string -> string -> string.
Variable abspath : string -> string.
Variable exc_str : Exc -> string.
Variable stdout_error : Stdout.

Lemma failures_le (results : list PyDict) : failures results <= length results.
Proof. apply filter_length_le. Qed.

Lemma failures_cons (d : PyDict) (results : list PyDict) :
  failures (d :: results)
  = (if is_failure d then 1 else 0) + failures results.
Proof.
  unfold failures. cbn [filter]. destruct (is_failure d); reflexivity.
Qed.

Lemma build_result_success (env : ExecEnv) (task : Task) :
  getitem (build_result path_join abspath exc_str env task) (KStr "success")
  = Ok (VBool (negb (is_failure (build_result path_join abspath exc_str env task)))).
Proof.
  unfold is_failure, build_result.
  destruct (diagnostic path_join abspath exc_str env task); reflexivity.
Qed.

Lemma count_results_executor :
  forall (futures : list (Task * ExecEnv)) (s f : nat),
    count_results (map (result_of path_join abspath exc_str) futures) s f
    = Ok (s + (length futures
               - failures (map (result_of path_join abspath exc_str) futures)),
          f + failures (map (result_of path_join abspath exc_str) futures)).
Proof.
  induction futures as [|[task env] futures IH]; intros s f.
  - cbn. rewrite !Nat.add_0_r. reflexivity.
  - cbn [map count_results].
    change (result_of path_join abspath exc_str (task, env))
      with (build_result path_join abspath exc_str env task).
    rewrite build_result_success, failures_cons. cbn [truthy length].
    pose proof (failures_le (map (result_of path_join abspath exc_str) futures)) as Le.
    rewrite length_map in Le.
    destruct (is_failure (build_result path_join abspath exc_str env task));
      cbn [negb]; rewrite IH; f_equal; f_equal; lia.
Qed.

Lemma show_failed_task_executor (env : ExecEnv) (task : Task) (s : SchedState) :
  accepts_all stdout_error ->
  exists s' printed,
    show_failed_task stdout_error (build_result path_join abspath exc_str env task) s
    = (Ok tt, s') /\
    console s' = console s ++ printed /\
    length printed
    = 3 * (if is_failure (build_result path_join abspath exc_str env task)
           then 1 else 0) /\
    task_results s' = task_results s /\ task_cnt s' = task_cnt s /\
    sched_log s' = sched_log s.
Proof.
  intros A.
  unfold is_failure, build_result, show_failed_task, and_then, lift, print, ret.
  destruct (diagnostic path_join abspath exc_str env task); cbn.
  - accept_prints A.
    eexists. eexists. split; [reflexivity|]. cbn [console task_results task_cnt sched_log].
    rewrite <- !app_assoc. cbn [app]. split; [reflexivity|]. repeat split.
  - exists s, []. rewrite app_nil_r. repeat split.
Qed.

Lemma for_each_show_failed_task :
  accepts_all stdout_error ->
  forall (futures : list (Task * ExecEnv)) (s : SchedState),
  exists s' printed,
    for_each (map (result_of path_join abspath exc_str) futures)
      (show_failed_task stdout_error) s
    = (Ok tt, s') /\
    console s' = console s ++ printed /\
    length printed = 3 * failures (map (result_of path_join abspath exc_str) futures) /\
    task_results s' = task_results s /\ task_cnt s' = task_cnt s /\
    sched_log s' = sched_log s.
Proof.
  intros A. induction futures as [|[task env] futures IH]; intros s.
  - exists s, []. split; [reflexivity|]. rewrite app_nil_r. cbn. auto.
  - cbn [map for_each]. unfold and_then at 1.
    change (result_of path_join abspath exc_str (task, env))
      with (build_result path_join abspath exc_str env task).
    destruct (show_failed_task_executor env task s A)
      as (s1 & p1 & E & C & Len & R & N & L).
    rewrite E. destruct (IH s1) as (s2 & p2 & E2 & C2 & Len2 & R2 & N2 & L2).
    exists s2, (p1 ++ p2). split; [exact E2|].
    rewrite C2, C, <- app_assoc, length_app, Len, Len2, failures_cons, R2, R, N2, N, L2, L.
    split; [reflexivity|]. split; [lia | auto].
Qed.

(** The results of the executor, as a list of descriptions. *)
Lemma executor_results (results : list PyDict) :
  Forall (fun d => exists env task,
              fst (run_single_compile_task path_join abspath exc_str env task []) = Ok d)
         results ->
  exists futures, results = map (result_of path_join abspath exc_str) futures.
Proof.
  induction 1 as [|d results (env & task & E) _ (futures & ->)].
  - exists []. reflexivity.
  - exists ((task, env) :: futures). cbn [map]. f_equal.
    rewrite executor_result in E. inversion E. reflexivity.
Qed.

Lemma show_compile_results_executor (futures : list (Task * ExecEnv)) (s : SchedState) :
  accepts_all stdout_error ->
  let results := map (result_of path_join abspath exc_str) futures in
  exists s' printed,
    show_compile_results stdout_error results s = (Ok tt, s') /\
    console s'
    = console s
        ++ [FText "Succeeded: "; FText (str_of_nat (length results - failures results));
            FText "   Failed: "; FText (str_of_nat (failures results))]
        :: printed /\
    length printed = (if failures results =? 0 then 0 else 1 + 3 * failures results) /\
    task_results s' = task_results s /\ task_cnt s' = task_cnt s /\
    sched_log s' = sched_log s.
Proof.
  intros A results. unfold show_compile_results, and_then at 1 2, lift.
  unfold results at 1. rewrite count_results_executor. cbn [fst snd Nat.add].
  fold results. rewrite <- (length_map (result_of path_join abspath exc_str) futures).
  fold results. unfold print at 1. rewrite A.
  destruct (failures results =? 0) eqn:Z.
  - eexists. exists []. split; [reflexivity|]. cbn. auto.
  - unfold and_then at 1, print. cbn [console]. rewrite A.
    match goal with
    | |- context [for_each results (show_failed_task _) ?st] =>
        destruct (for_each_show_failed_task A futures st)
          as (s2 & p2 & E2 & C2 & Len2 & R2 & N2 & L2)
    end.
    fold results in E2, Len2.
    exists s2, ([FText "Failed tasks:"] :: p2). split; [exact E2|].
    cbn [console task_results task_cnt sched_log] in C2, R2, N2, L2.
    rewrite C2, <- !app_assoc. cbn [app length].
    split; [reflexivity|]. split; [f_equal; exact Len2|]. auto.
Qed.

(** X13.  On results of the executor, when the standard output takes what
    is printed, the summary goes through.  Its first call of [print] gives
    the number of successes and the number of failures, which add up to
    the number of results; when nothing failed that is all; otherwise one
    call for the heading follows and three calls for each failure.  The
    collected results stay as they are. *)
Theorem summary_counts
  (results : list PyDict) (s : SchedState) :
  accepts_all stdout_error ->
  Forall (fun d => exists env task,
              fst (run_single_compile_task path_join abspath exc_str env task []) = Ok d)
         results ->
  exists s' printed,
    show_compile_results stdout_error results s = (Ok tt, s') /\
    console s'
    = console s
        ++ [FText "Succeeded: "; FText (str_of_nat (length results - failures results));
            FText "   Failed: "; FText (str_of_nat (failures results))]
        :: printed /\
    (length results - failures results) + failures results = length results /\
    length printed = (if failures results =? 0 then 0 else 1 + 3 * failures results) /\
    task_results s' = task_results s.
Proof.
  intros A F. destruct (executor_results results F) as (futures & ->).
  destruct (show_compile_results_executor futures s A)
    as (s' & printed & E & C & Len & R & _).
  exists s', printed. split; [exact E|]. split; [exact C|].
  split; [|split; [exact Len | exact R]].
  pose proof (failures_le (map (result_of path_join abspath exc_str) futures)). lia.
Qed.

Lemma count_results_missing_success :
  forall (results : list PyDict) (s f : nat),
    (exists d, In d results /\
               getitem d (KStr "success") = Raise (KeyError (KStr "success"))) ->
    count_results results s f = Raise (KeyError (KStr "success")).
Proof.
  induction results as [|d0 results IH]; intros s f (d & I & M).
  - contradiction.
  - cbn [count_results]. destruct (getitem d0 (KStr "success")) as [v|e] eqn:E.
    + destruct I as [->|I]; [congruence|].
      destruct (truthy v); apply IH; exists d; auto.
    + apply getitem_raise in E. subst e. reflexivity.
Qed.

(** X14.  When a result of the batch has no key success, the summary
    raises [KeyError] for that key and has printed nothing. *)
Theorem summary_missing_success (results : list PyDict) (s : SchedState) :
  (exists d, In d results /\
             getitem d (KStr "success") = Raise (KeyError (KStr "success"))) ->
  show_compile_results stdout_error results s = (Raise (KeyError (KStr "success")), s).
Proof.
  intros M. unfold show_compile_results, and_then at 1, lift.
  rewrite (count_results_missing_success results 0 0 M). reflexivity.
Qed.

End SummaryProperties.

Lemma summary_counts_witness :
  exists s' printed,
    show_compile_results Sample.terminal
      [build_result Sample.posix_join Sample.same_path Sample.describe
         Sample.env_bad_stderr Sample.task_a] Sample.idle = (Ok tt, s') /\
    console s'
    = console Sample.idle
        ++ [FText "Succeeded: "; FText "0"; FText "   Failed: "; FText "1"] :: printed /\
    length printed = 4.
Proof.
  destruct (summary_counts Sample.posix_join Sample.same_path Sample.describe
              Sample.terminal
              [build_result Sample.posix_join Sample.same_path Sample.describe
                 Sample.env_bad_stderr Sample.task_a] Sample.idle (fun _ _ => eq_refl))
    as (s' & printed & E & C & _ & Len & _).
  - constructor; [|constructor].
    exists Sample.env_bad_stderr, Sample.task_a. apply executor_result.
  - exists s', printed. split; [exact E|]. split; [exact C | exact Len].
Defined.

Lemma summary_missing_success_witness :
  show_compile_results Sample.terminal [task_dict Sample.task_a] Sample.idle
  = (Raise (KeyError (KStr "success")), Sample.idle).
Proof.
  apply (summary_missing_success Sample.terminal [task_dict Sample.task_a] Sample.idle).
  exists (task_dict Sample.task_a). split; [left; reflexivity | reflexivity].
Defined.

(** ** The JSON log and [main] *)

Lemma map_snd_combine {A B : Type} (l : list A) :
  forall l' : list B, length l = length l' -> map snd (combine l l') = l'.
Proof.
  induction l as [|a l IH]; intros [|b l'] E; try discriminate; [reflexivity|].
  cbn. f_equal. apply IH. inversion E. reflexivity.
Qed.

Section MainProperties.

Variable str_lower : string -> string.
Variable path_join : string -> string -> string.
Variable abspath : string -> string.
Variable exc_str : Exc -> string.
Variable float_repr : float -> string.
Variable stdout_error : Stdout.
Variable clean : string -> MainState -> MainState.
Variable pool : list Task -> list WorkerFate * list nat.

(** X15.  Writing the log never raises, and logs one record: the success
    at the debug level, or an error.  When the file cannot be opened the
    error is logged and the disk stays as it is.  When the file is opened
    and does not take the first result, the error is logged and the file
    holds what reached it.  When the file is opened and takes what is
    written, it holds the results and the success is logged. *)
Theorem output_to_json_logfile_never_raises (results : list PyDict) (s : ReportState) :
  exists s',
    output_to_json_logfile float_repr results s = (Ok tt, s') /\
    (report_log s'
     = report_log s
         ++ [(DEBUG,
              [FText "Compilation results successfully written to auto-latexmk.log"])]
     \/ exists e,
         report_log s'
         = report_log s ++ [(ERROR, [FText "Error writing to log file: "; FExc e])]) /\
    (forall e,
        refused (disk s) "auto-latexmk.log" = Some e ->
        disk s' = disk s /\
        report_log s'
        = report_log s ++ [(ERROR, [FText "Error writing to log file: "; FExc e])]) /\
    (forall r rest e part,
        refused (disk s) "auto-latexmk.log" = None ->
        results = r :: rest ->
        rejected (disk s) "auto-latexmk.log" (json_dump float_repr r) = Some (e, part) ->
        contents (disk s') "auto-latexmk.log" = Some part /\
        report_log s'
        = report_log s ++ [(ERROR, [FText "Error writing to log file: "; FExc e])]) /\
    (refused (disk s) "auto-latexmk.log" = None ->
     (forall text, rejected (disk s) "auto-latexmk.log" text = None) ->
     contents (disk s') "auto-latexmk.log" = Some (log_text float_repr results) /\
     report_log s'
     = report_log s
         ++ [(DEBUG,
              [FText "Compilation results successfully written to auto-latexmk.log"])]).
Proof.
  destruct (output_to_json_logfile_outcome float_repr results s) as (s' & E & L).
  exists s'. split; [exact E|]. split; [exact L|]. split; [|split].
  - intros e R.
    rewrite (output_to_json_logfile_refused float_repr results s e R) in E.
    inversion E. auto.
  - intros r rest e part R -> W. revert E.
    unfold output_to_json_logfile, try_except, and_then at 1 2, open_w, log_file_name.
    rewrite R. cbn [for_each]. unfold and_then at 1 2, write at 1.
    cbn [disk contents set_contents rejected]. rewrite W, String.eqb_refl.
    intros E. inversion E. cbn [disk contents set_contents report_log].
    rewrite String.eqb_refl. auto.
  - intros R T.
    destruct (output_to_json_logfile_written float_repr results s R T)
      as (s2 & E2 & C & _ & L2).
    rewrite E in E2. inversion E2. auto.
Qed.

Lemma for_each_show_planned_task (task_nums : nat) :
  accepts_all stdout_error ->
  forall (items : list (nat * Task)) (st : MainState),
  exists st' printed,
    for_each items (show_planned_task stdout_error task_nums) st = (Ok tt, st') /\
    console (sched st') = console (sched st) ++ printed /\
    map (fun m => nth 1 m (FText EmptyString)) printed
    = map (fun item => FVal (VStr (tex_file (snd item)))) items /\
    world st' = world st /\ report st' = report st /\
    task_results (sched st') = task_results (sched st).
Proof.
  intros A. induction items as [|item items IH]; intros st.
  - exists st, []. split; [reflexivity|]. rewrite app_nil_r. cbn. auto.
  - cbn [for_each]. unfold and_then at 1, show_planned_task at 1, in_sched, print.
    rewrite A.
    match goal with
    | |- context [for_each items _ ?st1] =>
        destruct (IH st1) as (st' & printed & E & C & M & W & R & T)
    end.
    cbn [sched console world report task_results] in C, W, R, T.
    eexists. eexists. split; [exact E|].
    rewrite C, <- app_assoc. cbn [app]. split; [reflexivity|].
    cbn [map nth]. rewrite M. auto.
Qed.

(** X16.  When the standard output takes what is printed, a dry run ends
    without an exception, whether or not the pre-clean was asked for.  It
    calls [print] for a heading, once for each task that discovery finds in
    the world as it is, naming the task's file, and for a closing line.  It
    leaves the listing, the files, the disk of the reporter and the
    collected results as they are. *)
Theorem dry_run_lists_the_tasks (args : Cli.Args) (st : MainState) :
  accepts_all stdout_error ->
  Cli.dry_run args = true ->
  exists st' printed,
    main str_lower path_join abspath exc_str float_repr stdout_error clean pool args st
    = (Ok tt, st') /\
    console (sched st')
    = console (sched st)
        ++ [FText "[Dry-run] ";
            FText (str_of_nat
                     (length (fst (generate_compile_tasks str_lower path_join abspath
                                     (world st) (Cli.root_dir args) (Cli.engine args)
                                     (Cli.only_include args)))));
            FText " tasks detected:"]
        :: printed
        ++ [[FText "Dry-run finished. No compilation or pre-clean executed."]] /\
    map (fun m => nth 1 m (FText EmptyString)) printed
    = map (fun task => FVal (VStr (tex_file task)))
        (fst (generate_compile_tasks str_lower path_join abspath (world st)
                (Cli.root_dir args) (Cli.engine args) (Cli.only_include args))) /\
    listing (world st') = listing (world st) /\
    file (world st') = file (world st) /\
    report st' = report st /\
    task_results (sched st') = task_results (sched st).
Proof.
  intros A Dry. unfold main. rewrite Dry.
  unfold and_then at 1 2 3 4, in_world. cbv beta iota zeta. cbn [world sched report].
  match goal with
  | |- context [generate_compile_tasks str_lower path_join abspath ?w3 _ _ _] =>
      destruct (generate_compile_tasks_tasks str_lower path_join abspath w3
                  (Cli.root_dir args) (Cli.engine args) (Cli.only_include args))
        as (w' & E & L & F)
  end.
  destruct (generate_compile_tasks_tasks str_lower path_join abspath (world st)
              (Cli.root_dir args) (Cli.engine args) (Cli.only_include args))
    as (w0 & E0 & _).
  rewrite E, E0. cbn [fst snd logging_debug file listing] in *.
  set (tasks := flat_map _ _).
  unfold and_then at 1 2, in_sched at 1, print at 1.
  cbn [world sched report]. rewrite A.
  match goal with
  | |- context [for_each (enumerate tasks) _ ?st1] =>
      destruct (for_each_show_planned_task (length tasks) A (enumerate tasks) st1)
        as (st2 & printed & E2 & C2 & M2 & W2 & R2 & T2)
  end.
  rewrite E2. unfold in_sched, print. rewrite A.
  cbn [world sched report console task_results] in C2, W2, R2, T2 |- *.
  eexists. exists printed. split; [reflexivity|].
  cbn [world sched report console task_results].
  rewrite C2, W2, R2, T2, <- !app_assoc. cbn [app].
  split; [reflexivity|]. split.
  - rewrite M2. unfold enumerate.
    rewrite <- (map_map snd (fun task => FVal (VStr (tex_file task)))).
    rewrite map_snd_combine; [reflexivity | apply length_seq].
  - rewrite L, F. auto.
Qed.

Lemma keeps_report_and_then {A B : Type} (m : Cmd MainState A) (k : A -> Cmd MainState B) :
  keeps_report m -> (forall a, keeps_report (k a)) -> keeps_report (and_then m k).
Proof.
  intros Hm Hk st. unfold and_then. specialize (Hm st).
  destruct (m st) as [[a|e] st1]; cbn [snd] in *.
  - rewrite (Hk a st1). exact Hm.
  - exact Hm.
Qed.

Lemma keeps_report_in_world {A : Type} (f : World -> A * World) :
  keeps_report (in_world f).
Proof.
  intros st. unfold in_world. destruct (f (world st)). reflexivity.
Qed.

Lemma keeps_report_in_sched {A : Type} (c : Cmd SchedState A) :
  keeps_report (in_sched c).
Proof.
  intros st. unfold in_sched. destruct (c (sched st)). reflexivity.
Qed.

Lemma keeps_report_ret {A : Type} (a : A) : keeps_report (ret (S := MainState) a).
Proof. intros st. reflexivity. Qed.

Lemma keeps_report_for_each {A : Type} (body : A -> Cmd MainState unit) :
  (forall a, keeps_report (body a)) ->
  forall l, keeps_report (for_each l body).
Proof.
  intros Hb. induction l as [|a l IH].
  - apply keeps_report_ret.
  - cbn [for_each]. apply keeps_report_and_then; [apply Hb | intros _; exact IH].
Qed.

(** X17.  The log file is written by no other run than a verbose one that
    compiles: a dry run, and without the pre-clean a run that is not
    verbose or does not compile, leave the disk of the reporter and its log
    as they are, however the run ends. *)
Theorem only_a_verbose_run_writes_the_log (args : Cli.Args) (st : MainState) :
  Cli.dry_run args = true \/
  (Cli.pre_clean args = false /\
   (Cli.verbose args = false \/ Cli.no_compile args = true)) ->
  report (snd (main str_lower path_join abspath exc_str float_repr stdout_error clean pool
                 args st))
  = report st.
Proof.
  intros H. revert st. change (keeps_report
    (main str_lower path_join abspath exc_str float_repr stdout_error clean pool args)).
  unfold main.
  repeat (apply keeps_report_and_then; [apply keeps_report_in_world | intros _]).
  destruct (Cli.dry_run args).
  - apply keeps_report_and_then; [apply keeps_report_in_world | intros tasks].
    apply keeps_report_and_then; [apply keeps_report_in_sched | intros _].
    apply keeps_report_and_then; [|intros _; apply keeps_report_in_sched].
    apply keeps_report_for_each. intros item. apply keeps_report_in_sched.
  - destruct H as [H|(P & H)]; [discriminate|]. rewrite P.
    apply keeps_report_and_then; [apply keeps_report_ret | intros _].
    destruct (Cli.no_compile args); cbn [negb].
    + apply keeps_report_in_sched.
    + destruct H as [V|H]; [|discriminate]. rewrite V.
      apply keeps_report_and_then; [apply keeps_report_in_world | intros tasks].
      apply keeps_report_and_then; [apply keeps_report_in_sched | intros results].
      apply keeps_report_and_then; [apply keeps_report_in_sched | intros _].
      apply keeps_report_ret.
Qed.

(** A batch with a future whose result cannot be retrieved ends with an
    exception: [KeyError(0)], unless the line that announces the batch
    could not be printed. *)
Lemma run_compile_tasks_raises
  (tasks : list Task) (quiet : bool) (fates : list WorkerFate) (order : list nat)
  (s : SchedState) :
  (exists task e, In (task, Crashes e) (flat_map (pick (combine tasks fates)) order)) ->
  exists e s',
    run_compile_tasks path_join abspath exc_str stdout_error tasks quiet fates order s
    = (Raise e, s') /\
    (accepts_announcements stdout_error -> e = KeyError (KInt 0)).
Proof.
  intros C. unfold run_compile_tasks.
  unfold and_then at 1 2 3, print, modify. cbn [console].
  destruct (stdout_error (console s)
              [FText "Processing "; FText (str_of_nat (length tasks));
               FText " tasks in parallel..."]) as [e|] eqn:H.
  - eexists. eexists. split; [reflexivity|].
    intros (_ & A). rewrite A in H. discriminate.
  - match goal with
    | |- context [for_each ?l ?body ?st] =>
        destruct (for_each_collect_crashes path_join abspath exc_str stdout_error
                    (length tasks) quiet l st C) as (s' & E)
    end.
    unfold Future in E. eexists. exists s'. rewrite E. split; reflexivity.
Qed.

(** How [main] goes on from the state in which it starts to compile. *)
Lemma main_compiles (args : Cli.Args) (st : MainState) :
  Cli.dry_run args = false ->
  Cli.no_compile args = false ->
  (Cli.pre_clean args = true ->
   stdout_error (console (sched (clean (Cli.root_dir args) (announced args st))))
     [FText "Pre-clean completed."] = None) ->
  main str_lower path_join abspath exc_str float_repr stdout_error clean pool args st
  = (tasks <-- in_world (fun w =>
       generate_compile_tasks str_lower path_join abspath w (Cli.root_dir args)
         (Cli.engine args) (Cli.only_include args)) ;;;
     tasks_results <-- in_sched
       (run_compile_tasks path_join abspath exc_str stdout_error tasks (Cli.quiet args)
          (fst (pool tasks)) (snd (pool tasks))) ;;;
     in_sched (show_compile_results stdout_error tasks_results) ;;;
     if Cli.verbose args then
       in_report (output_to_json_logfile float_repr tasks_results)
     else ret tt) (prepared clean args st).
Proof.
  intros Dry NoC Pre. unfold main, prepared. rewrite Dry, NoC. cbn [negb].
  unfold and_then at 1 2 3 4, in_world at 1 2 3. cbv beta iota zeta.
  fold (announced args st). destruct (Cli.pre_clean args).
  - pose proof (Pre eq_refl) as Accepted.
    unfold and_then at 1, modify, in_sched at 1, print at 1.
    unfold announced in *. cbn [world sched report] in *.
    rewrite Accepted. reflexivity.
  - reflexivity.
Qed.

(** A run whose line after the pre-clean cannot be printed ends there. *)
Lemma main_pre_clean_refused (args : Cli.Args) (st : MainState) (e : Exc) :
  Cli.dry_run args = false ->
  Cli.pre_clean args = true ->
  stdout_error (console (sched (clean (Cli.root_dir args) (announced args st))))
    [FText "Pre-clean completed."] = Some e ->
  exists st',
    main str_lower path_join abspath exc_str float_repr stdout_error clean pool args st
    = (Raise e, st') /\
    report st' = report (prepared clean args st).
Proof.
  intros Dry P Pre. unfold main, prepared. rewrite Dry, P.
  unfold and_then at 1 2 3 4, in_world at 1 2 3. cbv beta iota zeta.
  unfold and_then at 1, modify, in_sched at 1, print at 1.
  unfold announced in *. cbn [world sched report] in *.
  rewrite Pre. eexists. split; reflexivity.
Qed.

(** X18.  A verbose run that compiles, in which the standard output takes
    what is printed, the log can be opened and takes what is written, and
    every future gives its result, each future completing once, ends
    without an exception, and the log file then holds one record for each
    task that discovery found: the results of the executor on the tasks,
    up to the order of completion. *)
Theorem verbose_run_logs_every_task
  (args : Cli.Args) (st : MainState) (envs : list ExecEnv) (order : list nat) :
  Cli.dry_run args = false ->
  Cli.no_compile args = false ->
  Cli.verbose args = true ->
  accepts_all stdout_error ->
  let tasks :=
    fst (generate_compile_tasks str_lower path_join abspath
           (world (prepared clean args st))
           (Cli.root_dir args) (Cli.engine args) (Cli.only_include args)) in
  pool tasks = (map Completes envs, order) ->
  length envs = length tasks ->
  Permutation order (List.seq 0 (length tasks)) ->
  refused (disk (report (prepared clean args st))) "auto-latexmk.log" = None ->
  (forall text,
      rejected (disk (report (prepared clean args st))) "auto-latexmk.log" text = None) ->
  exists results st',
    main str_lower path_join abspath exc_str float_repr stdout_error clean pool args st
    = (Ok tt, st') /\
    length results = length tasks /\
    Permutation (map Ok results)
      (map (fun future =>
              fst (run_single_compile_task path_join abspath exc_str
                     (snd future) (fst future) []))
         (combine tasks envs)) /\
    contents (disk (report st')) "auto-latexmk.log"
    = Some (log_text float_repr results).
Proof.
  intros Dry NoC V A tasks Pool Len Perm Open Takes.
  rewrite (main_compiles args st Dry NoC (fun _ => A _ _)), V.
  unfold and_then at 1, in_world. subst tasks.
  destruct (generate_compile_tasks str_lower path_join abspath
              (world (prepared clean args st))
              (Cli.root_dir args) (Cli.engine args) (Cli.only_include args))
    as [tasks w1]. cbn [fst] in *.
  unfold and_then at 1, in_sched at 1. cbn [world sched report]. rewrite Pool.
  cbn [fst snd].
  destruct (run_compile_tasks_completes path_join abspath exc_str stdout_error tasks
              (Cli.quiet args) envs order (sched (prepared clean args st)) A)
    as (s1 & E1 & _).
  rewrite E1.
  set (futures := flat_map (pick (combine tasks envs)) order).
  unfold and_then at 1, in_sched at 1. cbn [world sched report].
  destruct (show_compile_results_executor path_join abspath exc_str stdout_error
              futures s1 A)
    as (s2 & printed & E2 & _).
  rewrite E2. unfold in_report. cbn [world sched report].
  destruct (output_to_json_logfile_written float_repr
              (map (result_of path_join abspath exc_str) futures)
              (report (prepared clean args st)) Open Takes) as (s3 & E3 & C3 & _).
  rewrite E3.
  exists (map (result_of path_join abspath exc_str) futures). eexists.
  split; [reflexivity|]. cbn [report].
  destruct (results_of_every_task tasks envs order Len Perm) as (Q & QL).
  fold futures in Q, QL.
  split; [|split; [|exact C3]].
  - rewrite length_map. exact QL.
  - rewrite map_map.
    rewrite (map_ext (fun future => Ok (result_of path_join abspath exc_str future))
               (fun future =>
                  fst (run_single_compile_task path_join abspath exc_str
                         (snd future) (fst future) []))).
    + apply Permutation_map. exact Q.
    + intros [task env]. cbn [fst snd]. symmetry.
      apply (executor_result path_join abspath exc_str env task).
Qed.

(** X19.  When the result of one future of the batch cannot be retrieved,
    a run that compiles ends with an exception: no summary is reached and,
    verbose or not, the disk of the reporter stays as it was when the
    compilation started.  The exception is [KeyError(0)] when the standard
    output takes the two lines that are printed before the first future is
    looked at. *)
Theorem retrieval_error_ends_the_run (args : Cli.Args) (st : MainState) :
  Cli.dry_run args = false ->
  Cli.no_compile args = false ->
  let tasks :=
    fst (generate_compile_tasks str_lower path_join abspath
           (world (prepared clean args st))
           (Cli.root_dir args) (Cli.engine args) (Cli.only_include args)) in
  (exists task e,
      In (task, Crashes e)
         (flat_map (pick (combine tasks (fst (pool tasks)))) (snd (pool tasks)))) ->
  exists e st',
    main str_lower path_join abspath exc_str float_repr stdout_error clean pool args st
    = (Raise e, st') /\
    report st' = report (prepared clean args st) /\
    (accepts_announcements stdout_error -> e = KeyError (KInt 0)).
Proof.
  intros Dry NoC tasks Crash.
  assert (Go :
    (Cli.pre_clean args = true ->
     stdout_error (console (sched (clean (Cli.root_dir args) (announced args st))))
       [FText "Pre-clean completed."] = None) ->
    exists e st',
      main str_lower path_join abspath exc_str float_repr stdout_error clean pool args st
      = (Raise e, st') /\
      report st' = report (prepared clean args st) /\
      (accepts_announcements stdout_error -> e = KeyError (KInt 0))).
  { intros Pre. rewrite (main_compiles args st Dry NoC Pre).
    unfold and_then at 1, in_world. subst tasks.
    destruct (generate_compile_tasks str_lower path_join abspath
                (world (prepared clean args st))
                (Cli.root_dir args) (Cli.engine args) (Cli.only_include args))
      as [tasks w1]. cbn [fst] in *.
    unfold and_then at 1, in_sched at 1. cbn [world sched report].
    destruct (run_compile_tasks_raises tasks (Cli.quiet args) (fst (pool tasks))
                (snd (pool tasks)) (sched (prepared clean args st)) Crash)
      as (e & s1 & E1 & K).
    rewrite E1. exists e. eexists. split; [reflexivity|]. split; [reflexivity | exact K]. }
  destruct (Cli.pre_clean args) eqn:P; [|apply Go; discriminate].
  destruct (stdout_error (console (sched (clean (Cli.root_dir args) (announced args st))))
              [FText "Pre-clean completed."]) as [e|] eqn:Pre;
    [|apply Go; reflexivity].
  destruct (main_pre_clean_refused args st e Dry P Pre) as (st' & E & R).
  exists e, st'. split; [exact E|]. split; [exact R|].
  intros (A & _). rewrite A in Pre. discriminate.
Qed.

End MainProperties.

Lemma output_to_json_logfile_never_raises_witness :
  exists s',
    output_to_json_logfile Sample.shown
      [build_result Sample.posix_join Sample.same_path Sample.describe
         Sample.env_ok Sample.task_b] MoreSamples.report_on_full_disk = (Ok tt, s') /\
    contents (disk s') "auto-latexmk.log" = Some EmptyString /\
    report_log s'
    = [(ERROR, [FText "Error writing to log file: ";
                FExc (OSError "No space left on device")])].
Proof.
  destruct (output_to_json_logfile_never_raises Sample.shown
              [build_result Sample.posix_join Sample.same_path Sample.describe
                 Sample.env_ok Sample.task_b] MoreSamples.report_on_full_disk)
    as (s' & E & _ & _ & W & _).
  exists s'. split; [exact E|].
  apply (W _ [] (OSError "No space left on device") EmptyString eq_refl eq_refl eq_refl).
Defined.

Lemma dry_run_lists_the_tasks_witness :
  exists st' printed,
    main ascii_lower Sample.posix_join Sample.same_path Sample.describe Sample.shown
      Sample.terminal MoreSamples.no_clean MoreSamples.calm_pool MoreSamples.args_dry
      MoreSamples.start
    = (Ok tt, st') /\
    map (fun m => nth 1 m (FText EmptyString)) printed
    = [FVal (VStr "/r/plain.tex"); FVal (VStr "/r/a/main.tex");
       FVal (VStr "/r/a/odd.tex")] /\
    report st' = report MoreSamples.start.
Proof.
  destruct (dry_run_lists_the_tasks ascii_lower Sample.posix_join Sample.same_path
              Sample.describe Sample.shown Sample.terminal MoreSamples.no_clean
              MoreSamples.calm_pool MoreSamples.args_dry MoreSamples.start
              (fun _ _ => eq_refl) eq_refl)
    as (st' & printed & E & _ & M & _ & _ & R & _).
  exists st', printed. split; [exact E|]. split; [exact M | exact R].
Defined.

Lemma only_a_verbose_run_writes_the_log_witness :
  report (snd (main ascii_lower Sample.posix_join Sample.same_path Sample.describe Sample.shown
                 Sample.terminal MoreSamples.no_clean MoreSamples.calm_pool
                 MoreSamples.args_plain MoreSamples.start))
  = report MoreSamples.start.
Proof.
  apply (only_a_verbose_run_writes_the_log ascii_lower Sample.posix_join Sample.same_path
           Sample.describe Sample.shown Sample.terminal MoreSamples.no_clean
           MoreSamples.calm_pool MoreSamples.args_plain MoreSamples.start).
  right. split; [reflexivity | left; reflexivity].
Defined.

Lemma verbose_run_logs_every_task_witness :
  exists results st',
    main ascii_lower Sample.posix_join Sample.same_path Sample.describe Sample.shown
      Sample.terminal MoreSamples.no_clean MoreSamples.calm_pool
      MoreSamples.args_verbose MoreSamples.start = (Ok tt, st') /\
    length results = 3 /\
    contents (disk (report st')) "auto-latexmk.log"
    = Some (log_text Sample.shown results).
Proof.
  destruct (verbose_run_logs_every_task ascii_lower Sample.posix_join Sample.same_path
              Sample.describe Sample.shown Sample.terminal MoreSamples.no_clean
              MoreSamples.calm_pool MoreSamples.args_verbose MoreSamples.start
              [Sample.env_ok; Sample.env_ok; Sample.env_ok] [0; 1; 2]
              eq_refl eq_refl eq_refl (fun _ _ => eq_refl))
    as (results & st' & E & L & _ & C).
  - reflexivity.
  - reflexivity.
  - apply Permutation_refl.
  - reflexivity.
  - intros text. reflexivity.
  - exists results, st'. split; [exact E|]. split; [exact L | exact C].
Defined.

Lemma retrieval_error_ends_the_run_witness :
  exists st',
    main ascii_lower Sample.posix_join Sample.same_path Sample.describe Sample.shown
      Sample.terminal MoreSamples.no_clean MoreSamples.broken_pool
      MoreSamples.args_verbose MoreSamples.start = (Raise (KeyError (KInt 0)), st') /\
    report st' = report MoreSamples.start.
Proof.
  destruct (retrieval_error_ends_the_run ascii_lower Sample.posix_join Sample.same_path
              Sample.describe Sample.shown Sample.terminal MoreSamples.no_clean
              MoreSamples.broken_pool MoreSamples.args_verbose MoreSamples.start
              eq_refl eq_refl)
    as (e & st' & E & R & K).
  - exists Sample.task_b, BrokenProcessPool. vm_compute. left. reflexivity.
  - exists st'. rewrite <- (K (conj (fun _ => eq_refl) (fun _ _ => eq_refl))).
    split; [exact E | exact R].
Defined.
